(** * robot_remote_control: the controlled-robot engine

    A shallow embedding of [src/ControlledRobot/ControlledRobot.hpp] and
    [src/ControlledRobot/ControlledRobot.cpp]: the command buffers, the
    telemetry side, the request evaluator and the update loop, followed by
    the properties of the engine.

    Conventions.
    - A [std::string] used as a byte buffer is a [list byte]; a
      [std::string] used as text is a [string].
    - [uint16_t], [uint32_t] and [size_t] values are [Z], the wrap-around
      written out where the code can reach it.
    - Every method is a function from the object state to an [Outcome]:
      a normal return with the new state, a C++ exception that leaves the
      method, or undefined behaviour.
    - Out-parameters ([COMMAND *target]) are passed in and returned.
    - Mutexes and atomics are not modelled: one method runs at a time. *)

From Stdlib Require Import ZArith List Bool Lia String.
From Stdlib.Strings Require Import Byte.
From stdpp Require Import base option gmap strings list.
Import ListNotations.
Open Scope Z_scope.

(** ** Bytes and the 16-bit message-type header *)

Abbreviation bytes := (list byte).

Definition byte_to_Z (b : byte) : Z := Z.of_N (Byte.to_N b).

Definition byte_of_Z (z : Z) : byte :=
  default x00 (Byte.of_N (Z.to_N (z mod 256))).

(** [*data = type] through a [uint16_t*] into the buffer: the two bytes of
    the value in host order (little-endian on the hosts the library
    targets). *)
Definition store_u16 (v : Z) : bytes :=
  [byte_of_Z v; byte_of_Z (v / 256)].

(** [*reinterpret_cast<uint16_t*>(s.data())].  [s.data()] holds the
    [s.size()] bytes of [s] followed by one terminating zero, so a one-byte
    string still gives two readable bytes; on the empty string the second
    byte lies behind the terminator and the read is out of bounds. *)
Definition load_u16 (s : bytes) : option Z :=
  match s with
  | [] => None
  | [b0] => Some (byte_to_Z b0)
  | b0 :: b1 :: _ => Some (byte_to_Z b0 + 256 * byte_to_Z b1)
  end.

(** [size_t] arithmetic (64 bit). *)
Definition size_t_wrap (z : Z) : Z := z mod 18446744073709551616.

(** Conversion of a [size_t] to the [int] a method returns. *)
Definition to_int (z : Z) : Z :=
  let w := z mod 4294967296 in
  if w <? 2147483648 then w else w - 4294967296.

(** [std::string::max_size()] of libstdc++ on a 64-bit host. *)
Definition string_max_size : Z := 4611686018427387903.

(** ** Results of a method call *)

Inductive Exception :=
  | length_error.      (* std::length_error, from the std::string constructor *)

Inductive Outcome (A S : Type) :=
  | Done (a : A) (s : S)          (* normal return *)
  | Threw (e : Exception) (s : S) (* an exception leaves the method *)
  | Undefined.                    (* out-of-bounds read, null or dangling
                                     access, missing return value *)
Arguments Done {A S} a s.
Arguments Threw {A S} e s.
Arguments Undefined {A S}.

(** ** Protobuf messages

    The generated message classes are not part of the engine; the engine
    uses three of their operations.  [ParseFromString] clears the message
    and merges the input into it, so its result does not depend on the
    previous content; when it reports failure the message keeps whatever
    was merged before the error. *)

Class ProtoMessage (M : Type) := {
  proto_new : M;
  ParseFromString : bytes -> bool * M;
  SerializeToString : M -> bytes
}.

(** [AppendToString(&buf)] *)
Definition AppendToString {M} `{!ProtoMessage M} (m : M) (buf : bytes) : bytes :=
  buf ++ SerializeToString m.

(** ** Command buffers ([ControlledRobot::CommandBuffer<COMMAND>])

    A registered callback is identified by a number; calling it is
    recorded, its body is user code. *)

Definition Callback := nat.

Record CommandBuffer (COMMAND : Type) := mkCommandBuffer {
  command : COMMAND;
  isnew : bool;
  callbacks : list Callback     (* CommandBufferBase::callbacks *)
}.
Arguments mkCommandBuffer {COMMAND} _ _ _.
Arguments command {COMMAND} _.
Arguments isnew {COMMAND} _.
Arguments callbacks {COMMAND} _.

Module CommandBuffer.
Section Methods.
Context {COMMAND : Type} `{!ProtoMessage COMMAND}.

  (** [CommandBuffer() : isnew(false)] *)
Definition new : CommandBuffer COMMAND :=
    mkCommandBuffer proto_new false [].

  (** [notify()]: the callbacks called, in order. *)
Definition notify (b : CommandBuffer COMMAND) : list Callback :=
    callbacks b.

Definition addCommandReceivedCallback (cb : Callback) (b : CommandBuffer COMMAND)
    : CommandBuffer COMMAND :=
    mkCommandBuffer (command b) (isnew b) (callbacks b ++ [cb]).

  (** [bool read(COMMAND *target)]: result, [*target] afterwards, buffer. *)
Definition read (target : COMMAND) (b : CommandBuffer COMMAND)
    : bool * COMMAND * CommandBuffer COMMAND :=
    let oldval := isnew b in
    let target := command b in
    (oldval, target, mkCommandBuffer (command b) false (callbacks b)).

  (** [void write(const COMMAND &src)]: buffer and the callbacks called. *)
Definition write_command (src : COMMAND) (b : CommandBuffer COMMAND)
    : CommandBuffer COMMAND * list Callback :=
    let b' := mkCommandBuffer src true (callbacks b) in
    (b', notify b').

  (** [bool write(const std::string &serializedMessage)] *)
Definition write (serializedMessage : bytes) (b : CommandBuffer COMMAND)
    : bool * CommandBuffer COMMAND * list Callback :=
    let '(ok, parsed) := ParseFromString serializedMessage in
    if negb ok then
      (false, mkCommandBuffer parsed false (callbacks b), [])
    else
      let b' := mkCommandBuffer parsed true (callbacks b) in
      (true, b', notify b').

  (** [bool read(std::string *receivedMessage)] *)
Definition read_string (receivedMessage : bytes) (b : CommandBuffer COMMAND)
    : bool * bytes * CommandBuffer COMMAND :=
    let oldval := isnew b in
    let receivedMessage := SerializeToString (command b) in
    (oldval, receivedMessage, mkCommandBuffer (command b) false (callbacks b)).
End Methods.
End CommandBuffer.

(** ** The host: clock, floats, file system, compression

    [Timer] (UpdateThread/Timer.hpp), [float] arithmetic, the file system
    and zlib are used through their interfaces only. *)

Class Host := {
  float : Type;
  fadd : float -> float -> float;
  float_0_1 : float;                                  (* the literal 0.1 *)
  Timer : Type;
  Timer_new : Timer;
  Timer_start : float -> Timer -> Timer;              (* start(timeout) *)
  Timer_isExpired : Timer -> bool * Timer;            (* isExpired() *)
  Timer_getElapsedTime : Timer -> float * Timer;      (* getElapsedTime() *)
  ZLIB_FOUND : bool;                                  (* build option *)
  compressString : bytes -> bytes;                    (* Compression::compressString *)
  ifstream_read : string -> option bytes;             (* the content, when the stream opens *)
  (* the entries a recursive directory walk visits, and the what() of the
     filesystem_error that ends it, if any *)
  recursive_directory_iterator : string -> list string * option string
}.

(** ** Message classes the engine looks into *)

Module HeartBeat.
Record t `{Host} := mk { heartbeatduration : float; heartbeatlatency : float }.
Arguments mk {_} _ _.
End HeartBeat.

Module Permission.
Record t := mk { requestuid : string; granted : bool }.
End Permission.

Module PermissionRequest.
Record t := mk { description : string; requestuid : string }.
End PermissionRequest.

Module LogMessage.
Record t := mk { level : Z; message : string }.
End LogMessage.

Module FileRequest.
Record t := mk { identifier : string; compressed : bool }.
Definition set_compressed (v : bool) (m : t) : t := mk (identifier m) v.
End FileRequest.

Module File.
Record t := mk { identifier : string; path : string; data : bytes }.
Definition new : t := mk EmptyString EmptyString [].
Definition set_path (v : string) (m : t) : t := mk (identifier m) v (data m).
Definition set_data (v : bytes) (m : t) : t := mk (identifier m) (path m) v.
End File.

Module Folder.
Record t := mk { identifier : string; compressed : bool; file : list File.t }.
Definition new : t := mk EmptyString false [].
Definition add_file (f : File.t) (m : t) : t :=
    mk (identifier m) (compressed m) (file m ++ [f]).
Definition set_compressed (v : bool) (m : t) : t := mk (identifier m) v (file m).
Definition set_identifier (v : string) (m : t) : t := mk v (compressed m) (file m).
End Folder.

Module FileDefinition.
Record t := mk { file : list File.t; isfolder : list bool }.
Definition new : t := mk [] [].
End FileDefinition.

(** The generated classes of RobotRemoteControl.pb.h: the message types the
    engine only stores and forwards, and the codecs of all of them. *)
Class Schema `{Host} := {
  Pose : Type; Twist : Type; GoTo : Type; SimpleAction : Type;
  ComplexAction : Type; JointCommand : Type; Poses : Type;
  Pose_proto :: ProtoMessage Pose;
  Twist_proto :: ProtoMessage Twist;
  GoTo_proto :: ProtoMessage GoTo;
  SimpleAction_proto :: ProtoMessage SimpleAction;
  ComplexAction_proto :: ProtoMessage ComplexAction;
  JointCommand_proto :: ProtoMessage JointCommand;
  Poses_proto :: ProtoMessage Poses;
  HeartBeat_proto :: ProtoMessage HeartBeat.t;
  Permission_proto :: ProtoMessage Permission.t;
  PermissionRequest_proto :: ProtoMessage PermissionRequest.t;
  LogMessage_proto :: ProtoMessage LogMessage.t;
  FileRequest_proto :: ProtoMessage FileRequest.t;
  Folder_proto :: ProtoMessage Folder.t
}.

(** ** Message types (MessageTypes.hpp)

    The header with the two enumerations is not under src/; the engine
    depends on the enumerators being distinct 16-bit values, not on the
    values themselves. *)

Class MessageTypes := {
  (* enum ControlMessageType *)
  NO_CONTROL_DATA : Z; TARGET_POSE_COMMAND : Z; TWIST_COMMAND : Z;
  GOTO_COMMAND : Z; SIMPLE_ACTIONS_COMMAND : Z; COMPLEX_ACTION_COMMAND : Z;
  JOINTS_COMMAND : Z; HEARTBEAT : Z; PERMISSION : Z;
  ROBOT_TRAJECTORY_COMMAND : Z; TELEMETRY_REQUEST : Z; MAP_REQUEST : Z;
  LOG_LEVEL_SELECT : Z; FILE_REQUEST : Z;
  (* enum TelemetryMessageType *)
  CURRENT_POSE : Z; JOINT_STATE : Z; CONTROLLABLE_JOINTS : Z;
  SIMPLE_ACTIONS : Z; COMPLEX_ACTIONS : Z; ROBOT_NAME : Z; ROBOT_STATE : Z;
  LOG_MESSAGE : Z; VIDEO_STREAMS : Z; SIMPLE_SENSOR_DEFINITION : Z;
  SIMPLE_SENSOR_VALUE : Z; WRENCH_STATE : Z; MAPS_DEFINITION : Z; MAP : Z;
  POSES : Z; TRANSFORMS : Z; PERMISSION_REQUEST : Z; POINTCLOUD : Z;
  IMU_VALUES : Z; CONTACT_POINTS : Z; CURRENT_TWIST : Z;
  CURRENT_ACCELERATION : Z; CAMERA_INFORMATION : Z; IMAGE : Z;
  IMAGE_LAYERS : Z; ODOMETRY : Z; CONTROLLABLE_FRAMES : Z;
  FILE_DEFINITION : Z;
  control_types :=
    [NO_CONTROL_DATA; TARGET_POSE_COMMAND; TWIST_COMMAND; GOTO_COMMAND;
     SIMPLE_ACTIONS_COMMAND; COMPLEX_ACTION_COMMAND; JOINTS_COMMAND;
     HEARTBEAT; PERMISSION; ROBOT_TRAJECTORY_COMMAND; TELEMETRY_REQUEST;
     MAP_REQUEST; LOG_LEVEL_SELECT; FILE_REQUEST];
  telemetry_types :=
    [CURRENT_POSE; JOINT_STATE; CONTROLLABLE_JOINTS; SIMPLE_ACTIONS;
     COMPLEX_ACTIONS; ROBOT_NAME; ROBOT_STATE; LOG_MESSAGE; VIDEO_STREAMS;
     SIMPLE_SENSOR_DEFINITION; SIMPLE_SENSOR_VALUE; WRENCH_STATE;
     MAPS_DEFINITION; MAP; POSES; TRANSFORMS; PERMISSION_REQUEST;
     POINTCLOUD; IMU_VALUES; CONTACT_POINTS; CURRENT_TWIST;
     CURRENT_ACCELERATION; CAMERA_INFORMATION; IMAGE; IMAGE_LAYERS;
     ODOMETRY; CONTROLLABLE_FRAMES; FILE_DEFINITION];
  control_types_NoDup : NoDup control_types;
  control_types_u16 : Forall (fun k => 0 <= k < 65536) control_types;
  telemetry_types_NoDup : NoDup telemetry_types;
  telemetry_types_u16 : Forall (fun k => 0 <= k < 65536) telemetry_types
}.

(** [enum LogLevel], as the header documents it:
    NONE=0, FATAL, ERROR, WARN, INFO, DEBUG, CUSTOM=20. *)
Definition NONE : Z := 0.
Definition FATAL : Z := 1.
Definition ERROR : Z := 2.
Definition WARN : Z := 3.
Definition INFO : Z := 4.
Definition DEBUG : Z := 5.
Definition CUSTOM : Z := 20.

(** ** Transports (Transports/Transport.hpp)

    The interface the engine uses: [send(bytes)] returns the number of bytes
    the transport reports as sent, [receive(&msg, NOBLOCK)] returns non-zero
    when [msg] holds a message.  [inbox] lists the messages [receive] will
    deliver, [outbox] the buffers handed to [send] so far. *)

Record Transport := mkTransport {
  inbox : list bytes;
  outbox : list bytes;
  send_result : bytes -> Z
}.

Module TransportOps.
Definition send (msg : bytes) (t : Transport) : Z * Transport :=
  (send_result t msg, mkTransport (inbox t) (outbox t ++ [msg]) (send_result t)).

Definition receive (t : Transport) : option bytes * Transport :=
  match inbox t with
  | [] => (None, t)
  | msg :: rest => (Some msg, mkTransport rest (outbox t) (send_result t))
  end.
End TransportOps.

(** ** [std::promise<bool>]

    The shared state of a promise and what has been taken from it.  The
    entries of [pendingPermissionRequests] are never erased, so a
    [std::shared_future] obtained from an entry is named by the key of the
    entry. *)

Record promise := mkPromise {
  shared_value : option bool;   (* the value, once set *)
  future_retrieved : bool       (* get_future() has been called *)
}.

Definition promise_new : promise := mkPromise None false.

(** [set_value(v)]: [None] when it throws [std::future_error]
    (promise_already_satisfied). *)
Definition promise_set_value (v : bool) (p : promise) : option promise :=
  match shared_value p with
  | Some _ => None
  | None => Some (mkPromise (Some v) (future_retrieved p))
  end.

(** [get_future()]: [None] when it throws [std::future_error]
    (future_already_retrieved). *)
Definition promise_get_future (p : promise) : option promise :=
  if future_retrieved p then None
  else Some (mkPromise (shared_value p) true).

Record shared_future := mkFuture { future_key : string }.

(** ** Telemetry and map buffers *)

(** Modelled from the spec: [TelemetryBuffer] and [RingBufferAccess]
    (TelemetryBuffer.hpp, not under src/).  Each registered telemetry type
    has one slot of size 1 holding the most recent serialized payload,
    empty until the first push; [peekSerialized] returns the stored payload
    behind its 2-byte type, or an empty buffer when nothing was pushed.
    A type without a slot has no buffer to access. *)
Abbreviation TelemetryBuffer := (gmap Z (option bytes)).

Definition registerType (type : Z) (b : TelemetryBuffer) : TelemetryBuffer :=
  <[type := None]> b.

Definition pushData (type : Z) (payload : bytes) (b : TelemetryBuffer)
  : option TelemetryBuffer :=
  match b !! type with
  | Some _ => Some (<[type := Some payload]> b)
  | None => None
  end.

Definition peekSerialized (type : Z) (b : TelemetryBuffer) : option bytes :=
  match b !! type with
  | Some (Some payload) => Some (store_u16 type ++ payload)
  | Some None => Some []
  | None => None
  end.

(** Modelled from the spec: [SimpleBuffer<std::string>] (SimpleBuffer.hpp,
    not under src/), a vector of size-1 buffers indexed by map id;
    [initBufferID] makes the index valid, pushing replaces the content and
    peeking an empty buffer leaves the target untouched. *)
Definition initBufferID (id : nat) (b : list (option bytes)) : list (option bytes) :=
  b ++ replicate (S id - length b) None.

Definition pushMap (id : nat) (map : bytes) (b : list (option bytes))
  : list (option bytes) :=
  <[id := Some map]> b.

Definition peekMap (slot : option (option bytes)) (target : bytes) : bytes :=
  match slot with
  | Some (Some map) => map
  | _ => target
  end.

(** ** What the engine does to the outside, apart from the transports *)

Inductive Printed :=
  | unable_to_parse (msgtype : Z)
  | future_error_what
  | zlib_not_available
  | requested_file_undefined (identifier : string)
  | filesystem_error_what (what : string)
  | ERROR_Transport_invalid.

Inductive Event `{Host} :=
  | printf (line : Printed)
  | buffer_callback (cb : Callback)                 (* a CommandBufferBase callback *)
  | command_callback (cb : Callback) (type : Z)     (* a commandCallbacks entry *)
  | heartbeat_expired_callback (cb : Callback) (elapsedTime : float).

(** The member buffers [commandbuffers] points to. *)
Inductive CommandBufferPtr :=
  | p_poseCommand | p_twistCommand | p_jointsCommand | p_simpleActionsCommand
  | p_complexActionCommandBuffer | p_goToCommand | p_heartbeatCommand
  | p_permissionCommand | p_robotTrajectoryCommand.

(** ** The engine state ([class ControlledRobot])

    The members are those of the header.  The header under src/ declares
    all nine command buffers as [CommandBuffer<T>]; [files] is the
    [FileDefinition] member the .cpp reads.  The statistics member is
    left out: it is updated only under RRC_STATISTICS and never read by
    the engine.  [commandTransport] is dereferenced unchecked by the code
    and is taken as present. *)

Record ControlledRobot `{Schema} := mkControlledRobot {
  commandTransport : Transport;
  telemetryTransport : option Transport;   (* a null pointer is None *)
  poseCommand : CommandBuffer Pose;
  twistCommand : CommandBuffer Twist;
  goToCommand : CommandBuffer GoTo;
  simpleActionsCommand : CommandBuffer SimpleAction;
  complexActionCommandBuffer : CommandBuffer ComplexAction;
  jointsCommand : CommandBuffer JointCommand;
  heartbeatCommand : CommandBuffer HeartBeat.t;
  permissionCommand : CommandBuffer Permission.t;
  robotTrajectoryCommand : CommandBuffer Poses;
  commandCallbacks : list Callback;
  heartbeatValues : HeartBeat.t;
  heartbeatTimer : Timer;
  heartbeatAllowedLatency : float;
  heartbeatExpiredCallback : option Callback;   (* nullptr is None *)
  connected : bool;
  mapBuffer : list (option bytes);
  commandbuffers : gmap Z (option CommandBufferPtr);   (* a stored nullptr is Some None *)
  buffers : TelemetryBuffer;
  logLevel : Z;
  pendingPermissionRequests : gmap string promise;
  files : FileDefinition.t;   (* used by the .cpp *)
  events : list Event   (* printf output and callbacks called, oldest first *)
}.
Arguments mkControlledRobot {_ _}.

Section Setters.
Context `{Schema}.

Definition set_commandTransport (v : Transport) (r : ControlledRobot) : ControlledRobot :=
  mkControlledRobot v (telemetryTransport r) (poseCommand r) (twistCommand
    r) (goToCommand r) (simpleActionsCommand r) (complexActionCommandBuffer
    r) (jointsCommand r) (heartbeatCommand r) (permissionCommand r)
    (robotTrajectoryCommand r) (commandCallbacks r) (heartbeatValues r)
    (heartbeatTimer r) (heartbeatAllowedLatency r) (heartbeatExpiredCallback
    r) (connected r) (mapBuffer r) (commandbuffers r) (buffers r) (logLevel
    r) (pendingPermissionRequests r) (files r) (events r).

Definition set_telemetryTransport (v : option Transport) (r : ControlledRobot) : ControlledRobot :=
  mkControlledRobot (commandTransport r) v (poseCommand r) (twistCommand r)
    (goToCommand r) (simpleActionsCommand r) (complexActionCommandBuffer r)
    (jointsCommand r) (heartbeatCommand r) (permissionCommand r)
    (robotTrajectoryCommand r) (commandCallbacks r) (heartbeatValues r)
    (heartbeatTimer r) (heartbeatAllowedLatency r) (heartbeatExpiredCallback
    r) (connected r) (mapBuffer r) (commandbuffers r) (buffers r) (logLevel
    r) (pendingPermissionRequests r) (files r) (events r).

Definition set_poseCommand (v : CommandBuffer Pose) (r : ControlledRobot) : ControlledRobot :=
  mkControlledRobot (commandTransport r) (telemetryTransport r) v
    (twistCommand r) (goToCommand r) (simpleActionsCommand r)
    (complexActionCommandBuffer r) (jointsCommand r) (heartbeatCommand r)
    (permissionCommand r) (robotTrajectoryCommand r) (commandCallbacks r)
    (heartbeatValues r) (heartbeatTimer r) (heartbeatAllowedLatency r)
    (heartbeatExpiredCallback r) (connected r) (mapBuffer r) (commandbuffers
    r) (buffers r) (logLevel r) (pendingPermissionRequests r) (files r)
    (events r).

Definition set_twistCommand (v : CommandBuffer Twist) (r : ControlledRobot) : ControlledRobot :=
  mkControlledRobot (commandTransport r) (telemetryTransport r) (poseCommand
    r) v (goToCommand r) (simpleActionsCommand r)
    (complexActionCommandBuffer r) (jointsCommand r) (heartbeatCommand r)
    (permissionCommand r) (robotTrajectoryCommand r) (commandCallbacks r)
    (heartbeatValues r) (heartbeatTimer r) (heartbeatAllowedLatency r)
    (heartbeatExpiredCallback r) (connected r) (mapBuffer r) (commandbuffers
    r) (buffers r) (logLevel r) (pendingPermissionRequests r) (files r)
    (events r).

Definition set_goToCommand (v : CommandBuffer GoTo) (r : ControlledRobot) : ControlledRobot :=
  mkControlledRobot (commandTransport r) (telemetryTransport r) (poseCommand
    r) (twistCommand r) v (simpleActionsCommand r)
    (complexActionCommandBuffer r) (jointsCommand r) (heartbeatCommand r)
    (permissionCommand r) (robotTrajectoryCommand r) (commandCallbacks r)
    (heartbeatValues r) (heartbeatTimer r) (heartbeatAllowedLatency r)
    (heartbeatExpiredCallback r) (connected r) (mapBuffer r) (commandbuffers
    r) (buffers r) (logLevel r) (pendingPermissionRequests r) (files r)
    (events r).

Definition set_simpleActionsCommand (v : CommandBuffer SimpleAction) (r : ControlledRobot) : ControlledRobot :=
  mkControlledRobot (commandTransport r) (telemetryTransport r) (poseCommand
    r) (twistCommand r) (goToCommand r) v (complexActionCommandBuffer r)
    (jointsCommand r) (heartbeatCommand r) (permissionCommand r)
    (robotTrajectoryCommand r) (commandCallbacks r) (heartbeatValues r)
    (heartbeatTimer r) (heartbeatAllowedLatency r) (heartbeatExpiredCallback
    r) (connected r) (mapBuffer r) (commandbuffers r) (buffers r) (logLevel
    r) (pendingPermissionRequests r) (files r) (events r).

Definition set_complexActionCommandBuffer (v : CommandBuffer ComplexAction) (r : ControlledRobot) : ControlledRobot :=
  mkControlledRobot (commandTransport r) (telemetryTransport r) (poseCommand
    r) (twistCommand r) (goToCommand r) (simpleActionsCommand r) v
    (jointsCommand r) (heartbeatCommand r) (permissionCommand r)
    (robotTrajectoryCommand r) (commandCallbacks r) (heartbeatValues r)
    (heartbeatTimer r) (heartbeatAllowedLatency r) (heartbeatExpiredCallback
    r) (connected r) (mapBuffer r) (commandbuffers r) (buffers r) (logLevel
    r) (pendingPermissionRequests r) (files r) (events r).

Definition set_jointsCommand (v : CommandBuffer JointCommand) (r : ControlledRobot) : ControlledRobot :=
  mkControlledRobot (commandTransport r) (telemetryTransport r) (poseCommand
    r) (twistCommand r) (goToCommand r) (simpleActionsCommand r)
    (complexActionCommandBuffer r) v (heartbeatCommand r) (permissionCommand
    r) (robotTrajectoryCommand r) (commandCallbacks r) (heartbeatValues r)
    (heartbeatTimer r) (heartbeatAllowedLatency r) (heartbeatExpiredCallback
    r) (connected r) (mapBuffer r) (commandbuffers r) (buffers r) (logLevel
    r) (pendingPermissionRequests r) (files r) (events r).

Definition set_heartbeatCommand (v : CommandBuffer HeartBeat.t) (r : ControlledRobot) : ControlledRobot :=
  mkControlledRobot (commandTransport r) (telemetryTransport r) (poseCommand
    r) (twistCommand r) (goToCommand r) (simpleActionsCommand r)
    (complexActionCommandBuffer r) (jointsCommand r) v (permissionCommand r)
    (robotTrajectoryCommand r) (commandCallbacks r) (heartbeatValues r)
    (heartbeatTimer r) (heartbeatAllowedLatency r) (heartbeatExpiredCallback
    r) (connected r) (mapBuffer r) (commandbuffers r) (buffers r) (logLevel
    r) (pendingPermissionRequests r) (files r) (events r).

Definition set_permissionCommand (v : CommandBuffer Permission.t) (r : ControlledRobot) : ControlledRobot :=
  mkControlledRobot (commandTransport r) (telemetryTransport r) (poseCommand
    r) (twistCommand r) (goToCommand r) (simpleActionsCommand r)
    (complexActionCommandBuffer r) (jointsCommand r) (heartbeatCommand r) v
    (robotTrajectoryCommand r) (commandCallbacks r) (heartbeatValues r)
    (heartbeatTimer r) (heartbeatAllowedLatency r) (heartbeatExpiredCallback
    r) (connected r) (mapBuffer r) (commandbuffers r) (buffers r) (logLevel
    r) (pendingPermissionRequests r) (files r) (events r).

Definition set_robotTrajectoryCommand (v : CommandBuffer Poses) (r : ControlledRobot) : ControlledRobot :=
  mkControlledRobot (commandTransport r) (telemetryTransport r) (poseCommand
    r) (twistCommand r) (goToCommand r) (simpleActionsCommand r)
    (complexActionCommandBuffer r) (jointsCommand r) (heartbeatCommand r)
    (permissionCommand r) v (commandCallbacks r) (heartbeatValues r)
    (heartbeatTimer r) (heartbeatAllowedLatency r) (heartbeatExpiredCallback
    r) (connected r) (mapBuffer r) (commandbuffers r) (buffers r) (logLevel
    r) (pendingPermissionRequests r) (files r) (events r).

Definition set_commandCallbacks (v : list Callback) (r : ControlledRobot) : ControlledRobot :=
  mkControlledRobot (commandTransport r) (telemetryTransport r) (poseCommand
    r) (twistCommand r) (goToCommand r) (simpleActionsCommand r)
    (complexActionCommandBuffer r) (jointsCommand r) (heartbeatCommand r)
    (permissionCommand r) (robotTrajectoryCommand r) v (heartbeatValues r)
    (heartbeatTimer r) (heartbeatAllowedLatency r) (heartbeatExpiredCallback
    r) (connected r) (mapBuffer r) (commandbuffers r) (buffers r) (logLevel
    r) (pendingPermissionRequests r) (files r) (events r).

Definition set_heartbeatValues (v : HeartBeat.t) (r : ControlledRobot) : ControlledRobot :=
  mkControlledRobot (commandTransport r) (telemetryTransport r) (poseCommand
    r) (twistCommand r) (goToCommand r) (simpleActionsCommand r)
    (complexActionCommandBuffer r) (jointsCommand r) (heartbeatCommand r)
    (permissionCommand r) (robotTrajectoryCommand r) (commandCallbacks r) v
    (heartbeatTimer r) (heartbeatAllowedLatency r) (heartbeatExpiredCallback
    r) (connected r) (mapBuffer r) (commandbuffers r) (buffers r) (logLevel
    r) (pendingPermissionRequests r) (files r) (events r).

Definition set_heartbeatTimer (v : Timer) (r : ControlledRobot) : ControlledRobot :=
  mkControlledRobot (commandTransport r) (telemetryTransport r) (poseCommand
    r) (twistCommand r) (goToCommand r) (simpleActionsCommand r)
    (complexActionCommandBuffer r) (jointsCommand r) (heartbeatCommand r)
    (permissionCommand r) (robotTrajectoryCommand r) (commandCallbacks r)
    (heartbeatValues r) v (heartbeatAllowedLatency r)
    (heartbeatExpiredCallback r) (connected r) (mapBuffer r) (commandbuffers
    r) (buffers r) (logLevel r) (pendingPermissionRequests r) (files r)
    (events r).

Definition set_heartbeatAllowedLatency (v : float) (r : ControlledRobot) : ControlledRobot :=
  mkControlledRobot (commandTransport r) (telemetryTransport r) (poseCommand
    r) (twistCommand r) (goToCommand r) (simpleActionsCommand r)
    (complexActionCommandBuffer r) (jointsCommand r) (heartbeatCommand r)
    (permissionCommand r) (robotTrajectoryCommand r) (commandCallbacks r)
    (heartbeatValues r) (heartbeatTimer r) v (heartbeatExpiredCallback r)
    (connected r) (mapBuffer r) (commandbuffers r) (buffers r) (logLevel r)
    (pendingPermissionRequests r) (files r) (events r).

Definition set_heartbeatExpiredCallback (v : option Callback) (r : ControlledRobot) : ControlledRobot :=
  mkControlledRobot (commandTransport r) (telemetryTransport r) (poseCommand
    r) (twistCommand r) (goToCommand r) (simpleActionsCommand r)
    (complexActionCommandBuffer r) (jointsCommand r) (heartbeatCommand r)
    (permissionCommand r) (robotTrajectoryCommand r) (commandCallbacks r)
    (heartbeatValues r) (heartbeatTimer r) (heartbeatAllowedLatency r) v
    (connected r) (mapBuffer r) (commandbuffers r) (buffers r) (logLevel r)
    (pendingPermissionRequests r) (files r) (events r).

Definition set_connected (v : bool) (r : ControlledRobot) : ControlledRobot :=
  mkControlledRobot (commandTransport r) (telemetryTransport r) (poseCommand
    r) (twistCommand r) (goToCommand r) (simpleActionsCommand r)
    (complexActionCommandBuffer r) (jointsCommand r) (heartbeatCommand r)
    (permissionCommand r) (robotTrajectoryCommand r) (commandCallbacks r)
    (heartbeatValues r) (heartbeatTimer r) (heartbeatAllowedLatency r)
    (heartbeatExpiredCallback r) v (mapBuffer r) (commandbuffers r) (buffers
    r) (logLevel r) (pendingPermissionRequests r) (files r) (events r).

Definition set_mapBuffer (v : list (option bytes)) (r : ControlledRobot) : ControlledRobot :=
  mkControlledRobot (commandTransport r) (telemetryTransport r) (poseCommand
    r) (twistCommand r) (goToCommand r) (simpleActionsCommand r)
    (complexActionCommandBuffer r) (jointsCommand r) (heartbeatCommand r)
    (permissionCommand r) (robotTrajectoryCommand r) (commandCallbacks r)
    (heartbeatValues r) (heartbeatTimer r) (heartbeatAllowedLatency r)
    (heartbeatExpiredCallback r) (connected r) v (commandbuffers r) (buffers
    r) (logLevel r) (pendingPermissionRequests r) (files r) (events r).

Definition set_commandbuffers (v : gmap Z (option CommandBufferPtr)) (r : ControlledRobot) : ControlledRobot :=
  mkControlledRobot (commandTransport r) (telemetryTransport r) (poseCommand
    r) (twistCommand r) (goToCommand r) (simpleActionsCommand r)
    (complexActionCommandBuffer r) (jointsCommand r) (heartbeatCommand r)
    (permissionCommand r) (robotTrajectoryCommand r) (commandCallbacks r)
    (heartbeatValues r) (heartbeatTimer r) (heartbeatAllowedLatency r)
    (heartbeatExpiredCallback r) (connected r) (mapBuffer r) v (buffers r)
    (logLevel r) (pendingPermissionRequests r) (files r) (events r).

Definition set_buffers (v : TelemetryBuffer) (r : ControlledRobot) : ControlledRobot :=
  mkControlledRobot (commandTransport r) (telemetryTransport r) (poseCommand
    r) (twistCommand r) (goToCommand r) (simpleActionsCommand r)
    (complexActionCommandBuffer r) (jointsCommand r) (heartbeatCommand r)
    (permissionCommand r) (robotTrajectoryCommand r) (commandCallbacks r)
    (heartbeatValues r) (heartbeatTimer r) (heartbeatAllowedLatency r)
    (heartbeatExpiredCallback r) (connected r) (mapBuffer r) (commandbuffers
    r) v (logLevel r) (pendingPermissionRequests r) (files r) (events r).

Definition set_logLevel (v : Z) (r : ControlledRobot) : ControlledRobot :=
  mkControlledRobot (commandTransport r) (telemetryTransport r) (poseCommand
    r) (twistCommand r) (goToCommand r) (simpleActionsCommand r)
    (complexActionCommandBuffer r) (jointsCommand r) (heartbeatCommand r)
    (permissionCommand r) (robotTrajectoryCommand r) (commandCallbacks r)
    (heartbeatValues r) (heartbeatTimer r) (heartbeatAllowedLatency r)
    (heartbeatExpiredCallback r) (connected r) (mapBuffer r) (commandbuffers
    r) (buffers r) v (pendingPermissionRequests r) (files r) (events r).

Definition set_pendingPermissionRequests (v : gmap string promise) (r : ControlledRobot) : ControlledRobot :=
  mkControlledRobot (commandTransport r) (telemetryTransport r) (poseCommand
    r) (twistCommand r) (goToCommand r) (simpleActionsCommand r)
    (complexActionCommandBuffer r) (jointsCommand r) (heartbeatCommand r)
    (permissionCommand r) (robotTrajectoryCommand r) (commandCallbacks r)
    (heartbeatValues r) (heartbeatTimer r) (heartbeatAllowedLatency r)
    (heartbeatExpiredCallback r) (connected r) (mapBuffer r) (commandbuffers
    r) (buffers r) (logLevel r) v (files r) (events r).

Definition set_events (v : list Event) (r : ControlledRobot) : ControlledRobot :=
  mkControlledRobot (commandTransport r) (telemetryTransport r) (poseCommand
    r) (twistCommand r) (goToCommand r) (simpleActionsCommand r)
    (complexActionCommandBuffer r) (jointsCommand r) (heartbeatCommand r)
    (permissionCommand r) (robotTrajectoryCommand r) (commandCallbacks r)
    (heartbeatValues r) (heartbeatTimer r) (heartbeatAllowedLatency r)
    (heartbeatExpiredCallback r) (connected r) (mapBuffer r) (commandbuffers
    r) (buffers r) (logLevel r) (pendingPermissionRequests r) (files r) v.

End Setters.

(** ** The methods of [ControlledRobot] *)

Section Engine.
Context `{Schema} `{MessageTypes}.

Definition emit (e : Event) (r : ControlledRobot) : ControlledRobot :=
  set_events (events r ++ [e]) r.

(** [commandTransport->send(msg)]; the engine ignores the result. *)
Definition commandTransport_send (msg : bytes) (r : ControlledRobot) : ControlledRobot :=
  set_commandTransport (snd (TransportOps.send msg (commandTransport r))) r.

Definition addControlMessageType (buf : bytes) (type : Z) : bytes :=
  buf ++ store_u16 type.

Definition addTelemetryMessageType (buf : bytes) (type : Z) : bytes :=
  buf ++ store_u16 type.

Definition serializeControlMessageType (type : Z) : bytes :=
  addControlMessageType [] type.

(** [void registerCommandType(const uint32_t &ID, CommandBufferBase *bufptr)] *)
Definition registerCommandType (ID : Z) (bufptr : CommandBufferPtr)
    (m : gmap Z (option CommandBufferPtr)) : gmap Z (option CommandBufferPtr) :=
  <[ID := Some bufptr]> m.

(** [template <class PROTO> void registerTelemetryType(const uint16_t &type)] *)
Definition registerTelemetryType (type : Z) (b : TelemetryBuffer) : TelemetryBuffer :=
  registerType type b.

(** The constructor.

    The sources disagree on two members.  The header declares the
    constructor with two arguments and all nine members as
    [CommandBuffer<T>]; the .cpp takes a third argument [buffersize] and
    assigns a [CommandRingBuffer<SimpleAction>(buffersize)] and a
    [CommandRingBuffer<ComplexAction>(buffersize)] to [simpleActionsCommand]
    and [complexActionCommandBuffer] before it registers them.  The class
    [CommandRingBuffer] is not part of the sources at hand, so the two
    members are kept as the header declares them, and no property below
    says what a constructed engine holds in these two buffers or what
    [getSimpleActionCommand] and [getComplexActionCommand] return.  The
    other seven members are [CommandBuffer<T>] in the header and in the
    .cpp alike. *)
Definition ControlledRobot_new (commandTransport : Transport)
    (telemetryTransport : option Transport) : ControlledRobot :=
  {| commandTransport := commandTransport;
     telemetryTransport := telemetryTransport;
     poseCommand := CommandBuffer.new;
     twistCommand := CommandBuffer.new;
     goToCommand := CommandBuffer.new;
     simpleActionsCommand := CommandBuffer.new;
     complexActionCommandBuffer := CommandBuffer.new;
     jointsCommand := CommandBuffer.new;
     heartbeatCommand := CommandBuffer.new;
     permissionCommand := CommandBuffer.new;
     robotTrajectoryCommand := CommandBuffer.new;
     commandCallbacks := [];
     heartbeatValues := proto_new;
     heartbeatTimer := Timer_new;
     heartbeatAllowedLatency := float_0_1;
     heartbeatExpiredCallback := None;
     connected := false;
     mapBuffer := [];
     commandbuffers :=
       registerCommandType ROBOT_TRAJECTORY_COMMAND p_robotTrajectoryCommand
       (registerCommandType PERMISSION p_permissionCommand
       (registerCommandType HEARTBEAT p_heartbeatCommand
       (registerCommandType GOTO_COMMAND p_goToCommand
       (registerCommandType COMPLEX_ACTION_COMMAND p_complexActionCommandBuffer
       (registerCommandType SIMPLE_ACTIONS_COMMAND p_simpleActionsCommand
       (registerCommandType JOINTS_COMMAND p_jointsCommand
       (registerCommandType TWIST_COMMAND p_twistCommand
       (registerCommandType TARGET_POSE_COMMAND p_poseCommand ∅))))))));
     buffers :=
       foldl (fun b type => registerTelemetryType type b) ∅
         [CURRENT_POSE; JOINT_STATE; CONTROLLABLE_JOINTS; SIMPLE_ACTIONS;
          COMPLEX_ACTIONS; ROBOT_NAME; ROBOT_STATE; LOG_MESSAGE;
          VIDEO_STREAMS; SIMPLE_SENSOR_DEFINITION; SIMPLE_SENSOR_VALUE;
          WRENCH_STATE; MAPS_DEFINITION; MAP; POSES; TRANSFORMS;
          PERMISSION_REQUEST; POINTCLOUD; IMU_VALUES; CONTACT_POINTS;
          CURRENT_TWIST; CURRENT_ACCELERATION; CAMERA_INFORMATION; IMAGE;
          IMAGE_LAYERS; ODOMETRY; CONTROLLABLE_FRAMES; FILE_DEFINITION];
     logLevel := CUSTOM - 1;
     pendingPermissionRequests := ∅;
     files := FileDefinition.new;
     events := [] |}.

Definition setupHeartbeatCallback (allowedLatency : float) (callback : option Callback)
    (r : ControlledRobot) : ControlledRobot :=
  set_heartbeatExpiredCallback callback (set_heartbeatAllowedLatency allowedLatency r).

Definition isConnected (r : ControlledRobot) : bool := connected r.

Definition addCommandReceivedCallback (function : Callback) (r : ControlledRobot)
    : ControlledRobot :=
  set_commandCallbacks (commandCallbacks r ++ [function]) r.

(** *** Command getters: result, [*command] afterwards, engine *)

Definition getTargetPoseCommand (command : Pose) (r : ControlledRobot)
    : bool * Pose * ControlledRobot :=
  let '(res, command, b) := CommandBuffer.read command (poseCommand r) in
  (res, command, set_poseCommand b r).

Definition getTwistCommand (command : Twist) (r : ControlledRobot)
    : bool * Twist * ControlledRobot :=
  let '(res, command, b) := CommandBuffer.read command (twistCommand r) in
  (res, command, set_twistCommand b r).

Definition getGoToCommand (command : GoTo) (r : ControlledRobot)
    : bool * GoTo * ControlledRobot :=
  let '(res, command, b) := CommandBuffer.read command (goToCommand r) in
  (res, command, set_goToCommand b r).

Definition getJointsCommand (command : JointCommand) (r : ControlledRobot)
    : bool * JointCommand * ControlledRobot :=
  let '(res, command, b) := CommandBuffer.read command (jointsCommand r) in
  (res, command, set_jointsCommand b r).

Definition getSimpleActionCommand (command : SimpleAction) (r : ControlledRobot)
    : bool * SimpleAction * ControlledRobot :=
  let '(res, command, b) := CommandBuffer.read command (simpleActionsCommand r) in
  (res, command, set_simpleActionsCommand b r).

Definition getComplexActionCommand (command : ComplexAction) (r : ControlledRobot)
    : bool * ComplexAction * ControlledRobot :=
  let '(res, command, b) := CommandBuffer.read command (complexActionCommandBuffer r) in
  (res, command, set_complexActionCommandBuffer b r).

Definition getRobotTrajectoryCommand (command : Poses) (r : ControlledRobot)
    : bool * Poses * ControlledRobot :=
  let '(res, command, b) := CommandBuffer.read command (robotTrajectoryCommand r) in
  (res, command, set_robotTrajectoryCommand b r).

(** *** Telemetry *)

(** [template<class CLASS> int sendTelemetry(protodata, type, requestOnly)] *)
Definition sendTelemetry {CLASS : Type} `{!ProtoMessage CLASS}
    (protodata : CLASS) (type : Z) (requestOnly : bool) (r : ControlledRobot)
    : Outcome Z ControlledRobot :=
  match telemetryTransport r with
  | Some transport =>
      let buf := AppendToString protodata (store_u16 type) in
      (* store latest data for future requests *)
      match pushData type (SerializeToString protodata) (buffers r) with
      | None => Undefined
      | Some stored =>
          let r := set_buffers stored r in
          if negb requestOnly then
            let '(bytes, transport) := TransportOps.send buf transport in
            Done (to_int (size_t_wrap (bytes - 2)))
                 (set_telemetryTransport (Some transport) r)
          else
            Done (to_int (Z.of_nat (length buf))) r
      end
  | None =>
      Done 0 (emit (printf ERROR_Transport_invalid) r)
  end.

Definition setCurrentPose (telemetry : Pose) (r : ControlledRobot)
    : Outcome Z ControlledRobot :=
  sendTelemetry telemetry CURRENT_POSE false r.

Definition setCurrentTwist (telemetry : Twist) (r : ControlledRobot)
    : Outcome Z ControlledRobot :=
  sendTelemetry telemetry CURRENT_TWIST false r.

Definition setPoses (telemetry : Poses) (r : ControlledRobot)
    : Outcome Z ControlledRobot :=
  sendTelemetry telemetry POSES false r.

(** [int setMap(const std::string &map, const uint32_t &mapId)] *)
Definition setMap (map : bytes) (mapId : Z) (r : ControlledRobot)
    : Z * ControlledRobot :=
  let id := Z.to_nat mapId in
  (1, set_mapBuffer (pushMap id map (initBufferID id (mapBuffer r))) r).

(** [std::shared_future<bool> requestPermission(permissionrequest)].
    [pendingPermissionRequests[uid]] creates the promise when the key is
    new and returns the stored one otherwise.  When [get_future] throws,
    the handler is empty and the function ends without a return value. *)
Definition requestPermission (permissionrequest : PermissionRequest.t)
    (r : ControlledRobot) : Outcome shared_future ControlledRobot :=
  let uid := PermissionRequest.requestuid permissionrequest in
  let promise := default promise_new (pendingPermissionRequests r !! uid) in
  let r := set_pendingPermissionRequests
             (<[uid := promise]> (pendingPermissionRequests r)) r in
  match sendTelemetry permissionrequest PERMISSION_REQUEST false r with
  | Done _ r =>
      match promise_get_future promise with
      | Some promise =>
          Done (mkFuture uid)
               (set_pendingPermissionRequests
                  (<[uid := promise]> (pendingPermissionRequests r)) r)
      | None => Undefined
      end
  | Threw e r => Threw e r
  | Undefined => Undefined
  end.

(** The value a [shared_future] holds, once its promise is satisfied. *)
Definition future_value (f : shared_future) (r : ControlledRobot) : option bool :=
  pendingPermissionRequests r !! future_key f ≫= shared_value.

(** [int setLogMessage(enum LogLevel lvl, const std::string &message)] *)
Definition setLogMessage (lvl : Z) (message : string) (r : ControlledRobot)
    : Outcome Z ControlledRobot :=
  if (lvl <=? logLevel r) || (CUSTOM <=? lvl) then
    let msg := LogMessage.mk lvl message in
    sendTelemetry msg LOG_MESSAGE false r
  else Done (-1) r.

(** [int setLogMessage(const LogMessage &log_message)] *)
Definition setLogMessage_msg (log_message : LogMessage.t) (r : ControlledRobot)
    : Outcome Z ControlledRobot :=
  if (LogMessage.level log_message <=? logLevel r)
     || (CUSTOM <=? LogMessage.level log_message) then
    sendTelemetry log_message LOG_MESSAGE false r
  else Done (-1) r.

(** *** The file responder *)

(** [bool loadFile(File *file, path, compressed)] *)
Definition loadFile (file : File.t) (path : string) (compressed : bool)
    : bool * File.t :=
  let file := File.set_path path file in
  match ifstream_read path with
  | Some content =>
      if ZLIB_FOUND && compressed
      then (true, File.set_data (compressString content) file)
      else (true, File.set_data content file)
  | None => (false, file)
  end.

(** [bool loadFolder(Folder *folder, path, compressed)]: result, folder and
    what was printed. *)
Definition loadFolder (folder : Folder.t) (path : string) (compressed : bool)
    : bool * Folder.t * list Printed :=
  let '(entries, error) := recursive_directory_iterator path in
  let folder :=
    foldl (fun folder entry =>
             Folder.add_file (snd (loadFile File.new entry compressed)) folder)
          folder entries in
  match error with
  | None => (true, Folder.set_compressed compressed folder, [])
  | Some what =>
      (false, Folder.set_identifier what folder, [filesystem_error_what what])
  end.

(** The search loop of the FILE_REQUEST case: the first index whose
    identifier equals the requested one, [None] for [index == -1]. *)
Fixpoint find_file (identifier : string) (l : list File.t) (i : nat) : option nat :=
  match l with
  | [] => None
  | f :: l =>
      if String.eqb (File.identifier f) identifier then Some i
      else find_file identifier l (S i)
  end.

(** *** The request evaluator *)

Definition notifyCommandCallbacks (type : Z) (r : ControlledRobot) : ControlledRobot :=
  set_events (events r ++ map (fun cb => command_callback cb type) (commandCallbacks r)) r.

Definition notified (cbs : list Callback) (r : ControlledRobot) : ControlledRobot :=
  set_events (events r ++ map buffer_callback cbs) r.

(** [cmdbuffer->write(serializedMessage)], the virtual call through a
    [CommandBufferBase*]. *)
Definition CommandBufferBase_write (cmdbuffer : CommandBufferPtr)
    (serializedMessage : bytes) (r : ControlledRobot) : bool * ControlledRobot :=
  match cmdbuffer with
  | p_poseCommand =>
      let '(ok, b, cbs) := CommandBuffer.write serializedMessage (poseCommand r) in
      (ok, notified cbs (set_poseCommand b r))
  | p_twistCommand =>
      let '(ok, b, cbs) := CommandBuffer.write serializedMessage (twistCommand r) in
      (ok, notified cbs (set_twistCommand b r))
  | p_jointsCommand =>
      let '(ok, b, cbs) := CommandBuffer.write serializedMessage (jointsCommand r) in
      (ok, notified cbs (set_jointsCommand b r))
  | p_simpleActionsCommand =>
      let '(ok, b, cbs) := CommandBuffer.write serializedMessage (simpleActionsCommand r) in
      (ok, notified cbs (set_simpleActionsCommand b r))
  | p_complexActionCommandBuffer =>
      let '(ok, b, cbs) :=
        CommandBuffer.write serializedMessage (complexActionCommandBuffer r) in
      (ok, notified cbs (set_complexActionCommandBuffer b r))
  | p_goToCommand =>
      let '(ok, b, cbs) := CommandBuffer.write serializedMessage (goToCommand r) in
      (ok, notified cbs (set_goToCommand b r))
  | p_heartbeatCommand =>
      let '(ok, b, cbs) := CommandBuffer.write serializedMessage (heartbeatCommand r) in
      (ok, notified cbs (set_heartbeatCommand b r))
  | p_permissionCommand =>
      let '(ok, b, cbs) := CommandBuffer.write serializedMessage (permissionCommand r) in
      (ok, notified cbs (set_permissionCommand b r))
  | p_robotTrajectoryCommand =>
      let '(ok, b, cbs) :=
        CommandBuffer.write serializedMessage (robotTrajectoryCommand r) in
      (ok, notified cbs (set_robotTrajectoryCommand b r))
  end.

(** The five cases of the switch and its default. *)

Definition evaluate_TELEMETRY_REQUEST (serializedMessage : bytes) (r : ControlledRobot)
    : Outcome Z ControlledRobot :=
  match load_u16 serializedMessage with
  | None => Undefined
  | Some type =>
      match peekSerialized type (buffers r) with
      | None => Undefined
      | Some reply => Done TELEMETRY_REQUEST (commandTransport_send reply r)
      end
  end.

Definition evaluate_MAP_REQUEST (serializedMessage : bytes) (r : ControlledRobot)
    : Outcome Z ControlledRobot :=
  match load_u16 serializedMessage with
  | None => Undefined
  | Some requestedMap =>
      let map := [] in
      let map :=
        if requestedMap <? Z.of_nat (length (mapBuffer r))
        then peekMap (mapBuffer r !! Z.to_nat requestedMap) map
        else map in
      Done MAP_REQUEST (commandTransport_send map r)
  end.

Definition evaluate_LOG_LEVEL_SELECT (serializedMessage : bytes) (r : ControlledRobot)
    : Outcome Z ControlledRobot :=
  match load_u16 serializedMessage with
  | None => Undefined
  | Some level =>
      let r := set_logLevel level r in
      Done LOG_LEVEL_SELECT
           (commandTransport_send (serializeControlMessageType LOG_LEVEL_SELECT) r)
  end.

Definition evaluate_PERMISSION (msgtype : Z) (serializedMessage : bytes)
    (r : ControlledRobot) : Outcome Z ControlledRobot :=
  let perm : Permission.t := snd (ParseFromString serializedMessage) in
  let uid := Permission.requestuid perm in
  let promise := default promise_new (pendingPermissionRequests r !! uid) in
  let r :=
    match promise_set_value (Permission.granted perm) promise with
    | Some promise =>
        set_pendingPermissionRequests
          (<[uid := promise]> (pendingPermissionRequests r)) r
    | None =>
        (* catch (const std::future_error &e) *)
        emit (printf future_error_what)
          (set_pendingPermissionRequests
             (<[uid := promise]> (pendingPermissionRequests r)) r)
    end in
  Done PERMISSION (commandTransport_send (serializeControlMessageType msgtype) r).

Definition evaluate_FILE_REQUEST (serializedMessage : bytes) (r : ControlledRobot)
    : Outcome Z ControlledRobot :=
  let request : FileRequest.t := snd (ParseFromString serializedMessage) in
  let folder := Folder.new in
  let index :=
    find_file (FileRequest.identifier request) (FileDefinition.file (files r)) 0 in
  let '(request, r) :=
    if ZLIB_FOUND then (request, r)
    else (FileRequest.set_compressed false request,
          emit (printf zlib_not_available) r) in
  let reply (folder : Folder.t) (r : ControlledRobot) :=
    Done FILE_REQUEST (commandTransport_send (SerializeToString folder) r) in
  match index with
  | Some index =>
      match (FileDefinition.isfolder (files r) !! index : option bool),
            (FileDefinition.file (files r) !! index : option File.t) with
      | Some isFolder, Some filedef =>
          if isFolder then
            let '(_, folder, printed) :=
              loadFolder folder (File.path filedef) (FileRequest.compressed request) in
            reply folder (set_events (events r ++ map printf printed) r)
          else
            let file := snd (loadFile File.new (File.path filedef)
                                      (FileRequest.compressed request)) in
            let folder := Folder.add_file file folder in
            let folder := Folder.set_compressed (FileRequest.compressed request) folder in
            reply folder r
      | _, _ => Undefined
      end
  | None =>
      let r := emit (printf (requested_file_undefined (FileRequest.identifier request))) r in
      let folder :=
        Folder.set_identifier
          (String.append "file/folder :"
             (String.append (FileRequest.identifier request) " undefined"))
          folder in
      reply folder r
  end.

Definition evaluate_default (msgtype : Z) (serializedMessage : bytes)
    (r : ControlledRobot) : Outcome Z ControlledRobot :=
  (* commandbuffers[msgtype] stores a nullptr under a key it does not have *)
  let cmdbuffer := default None (commandbuffers r !! msgtype) in
  let r := set_commandbuffers (<[msgtype := cmdbuffer]> (commandbuffers r)) r in
  match cmdbuffer with
  | Some cmdbuffer =>
      let '(ok, r) := CommandBufferBase_write cmdbuffer serializedMessage r in
      if negb ok then
        let r := emit (printf (unable_to_parse msgtype)) r in
        Done NO_CONTROL_DATA
             (commandTransport_send (serializeControlMessageType NO_CONTROL_DATA) r)
      else
        let r := commandTransport_send (serializeControlMessageType msgtype) r in
        Done msgtype (notifyCommandCallbacks msgtype r)
  | None =>
      Done msgtype
           (commandTransport_send (serializeControlMessageType NO_CONTROL_DATA) r)
  end.

(** [ControlMessageType evaluateRequest(const std::string &request)].
    The payload is built with [std::string(data + 2, size - 2)]; the length
    is computed in [size_t], and the constructor throws [length_error] for
    a length above [max_size()]. *)
Definition evaluateRequest (request : bytes) (r : ControlledRobot)
    : Outcome Z ControlledRobot :=
  match load_u16 request with
  | None => Undefined
  | Some msgtype =>
      let n := size_t_wrap (Z.of_nat (length request) - 2) in
      if string_max_size <? n then Threw length_error r
      else
        let serializedMessage := take (Z.to_nat n) (drop 2 request) in
        if msgtype =? TELEMETRY_REQUEST then
          evaluate_TELEMETRY_REQUEST serializedMessage r
        else if msgtype =? MAP_REQUEST then
          evaluate_MAP_REQUEST serializedMessage r
        else if msgtype =? LOG_LEVEL_SELECT then
          evaluate_LOG_LEVEL_SELECT serializedMessage r
        else if msgtype =? PERMISSION then
          evaluate_PERMISSION msgtype serializedMessage r
        else if msgtype =? FILE_REQUEST then
          evaluate_FILE_REQUEST serializedMessage r
        else
          evaluate_default msgtype serializedMessage r
  end.

(** [ControlMessageType receiveRequest()] *)
Definition receiveRequest (r : ControlledRobot) : Outcome Z ControlledRobot :=
  let '(result, transport) := TransportOps.receive (commandTransport r) in
  let r := set_commandTransport transport r in
  match result with
  | Some msg => evaluateRequest msg r
  | None => Done NO_CONTROL_DATA r
  end.

(** *** [update()] *)

(** [while (receiveRequest() != NO_CONTROL_DATA) {connected.store(true);}],
    at most [fuel] iterations; [None] when they do not reach the end of the
    loop. *)
Fixpoint update_loop (fuel : nat) (r : ControlledRobot)
    : option (Outcome unit ControlledRobot) :=
  match fuel with
  | O => None
  | S fuel =>
      match receiveRequest r with
      | Done type r =>
          if type =? NO_CONTROL_DATA then Some (Done tt r)
          else update_loop fuel (set_connected true r)
      | Threw e r => Some (Threw e r)
      | Undefined => Some Undefined
      end
  end.

(** The two [if] statements after the loop. *)
Definition update_heartbeat (r : ControlledRobot) : ControlledRobot :=
  let '(fresh, values, buffer) :=
    CommandBuffer.read (heartbeatValues r) (heartbeatCommand r) in
  let r := set_heartbeatValues values (set_heartbeatCommand buffer r) in
  let r :=
    if fresh then
      let r := set_connected true r in
      set_heartbeatTimer
        (Timer_start (fadd (HeartBeat.heartbeatduration (heartbeatValues r))
                           (heartbeatAllowedLatency r))
                     (heartbeatTimer r)) r
    else r in
  let '(expired, timer) := Timer_isExpired (heartbeatTimer r) in
  let r := set_heartbeatTimer timer r in
  if expired then
    let r := set_connected false r in
    let '(elapsedTime, timer) := Timer_getElapsedTime (heartbeatTimer r) in
    let r := set_heartbeatTimer timer r in
    match heartbeatExpiredCallback r with
    | Some callback => emit (heartbeat_expired_callback callback elapsedTime) r
    | None => r
    end
  else r.

(** Each iteration of the loop takes one message off the transport, so one
    iteration more than there are messages waiting ends the loop. *)
Definition update (r : ControlledRobot) : option (Outcome unit ControlledRobot) :=
  match update_loop (S (length (inbox (commandTransport r)))) r with
  | Some (Done _ r) => Some (Done tt (update_heartbeat r))
  | other => other
  end.

End Engine.

(** ** A concrete host and schema

    An instance of the interfaces above on which the engine can be run:
    messages in protobuf wire format (varint and length-delimited fields,
    default values omitted), a timer over a millisecond counter and a small
    file table.  The field numbers are those of this instance. *)

Module Sample.

(** *** Wire format *)

Inductive field :=
  | Varint (number : Z) (value : Z)
  | LengthDelimited (number : Z) (value : bytes).

(** A base-128 varint of at most [fuel] bytes. *)
Fixpoint varint_encode (fuel : nat) (v : Z) : bytes :=
  match fuel with
  | O => []
  | S fuel =>
      if v <? 128 then [byte_of_Z v]
      else byte_of_Z (128 + v mod 128) :: varint_encode fuel (v / 128)
  end.

(** The value of the varint at the head of [s] and the rest of [s]. *)
Fixpoint varint_decode (s : bytes) : option (Z * bytes) :=
  match s with
  | [] => None
  | b :: s =>
      if byte_to_Z b <? 128 then Some (byte_to_Z b, s)
      else
        match varint_decode s with
        | Some (high, rest) => Some (byte_to_Z b - 128 + 128 * high, rest)
        | None => None
        end
  end.

Definition encode_field (f : field) : bytes :=
  match f with
  | Varint number value =>
      varint_encode 10 (8 * number) ++ varint_encode 10 value
  | LengthDelimited number value =>
      varint_encode 10 (8 * number + 2)
        ++ varint_encode 10 (Z.of_nat (length value)) ++ value
  end.

Definition encode (fs : list field) : bytes := concat (map encode_field fs).

(** The fields of [s] in order; on malformed input, [false] and the fields
    read before the error. *)
Fixpoint decode (fuel : nat) (s : bytes) : bool * list field :=
  match fuel, s with
  | _, [] => (true, [])
  | O, _ => (false, [])
  | S fuel, _ =>
      match varint_decode s with
      | None => (false, [])
      | Some (key, rest) =>
          if key mod 8 =? 0 then
            match varint_decode rest with
            | None => (false, [])
            | Some (value, rest) =>
                let '(ok, fs) := decode fuel rest in
                (ok, Varint (key / 8) value :: fs)
            end
          else if key mod 8 =? 2 then
            match varint_decode rest with
            | None => (false, [])
            | Some (len, rest) =>
                if Z.of_nat (length rest) <? len then (false, [])
                else
                  let '(ok, fs) := decode fuel (drop (Z.to_nat len) rest) in
                  (ok, LengthDelimited (key / 8) (take (Z.to_nat len) rest) :: fs)
            end
          else (false, [])
      end
  end.

(** Clear, then merge the fields read, also when the input is malformed. *)
Definition parse {M : Type} (new : M) (merge : M -> field -> M) (s : bytes)
    : bool * M :=
  let '(ok, fs) := decode (length s) s in
  (ok, foldl merge new fs).

Definition opt_varint (number value : Z) : list field :=
  if value =? 0 then [] else [Varint number value].

Definition opt_bytes (number : Z) (value : bytes) : list field :=
  match value with [] => [] | _ => [LengthDelimited number value] end.

Definition opt_string (number : Z) (value : string) : list field :=
  opt_bytes number (list_byte_of_string value).

Definition opt_bool (number : Z) (value : bool) : list field :=
  if value then [Varint number 1] else [].

(** *** The messages the engine only forwards: two integer fields *)

Record Vec := mkVec { vx : Z; vy : Z }.

Definition Vec_merge (m : Vec) (f : field) : Vec :=
  match f with
  | Varint 1 v => mkVec v (vy m)
  | Varint 2 v => mkVec (vx m) v
  | _ => m
  end.

#[export] Instance Vec_proto : ProtoMessage Vec := {
  proto_new := mkVec 0 0;
  ParseFromString := parse (mkVec 0 0) Vec_merge;
  SerializeToString m := encode (opt_varint 1 (vx m) ++ opt_varint 2 (vy m))
}.

(** *** Host: time in milliseconds *)

Record Clockwork := mkClockwork {
  running : bool; started_at : Z; timeout : Z; now : Z
}.

Definition files_on_disk : list (string * bytes) :=
  [("/etc/robot.cfg"%string, [x61; x62; x63]); ("/maps/a.map"%string, [x01])].

Definition lookup_file (path : string) : option bytes :=
  snd <$> List.find (fun e => String.eqb (fst e) path) files_on_disk.

#[export] Instance host : Host := {
  float := Z;
  fadd := Z.add;
  float_0_1 := 100;
  Timer := Clockwork;
  Timer_new := mkClockwork false 0 0 0;
  Timer_start t c := mkClockwork true (now c) t (now c);
  Timer_isExpired c :=
    if running c && (timeout c <? now c - started_at c)
    then (true, mkClockwork false (started_at c) (timeout c) (now c))
    else (false, c);
  Timer_getElapsedTime c := (now c - started_at c, c);
  ZLIB_FOUND := true;
  compressString s := x78 :: s;
  ifstream_read := lookup_file;
  recursive_directory_iterator path :=
    if String.eqb path "/maps" then (["/maps/a.map"%string], None)
    else ([], Some "cannot open directory"%string)
}.

(** The clock moves on by [ms] milliseconds. *)
Definition elapse (ms : Z) (c : Clockwork) : Clockwork :=
  mkClockwork (running c) (started_at c) (timeout c) (now c + ms).

(** *** The messages the engine looks into *)

Definition HeartBeat_merge (m : HeartBeat.t) (f : field) : HeartBeat.t :=
  match f with
  | Varint 1 v => HeartBeat.mk v (HeartBeat.heartbeatlatency m)
  | Varint 2 v => HeartBeat.mk (HeartBeat.heartbeatduration m) v
  | _ => m
  end.

#[export] Instance HeartBeat_proto : ProtoMessage HeartBeat.t := {
  proto_new := HeartBeat.mk 0 0;
  ParseFromString := parse (HeartBeat.mk 0 0) HeartBeat_merge;
  SerializeToString m :=
    encode (opt_varint 1 (HeartBeat.heartbeatduration m)
            ++ opt_varint 2 (HeartBeat.heartbeatlatency m))
}.

Definition Permission_merge (m : Permission.t) (f : field) : Permission.t :=
  match f with
  | LengthDelimited 1 v => Permission.mk (string_of_list_byte v) (Permission.granted m)
  | Varint 2 v => Permission.mk (Permission.requestuid m) (negb (v =? 0))
  | _ => m
  end.

#[export] Instance Permission_proto : ProtoMessage Permission.t := {
  proto_new := Permission.mk EmptyString false;
  ParseFromString := parse (Permission.mk EmptyString false) Permission_merge;
  SerializeToString m :=
    encode (opt_string 1 (Permission.requestuid m)
            ++ opt_bool 2 (Permission.granted m))
}.

Definition PermissionRequest_merge (m : PermissionRequest.t) (f : field)
    : PermissionRequest.t :=
  match f with
  | LengthDelimited 1 v =>
      PermissionRequest.mk (string_of_list_byte v) (PermissionRequest.requestuid m)
  | LengthDelimited 2 v =>
      PermissionRequest.mk (PermissionRequest.description m) (string_of_list_byte v)
  | _ => m
  end.

#[export] Instance PermissionRequest_proto : ProtoMessage PermissionRequest.t := {
  proto_new := PermissionRequest.mk EmptyString EmptyString;
  ParseFromString :=
    parse (PermissionRequest.mk EmptyString EmptyString) PermissionRequest_merge;
  SerializeToString m :=
    encode (opt_string 1 (PermissionRequest.description m)
            ++ opt_string 2 (PermissionRequest.requestuid m))
}.

Definition LogMessage_merge (m : LogMessage.t) (f : field) : LogMessage.t :=
  match f with
  | Varint 1 v => LogMessage.mk v (LogMessage.message m)
  | LengthDelimited 2 v => LogMessage.mk (LogMessage.level m) (string_of_list_byte v)
  | _ => m
  end.

#[export] Instance LogMessage_proto : ProtoMessage LogMessage.t := {
  proto_new := LogMessage.mk 0 EmptyString;
  ParseFromString := parse (LogMessage.mk 0 EmptyString) LogMessage_merge;
  SerializeToString m :=
    encode (opt_varint 1 (LogMessage.level m)
            ++ opt_string 2 (LogMessage.message m))
}.

Definition FileRequest_merge (m : FileRequest.t) (f : field) : FileRequest.t :=
  match f with
  | LengthDelimited 1 v =>
      FileRequest.mk (string_of_list_byte v) (FileRequest.compressed m)
  | Varint 2 v => FileRequest.mk (FileRequest.identifier m) (negb (v =? 0))
  | _ => m
  end.

#[export] Instance FileRequest_proto : ProtoMessage FileRequest.t := {
  proto_new := FileRequest.mk EmptyString false;
  ParseFromString := parse (FileRequest.mk EmptyString false) FileRequest_merge;
  SerializeToString m :=
    encode (opt_string 1 (FileRequest.identifier m)
            ++ opt_bool 2 (FileRequest.compressed m))
}.

Definition File_merge (m : File.t) (f : field) : File.t :=
  match f with
  | LengthDelimited 1 v => File.mk (string_of_list_byte v) (File.path m) (File.data m)
  | LengthDelimited 2 v => File.mk (File.identifier m) (string_of_list_byte v) (File.data m)
  | LengthDelimited 3 v => File.mk (File.identifier m) (File.path m) v
  | _ => m
  end.

Definition File_encode (m : File.t) : bytes :=
  encode (opt_string 1 (File.identifier m) ++ opt_string 2 (File.path m)
          ++ opt_bytes 3 (File.data m)).

Definition Folder_merge (m : Folder.t) (f : field) : Folder.t :=
  match f with
  | LengthDelimited 1 v => Folder.set_identifier (string_of_list_byte v) m
  | Varint 2 v => Folder.set_compressed (negb (v =? 0)) m
  | LengthDelimited 3 v => Folder.add_file (snd (parse File.new File_merge v)) m
  | _ => m
  end.

#[export] Instance Folder_proto : ProtoMessage Folder.t := {
  proto_new := Folder.new;
  ParseFromString := parse Folder.new Folder_merge;
  SerializeToString m :=
    encode (opt_string 1 (Folder.identifier m) ++ opt_bool 2 (Folder.compressed m)
            ++ map (fun f => LengthDelimited 3 (File_encode f)) (Folder.file m))
}.

#[export] Instance schema : Schema := {
  Pose := Vec; Twist := Vec; GoTo := Vec; SimpleAction := Vec;
  ComplexAction := Vec; JointCommand := Vec; Poses := Vec
}.

(** *** Message types: the enumerators numbered from 0 and from 1 *)

#[export] Instance message_types : MessageTypes := {
  NO_CONTROL_DATA := 0; TARGET_POSE_COMMAND := 1; TWIST_COMMAND := 2;
  GOTO_COMMAND := 3; SIMPLE_ACTIONS_COMMAND := 4; COMPLEX_ACTION_COMMAND := 5;
  JOINTS_COMMAND := 6; HEARTBEAT := 7; PERMISSION := 8;
  ROBOT_TRAJECTORY_COMMAND := 9; FILE_REQUEST := 10; LOG_LEVEL_SELECT := 11;
  TELEMETRY_REQUEST := 12; MAP_REQUEST := 13;
  CURRENT_POSE := 1; JOINT_STATE := 2; CONTROLLABLE_JOINTS := 3;
  SIMPLE_ACTIONS := 4; COMPLEX_ACTIONS := 5; ROBOT_NAME := 6; ROBOT_STATE := 7;
  LOG_MESSAGE := 8; VIDEO_STREAMS := 9; SIMPLE_SENSOR_DEFINITION := 10;
  SIMPLE_SENSOR_VALUE := 11; WRENCH_STATE := 12; MAPS_DEFINITION := 13;
  MAP := 14; POSES := 15; TRANSFORMS := 16; PERMISSION_REQUEST := 17;
  POINTCLOUD := 18; IMU_VALUES := 19; CONTACT_POINTS := 20;
  CURRENT_TWIST := 21; CURRENT_ACCELERATION := 22; CAMERA_INFORMATION := 23;
  IMAGE := 24; IMAGE_LAYERS := 25; ODOMETRY := 26; CONTROLLABLE_FRAMES := 27;
  FILE_DEFINITION := 28;
  control_types_NoDup := ltac:(apply (bool_decide_unpack _); vm_compute; exact I);
  control_types_u16 := ltac:(apply (bool_decide_unpack _); vm_compute; exact I);
  telemetry_types_NoDup := ltac:(apply (bool_decide_unpack _); vm_compute; exact I);
  telemetry_types_u16 := ltac:(apply (bool_decide_unpack _); vm_compute; exact I)
}.

(** A transport that reports every buffer as sent in full. *)
Definition transport (inbox : list bytes) : Transport :=
  mkTransport inbox [] (fun msg => Z.of_nat (length msg)).

(** An engine as the constructor leaves it, with [inbox] waiting on the
    command transport. *)
Definition robot (inbox : list bytes) : ControlledRobot :=
  ControlledRobot_new (transport inbox) (Some (transport [])).

(** The same engine built without a telemetry transport. *)
Definition robot_without_telemetry (inbox : list bytes) : ControlledRobot :=
  ControlledRobot_new (transport inbox) None.

(** *** Messages used in the examples *)

(** TWIST_COMMAND with field 1 = 5; the same cut inside the varint; the
    same followed by the key of field 2 and nothing else. *)
Definition twist_5 : bytes := [x02; x00; x08; x05].
Definition twist_truncated : bytes := [x02; x00; x08].
Definition twist_5_then_truncated : bytes := [x02; x00; x08; x05; x10].

(** HEARTBEAT with a duration of 200 ms. *)
Definition heartbeat_200 : bytes := [x07; x00; x08; xc8; x01].

Definition door_request : PermissionRequest.t :=
  PermissionRequest.mk "open the door" "u1".

(** FILE_REQUEST for the identifier "nope", compressed. *)
Definition nope_request : bytes :=
  store_u16 FILE_REQUEST ++ SerializeToString (FileRequest.mk "nope" true).

End Sample.

(** ** The first version of the evaluator ([src/ControlledRobot.cpp])

    The file keeps the earlier, three-case evaluator of namespace
    [interaction]; its header is not under src/, the members are those the
    file uses. *)

Module Legacy.

Class MessageTypes := {
  NO_DATA : Z; CURRENT_POSE : Z; TARGET_POSE : Z; TWIST_COMMAND : Z;
  control_types_NoDup : NoDup [NO_DATA; CURRENT_POSE; TARGET_POSE; TWIST_COMMAND];
  control_types_u16 :
    Forall (fun k => 0 <= k < 65536) [NO_DATA; CURRENT_POSE; TARGET_POSE; TWIST_COMMAND]
}.

Record ControlledRobot `{Schema} := mkControlledRobot {
  commandTransport : Transport;
  telemetryTransport : Transport;
  currentPose : Pose;
  targetPose : Pose;
  twistCommand : Twist
}.
Arguments mkControlledRobot {_ _}.

Section Engine.
Context `{Schema} `{MessageTypes}.

Definition commandTransport_send (msg : bytes) (r : ControlledRobot) : ControlledRobot :=
  mkControlledRobot (snd (TransportOps.send msg (commandTransport r)))
    (telemetryTransport r) (currentPose r) (targetPose r) (twistCommand r).

Definition addControlMessageType (buf : bytes) (type : Z) : bytes :=
  buf ++ store_u16 type.

Definition serializeControlMessageType (type : Z) : bytes :=
  addControlMessageType [] type.

Definition serializeCurrentPose (r : ControlledRobot) : bytes :=
  AppendToString (currentPose r) (addControlMessageType [] CURRENT_POSE).

Definition evaluateRequest (request : bytes) (r : ControlledRobot)
    : Outcome Z ControlledRobot :=
  match load_u16 request with
  | None => Undefined
  | Some msgtype =>
      let n := size_t_wrap (Z.of_nat (length request) - 2) in
      if string_max_size <? n then Threw length_error r
      else
        let serializedMessage := take (Z.to_nat n) (drop 2 request) in
        if msgtype =? CURRENT_POSE then
          Done CURRENT_POSE (commandTransport_send (serializeCurrentPose r) r)
        else if msgtype =? TARGET_POSE then
          let r := mkControlledRobot (commandTransport r) (telemetryTransport r)
                     (currentPose r) (snd (ParseFromString serializedMessage))
                     (twistCommand r) in
          Done TARGET_POSE
               (commandTransport_send (serializeControlMessageType TARGET_POSE) r)
        else if msgtype =? TWIST_COMMAND then
          let r := mkControlledRobot (commandTransport r) (telemetryTransport r)
                     (currentPose r) (targetPose r)
                     (snd (ParseFromString serializedMessage)) in
          Done TWIST_COMMAND
               (commandTransport_send (serializeControlMessageType TWIST_COMMAND) r)
        else
          Done msgtype (commandTransport_send (serializeControlMessageType NO_DATA) r)
  end.

End Engine.

#[global] Instance sample_types : MessageTypes := {
  NO_DATA := 0; CURRENT_POSE := 1; TARGET_POSE := 2; TWIST_COMMAND := 3;
  control_types_NoDup := ltac:(apply (bool_decide_unpack _); vm_compute; exact I);
  control_types_u16 := ltac:(apply (bool_decide_unpack _); vm_compute; exact I)
}.

Definition sample_robot : ControlledRobot (H0 := Sample.schema) :=
  @mkControlledRobot Sample.host Sample.schema
    (Sample.transport []) (Sample.transport [])
    (Sample.mkVec 0 0) (Sample.mkVec 0 0) (Sample.mkVec 0 0).

End Legacy.

(** ** Notions used to state the properties *)

(** A [std::string] is never longer than [max_size()]. *)
Definition is_std_string (s : bytes) : Prop :=
  Z.of_nat (length s) <= string_max_size.

Section Notions.
Context `{Schema} `{MessageTypes}.

(** The engine right after [commandTransport->receive] took a message. *)
Definition received (r : ControlledRobot) : ControlledRobot :=
  set_commandTransport (snd (TransportOps.receive (commandTransport r))) r.

(** Whether the message class behind a buffer pointer parses [payload]. *)
Definition parses (cmdbuffer : CommandBufferPtr) (payload : bytes) : bool :=
  match cmdbuffer with
  | p_poseCommand => fst (ParseFromString (M := Pose) payload)
  | p_twistCommand => fst (ParseFromString (M := Twist) payload)
  | p_jointsCommand => fst (ParseFromString (M := JointCommand) payload)
  | p_simpleActionsCommand => fst (ParseFromString (M := SimpleAction) payload)
  | p_complexActionCommandBuffer => fst (ParseFromString (M := ComplexAction) payload)
  | p_goToCommand => fst (ParseFromString (M := GoTo) payload)
  | p_heartbeatCommand => fst (ParseFromString (M := HeartBeat.t) payload)
  | p_permissionCommand => fst (ParseFromString (M := Permission.t) payload)
  | p_robotTrajectoryCommand => fst (ParseFromString (M := Poses) payload)
  end.

(** The [isnew] flag of the buffer behind a pointer. *)
Definition isnew_of (cmdbuffer : CommandBufferPtr) (r : ControlledRobot) : bool :=
  match cmdbuffer with
  | p_poseCommand => isnew (poseCommand r)
  | p_twistCommand => isnew (twistCommand r)
  | p_jointsCommand => isnew (jointsCommand r)
  | p_simpleActionsCommand => isnew (simpleActionsCommand r)
  | p_complexActionCommandBuffer => isnew (complexActionCommandBuffer r)
  | p_goToCommand => isnew (goToCommand r)
  | p_heartbeatCommand => isnew (heartbeatCommand r)
  | p_permissionCommand => isnew (permissionCommand r)
  | p_robotTrajectoryCommand => isnew (robotTrajectoryCommand r)
  end.

(** The buffers handed to the telemetry transport so far. *)
Definition telemetry_sent (r : ControlledRobot) : list bytes :=
  match telemetryTransport r with
  | Some transport => outbox transport
  | None => []
  end.

(** The buffers handed to the command transport so far. *)
Definition replies (r : ControlledRobot) : list bytes :=
  outbox (commandTransport r).

(** A 16-bit message type that reaches the default case of the switch. *)
Definition is_command_type (k : Z) : Prop :=
  0 <= k < 65536 /\
  k <> TELEMETRY_REQUEST /\ k <> MAP_REQUEST /\ k <> LOG_LEVEL_SELECT /\
  k <> PERMISSION /\ k <> FILE_REQUEST.

End Notions.

(** ** More of the header *)

Module RobotState.
Record t := mk { state : list string }.
Definition new : t := mk [].
Definition add_state (line : string) (m : t) : t := mk (state m ++ [line]).
End RobotState.

Section More_methods.
Context `{Schema} `{MessageTypes}.

(** [cmdbuffer->addCommandReceivedCallback(function)] through a
    [CommandBufferBase*]. *)
Definition CommandBufferBase_addCommandReceivedCallback
    (cmdbuffer : CommandBufferPtr) (cb : Callback) (r : ControlledRobot)
    : ControlledRobot :=
  match cmdbuffer with
  | p_poseCommand =>
      set_poseCommand (CommandBuffer.addCommandReceivedCallback cb (poseCommand r)) r
  | p_twistCommand =>
      set_twistCommand (CommandBuffer.addCommandReceivedCallback cb (twistCommand r)) r
  | p_jointsCommand =>
      set_jointsCommand (CommandBuffer.addCommandReceivedCallback cb (jointsCommand r)) r
  | p_simpleActionsCommand =>
      set_simpleActionsCommand
        (CommandBuffer.addCommandReceivedCallback cb (simpleActionsCommand r)) r
  | p_complexActionCommandBuffer =>
      set_complexActionCommandBuffer
        (CommandBuffer.addCommandReceivedCallback cb (complexActionCommandBuffer r)) r
  | p_goToCommand =>
      set_goToCommand (CommandBuffer.addCommandReceivedCallback cb (goToCommand r)) r
  | p_heartbeatCommand =>
      set_heartbeatCommand
        (CommandBuffer.addCommandReceivedCallback cb (heartbeatCommand r)) r
  | p_permissionCommand =>
      set_permissionCommand
        (CommandBuffer.addCommandReceivedCallback cb (permissionCommand r)) r
  | p_robotTrajectoryCommand =>
      set_robotTrajectoryCommand
        (CommandBuffer.addCommandReceivedCallback cb (robotTrajectoryCommand r)) r
  end.

(** [void addCommandReceivedCallback(const uint16_t &type, function)]:
    [commandbuffers[type]->addCommandReceivedCallback(function)], a call
    through a null pointer when the type has no buffer. *)
Definition addCommandReceivedCallback_type (type : Z) (function : Callback)
    (r : ControlledRobot) : Outcome unit ControlledRobot :=
  let cmdbuffer := default None (commandbuffers r !! type) in
  let r := set_commandbuffers (<[type := cmdbuffer]> (commandbuffers r)) r in
  match cmdbuffer with
  | Some cmdbuffer =>
      Done tt (CommandBufferBase_addCommandReceivedCallback cmdbuffer function r)
  | None => Undefined
  end.

(** [cmdbuffer->read(&receivedMessage)], the virtual
    [bool read(std::string *receivedMessage)]. *)
Definition CommandBufferBase_read (cmdbuffer : CommandBufferPtr)
    (receivedMessage : bytes) (r : ControlledRobot)
    : bool * bytes * ControlledRobot :=
  match cmdbuffer with
  | p_poseCommand =>
      let '(res, msg, b) := CommandBuffer.read_string receivedMessage (poseCommand r) in
      (res, msg, set_poseCommand b r)
  | p_twistCommand =>
      let '(res, msg, b) := CommandBuffer.read_string receivedMessage (twistCommand r) in
      (res, msg, set_twistCommand b r)
  | p_jointsCommand =>
      let '(res, msg, b) := CommandBuffer.read_string receivedMessage (jointsCommand r) in
      (res, msg, set_jointsCommand b r)
  | p_simpleActionsCommand =>
      let '(res, msg, b) :=
        CommandBuffer.read_string receivedMessage (simpleActionsCommand r) in
      (res, msg, set_simpleActionsCommand b r)
  | p_complexActionCommandBuffer =>
      let '(res, msg, b) :=
        CommandBuffer.read_string receivedMessage (complexActionCommandBuffer r) in
      (res, msg, set_complexActionCommandBuffer b r)
  | p_goToCommand =>
      let '(res, msg, b) := CommandBuffer.read_string receivedMessage (goToCommand r) in
      (res, msg, set_goToCommand b r)
  | p_heartbeatCommand =>
      let '(res, msg, b) :=
        CommandBuffer.read_string receivedMessage (heartbeatCommand r) in
      (res, msg, set_heartbeatCommand b r)
  | p_permissionCommand =>
      let '(res, msg, b) :=
        CommandBuffer.read_string receivedMessage (permissionCommand r) in
      (res, msg, set_permissionCommand b r)
  | p_robotTrajectoryCommand =>
      let '(res, msg, b) :=
        CommandBuffer.read_string receivedMessage (robotTrajectoryCommand r) in
      (res, msg, set_robotTrajectoryCommand b r)
  end.

(** [int setRobotState(const std::string &state)] *)
Definition setRobotState_string `{!ProtoMessage RobotState.t} (state : string)
    (r : ControlledRobot) : Outcome Z ControlledRobot :=
  let protostate := RobotState.new in
  let protostate := RobotState.add_state state protostate in
  sendTelemetry protostate ROBOT_STATE false r.

(** [int setRobotState(const std::vector<std::string> state)] *)
Definition setRobotState_vector `{!ProtoMessage RobotState.t} (state : list string)
    (r : ControlledRobot) : Outcome Z ControlledRobot :=
  let protostate := RobotState.new in
  let protostate :=
    foldl (fun protostate line => RobotState.add_state line protostate)
          protostate state in
  sendTelemetry protostate ROBOT_STATE false r.

(** [int setRobotState(const RobotState &state)] *)
Definition setRobotState `{!ProtoMessage RobotState.t} (state : RobotState.t)
    (r : ControlledRobot) : Outcome Z ControlledRobot :=
  sendTelemetry state ROBOT_STATE false r.

(** *** Notions for the properties of these methods *)

(** The callbacks registered on the buffer behind a pointer. *)
Definition callbacks_of (cmdbuffer : CommandBufferPtr) (r : ControlledRobot)
    : list Callback :=
  match cmdbuffer with
  | p_poseCommand => callbacks (poseCommand r)
  | p_twistCommand => callbacks (twistCommand r)
  | p_jointsCommand => callbacks (jointsCommand r)
  | p_simpleActionsCommand => callbacks (simpleActionsCommand r)
  | p_complexActionCommandBuffer => callbacks (complexActionCommandBuffer r)
  | p_goToCommand => callbacks (goToCommand r)
  | p_heartbeatCommand => callbacks (heartbeatCommand r)
  | p_permissionCommand => callbacks (permissionCommand r)
  | p_robotTrajectoryCommand => callbacks (robotTrajectoryCommand r)
  end.

(** The serialization of the message stored behind a pointer. *)
Definition serialized_of (cmdbuffer : CommandBufferPtr) (r : ControlledRobot)
    : bytes :=
  match cmdbuffer with
  | p_poseCommand => SerializeToString (command (poseCommand r))
  | p_twistCommand => SerializeToString (command (twistCommand r))
  | p_jointsCommand => SerializeToString (command (jointsCommand r))
  | p_simpleActionsCommand => SerializeToString (command (simpleActionsCommand r))
  | p_complexActionCommandBuffer =>
      SerializeToString (command (complexActionCommandBuffer r))
  | p_goToCommand => SerializeToString (command (goToCommand r))
  | p_heartbeatCommand => SerializeToString (command (heartbeatCommand r))
  | p_permissionCommand => SerializeToString (command (permissionCommand r))
  | p_robotTrajectoryCommand =>
      SerializeToString (command (robotTrajectoryCommand r))
  end.

(** The serialization of what the message class behind a pointer makes of
    [payload]. *)
Definition reserialized (cmdbuffer : CommandBufferPtr) (payload : bytes) : bytes :=
  match cmdbuffer with
  | p_poseCommand => SerializeToString (snd (ParseFromString (M := Pose) payload))
  | p_twistCommand => SerializeToString (snd (ParseFromString (M := Twist) payload))
  | p_jointsCommand =>
      SerializeToString (snd (ParseFromString (M := JointCommand) payload))
  | p_simpleActionsCommand =>
      SerializeToString (snd (ParseFromString (M := SimpleAction) payload))
  | p_complexActionCommandBuffer =>
      SerializeToString (snd (ParseFromString (M := ComplexAction) payload))
  | p_goToCommand => SerializeToString (snd (ParseFromString (M := GoTo) payload))
  | p_heartbeatCommand =>
      SerializeToString (snd (ParseFromString (M := HeartBeat.t) payload))
  | p_permissionCommand =>
      SerializeToString (snd (ParseFromString (M := Permission.t) payload))
  | p_robotTrajectoryCommand =>
      SerializeToString (snd (ParseFromString (M := Poses) payload))
  end.

(** The members no case of the evaluator writes. *)
Definition untouched (r r1 : ControlledRobot) : Prop :=
  connected r1 = connected r /\
  inbox (commandTransport r1) = inbox (commandTransport r) /\
  telemetryTransport r1 = telemetryTransport r /\
  buffers r1 = buffers r /\
  mapBuffer r1 = mapBuffer r /\
  files r1 = files r /\
  heartbeatTimer r1 = heartbeatTimer r /\
  heartbeatValues r1 = heartbeatValues r /\
  heartbeatAllowedLatency r1 = heartbeatAllowedLatency r /\
  heartbeatExpiredCallback r1 = heartbeatExpiredCallback r /\
  commandCallbacks r1 = commandCallbacks r.

(** A waiting message that the evaluator, in state [r], takes as a command
    and does not answer by returning NO_CONTROL_DATA: a type of the default
    case other than NO_CONTROL_DATA, and a payload that parses when the
    type has a buffer. *)
Definition goes_through (r : ControlledRobot) (msg : bytes) : Prop :=
  exists k payload,
    msg = store_u16 k ++ payload /\
    is_std_string msg /\
    is_command_type k /\ k <> NO_CONTROL_DATA /\
    forall p, commandbuffers r !! k = Some (Some p) -> parses p payload = true.

End More_methods.

(** ** Operations on one command buffer, in sequence *)

Inductive BufferOp (COMMAND : Type) :=
  | op_read (target : COMMAND)
  | op_read_string (receivedMessage : bytes)
  | op_write_command (src : COMMAND)
  | op_write (serializedMessage : bytes).
Arguments op_read {COMMAND} _.
Arguments op_read_string {COMMAND} _.
Arguments op_write_command {COMMAND} _.
Arguments op_write {COMMAND} _.

Section BufferOps.
Context {COMMAND : Type} `{!ProtoMessage COMMAND}.

Definition run_op (b : CommandBuffer COMMAND) (op : BufferOp COMMAND)
    : CommandBuffer COMMAND :=
  match op with
  | op_read target => snd (CommandBuffer.read target b)
  | op_read_string receivedMessage => snd (CommandBuffer.read_string receivedMessage b)
  | op_write_command src => fst (CommandBuffer.write_command src b)
  | op_write serializedMessage => snd (fst (CommandBuffer.write serializedMessage b))
  end.

(** The message an operation leaves in the buffer, if it writes one: a
    write from a string leaves what the parser made of it, parsed or not. *)
Definition leaves (op : BufferOp COMMAND) : option COMMAND :=
  match op with
  | op_write_command src => Some src
  | op_write serializedMessage => Some (snd (ParseFromString serializedMessage))
  | _ => None
  end.

(** Whether an operation is a write that took effect. *)
Definition stores (op : BufferOp COMMAND) : bool :=
  match op with
  | op_write_command _ => true
  | op_write serializedMessage => fst (ParseFromString serializedMessage)
  | _ => false
  end.

End BufferOps.

(** ** Calls of the engine, one after the other *)

Section Runs.
Context `{Schema} `{MessageTypes}.

(** *** Repeated calls of [update]

    [update] is called periodically.  Between two calls the peer may have
    delivered messages to the command transport, and time has passed; the
    engine sees time through [heartbeatTimer] only, and [passing] is what
    the time passed does to that timer. *)
Record Meanwhile := mkMeanwhile {
  arrivals : list bytes;
  passing : Timer -> Timer
}.

Definition meanwhile (m : Meanwhile) (r : ControlledRobot) : ControlledRobot :=
  let transport := commandTransport r in
  set_heartbeatTimer (passing m (heartbeatTimer r))
    (set_commandTransport
       (mkTransport (inbox transport ++ arrivals m) (outbox transport)
                    (send_result transport)) r).

(** The calls of [update] of a schedule, as long as they return: the engine
    at each call and after it. *)
Fixpoint updates (schedule : list Meanwhile) (r : ControlledRobot)
    : option (list (ControlledRobot * ControlledRobot)) :=
  match schedule with
  | [] => Some []
  | m :: schedule =>
      let before := meanwhile m r in
      match update before with
      | Some (Done _ after) =>
          match updates schedule after with
          | Some calls => Some ((before, after) :: calls)
          | None => None
          end
      | _ => None
      end
  end.



(** The timer that [update] asks for expiry when its loop has left the
    engine in [r1], for the allowed latency [latency]: restarted for the
    duration of the heartbeat plus the latency if the heartbeat buffer is
    fresh, the timer as it is otherwise. *)
Definition supervised_timer (latency : float) (r1 : ControlledRobot) : Timer :=
  if isnew (heartbeatCommand r1)
  then Timer_start
         (fadd (HeartBeat.heartbeatduration (command (heartbeatCommand r1))) latency)
         (heartbeatTimer r1)
  else heartbeatTimer r1.

(** An expiry event: the call of [update] in state [before] finds the
    timer expired; the value is the elapsed time the timer then gives. *)
Definition expiry_event (latency : float) (before : ControlledRobot) : option float :=
  match update_loop (S (length (inbox (commandTransport before)))) before with
  | Some (Done _ r1) =>
      let '(expired, timer) := Timer_isExpired (supervised_timer latency r1) in
      if expired then Some (fst (Timer_getElapsedTime timer)) else None
  | _ => None
  end.

(** *** Calls of the evaluator and of the command getters

    The getters are those of the five members that are [CommandBuffer<T>]
    in the header and in the constructor of the .cpp alike. *)
Inductive Call :=
  | call_evaluateRequest (request : bytes)
  | call_getTargetPoseCommand (target : Pose)
  | call_getTwistCommand (target : Twist)
  | call_getGoToCommand (target : GoTo)
  | call_getJointsCommand (target : JointCommand)
  | call_getRobotTrajectoryCommand (target : Poses).

(** The engine after a call.  An exception leaves the engine as the
    evaluator left it; after undefined behaviour there is nothing to go on
    with. *)
Definition run_call (r : ControlledRobot) (c : Call) : option ControlledRobot :=
  match c with
  | call_evaluateRequest request =>
      match evaluateRequest request r with
      | Done _ r1 => Some r1
      | Threw _ r1 => Some r1
      | Undefined => None
      end
  | call_getTargetPoseCommand target => Some (snd (getTargetPoseCommand target r))
  | call_getTwistCommand target => Some (snd (getTwistCommand target r))
  | call_getGoToCommand target => Some (snd (getGoToCommand target r))
  | call_getJointsCommand target => Some (snd (getJointsCommand target r))
  | call_getRobotTrajectoryCommand target =>
      Some (snd (getRobotTrajectoryCommand target r))
  end.

Fixpoint run_calls (calls : list Call) (r : ControlledRobot)
    : option ControlledRobot :=
  match calls with
  | [] => Some r
  | c :: calls =>
      match run_call r c with
      | Some r1 => run_calls calls r1
      | None => None
      end
  end.

(** A call that attempts no write to the buffer behind [cmdbuffer], on an
    engine with the registrations of [r]: a getter, or a request whose
    type is not registered for that buffer. *)
Definition attempts_no_write (cmdbuffer : CommandBufferPtr) (r : ControlledRobot)
    (c : Call) : Prop :=
  match c with
  | call_evaluateRequest request =>
      forall k, load_u16 request = Some k ->
                commandbuffers r !! k <> Some (Some cmdbuffer)
  | _ => True
  end.

(** The member behind a pointer is the same in [r] and [r1]. *)
Definition same_buffer (cmdbuffer : CommandBufferPtr) (r r1 : ControlledRobot)
    : Prop :=
  match cmdbuffer with
  | p_poseCommand => poseCommand r1 = poseCommand r
  | p_twistCommand => twistCommand r1 = twistCommand r
  | p_jointsCommand => jointsCommand r1 = jointsCommand r
  | p_simpleActionsCommand => simpleActionsCommand r1 = simpleActionsCommand r
  | p_complexActionCommandBuffer =>
      complexActionCommandBuffer r1 = complexActionCommandBuffer r
  | p_goToCommand => goToCommand r1 = goToCommand r
  | p_heartbeatCommand => heartbeatCommand r1 = heartbeatCommand r
  | p_permissionCommand => permissionCommand r1 = permissionCommand r
  | p_robotTrajectoryCommand => robotTrajectoryCommand r1 = robotTrajectoryCommand r
  end.

(** What the getter [get] of the member [slot], to which [cmdbuffer]
    points, hands out.
    - Whatever it is handed as [*command] and whatever it returns,
      [*command] becomes the stored message, which stays in the buffer
      with the flag cleared.
    - On an engine that has gone through any calls since its construction,
      none of them an attempt to write the buffer, the getter returns
      false and the default-constructed message.
    - After a request for the buffer whose payload failed to parse, on any
      engine, the getter returns false and what the parser made of the
      payload. *)
Definition hands_out_stored_message {C : Type} `{!ProtoMessage C}
    (get : C -> ControlledRobot -> bool * C * ControlledRobot)
    (slot : ControlledRobot -> CommandBuffer C)
    (cmdbuffer : CommandBufferPtr) : Prop :=
  (forall target r,
     fst (get target r) = (isnew (slot r), command (slot r)) /\
     isnew (slot (snd (get target r))) = false /\
     command (slot (snd (get target r))) = command (slot r)) /\
  (forall commandTransport telemetryTransport calls r target,
     run_calls calls (ControlledRobot_new commandTransport telemetryTransport)
       = Some r ->
     Forall (attempts_no_write cmdbuffer
               (ControlledRobot_new commandTransport telemetryTransport)) calls ->
     fst (get target r) = (false, proto_new)) /\
  (forall k payload r target,
     is_command_type k ->
     is_std_string (store_u16 k ++ payload) ->
     commandbuffers r !! k = Some (Some cmdbuffer) ->
     fst (ParseFromString (M := C) payload) = false ->
     exists r1,
       evaluateRequest (store_u16 k ++ payload) r = Done NO_CONTROL_DATA r1 /\
       fst (get target r1) = (false, snd (ParseFromString payload))).

End Runs.

(** ** ROS conversions of poses
    ([src/Types/Conversions/ros/geometry_msgs/Pose.hpp])

    The conversions of points and quaternions (Point.hpp, Quaternion.hpp)
    are not under src/ and are parameters; a conversion writes into the
    object its pointer argument designates. *)

Module RosConversion.

Record Header (Time : Type) := mkHeader {
  seq : Z; stamp : Time; frame_id : string
}.
Arguments mkHeader {Time} _ _ _.
Arguments seq {Time} _.
Arguments stamp {Time} _.
Arguments frame_id {Time} _.

Section Pose.
Context {Point Quaternion ros_Point ros_Quaternion Time : Type}.
Context (convert_Point : Point -> ros_Point -> ros_Point)
        (convert_Quaternion : Quaternion -> ros_Quaternion -> ros_Quaternion)
        (convert_ros_Point : ros_Point -> Point -> Point)
        (convert_ros_Quaternion : ros_Quaternion -> Quaternion -> Quaternion).

(** robot_remote_control::Pose *)
Record Pose := mkPose { position : Point; orientation : Quaternion }.

(** geometry_msgs::Pose *)
Record ros_Pose := mkRosPose {
  ros_position : ros_Point; ros_orientation : ros_Quaternion
}.

(** geometry_msgs::PoseStamped *)
Record PoseStamped := mkPoseStamped { header : Header Time; pose : ros_Pose }.

(** [convert(const robot_remote_control::Pose &from, geometry_msgs::Pose *to)] *)
Definition convert (from : Pose) (to : ros_Pose) : ros_Pose :=
  let to := mkRosPose (convert_Point (position from) (ros_position to))
                      (ros_orientation to) in
  mkRosPose (ros_position to)
            (convert_Quaternion (orientation from) (ros_orientation to)).

(** [convert(const Pose &from, geometry_msgs::PoseStamped *to, stamp, frame_id)] *)
Definition convert_stamped (from : Pose) (to : PoseStamped) (stamp : Time)
    (frame_id : string) : PoseStamped :=
  let to := mkPoseStamped (mkHeader (seq (header to)) stamp (RosConversion.frame_id (header to)))
                          (pose to) in
  let to := mkPoseStamped (mkHeader (seq (header to)) (RosConversion.stamp (header to)) frame_id)
                          (pose to) in
  mkPoseStamped (header to) (convert from (pose to)).

(** [convert(const geometry_msgs::Pose &from, robot_remote_control::Pose *to)] *)
Definition convert_from_ros (from : ros_Pose) (to : Pose) : Pose :=
  let to := mkPose (convert_ros_Point (ros_position from) (position to))
                   (orientation to) in
  mkPose (position to)
         (convert_ros_Quaternion (ros_orientation from) (orientation to)).

(** [convert(const geometry_msgs::PoseStamped &from, robot_remote_control::Pose *to)] *)
Definition convert_from_ros_stamped (from : PoseStamped) (to : Pose) : Pose :=
  convert_from_ros (pose from) to.

End Pose.
End RosConversion.

(** ** More states of the concrete engine, for the examples *)

Module Sample_states.
Import Sample.

(** The engine with one file and one folder defined. *)
Definition file_definitions : FileDefinition.t :=
  FileDefinition.mk
    [File.mk "config" "/etc/robot.cfg" []; File.mk "maps" "/maps" []]
    [false; true].

Definition robot_with_files : ControlledRobot :=
  let r := Sample.robot [] in
  mkControlledRobot (commandTransport r) (telemetryTransport r) (poseCommand r)
    (twistCommand r) (goToCommand r) (simpleActionsCommand r)
    (complexActionCommandBuffer r) (jointsCommand r) (heartbeatCommand r)
    (permissionCommand r) (robotTrajectoryCommand r) (commandCallbacks r)
    (heartbeatValues r) (heartbeatTimer r) (heartbeatAllowedLatency r)
    (heartbeatExpiredCallback r) (connected r) (mapBuffer r) (commandbuffers r)
    (buffers r) (logLevel r) (pendingPermissionRequests r) file_definitions
    (events r).

(** The engine holding a promise for "u1" that was granted. *)
Definition robot_with_granted_permission : ControlledRobot :=
  set_pendingPermissionRequests {[ "u1"%string := mkPromise (Some true) true ]}
    (Sample.robot []).

(** PERMISSION for "u1", granted. *)
Definition permission_u1 : bytes :=
  SerializeToString (Permission.mk "u1" true).

(** FILE_REQUEST payload for "config", compressed. *)
Definition config_request : bytes :=
  SerializeToString (FileRequest.mk "config" true).

(** A message of a type no enumerator has. *)
Definition unknown_message : bytes := [xff; xff; x01].

(** The spec's heartbeat scenario: a heartbeat of 200 ms arrives, [update]
    is called at once, again 310 ms later and again a second after that,
    with no further message. *)
Definition silence_after_heartbeat : list Meanwhile :=
  [mkMeanwhile [heartbeat_200] id; mkMeanwhile [] (elapse 310);
   mkMeanwhile [] (elapse 1000)].

End Sample_states.

(** * Properties *)

(** ** Bytes *)

Lemma byte_to_of_Z z : byte_to_Z (byte_of_Z z) = z mod 256.
Proof.
  unfold byte_to_Z, byte_of_Z.
  destruct (Byte.of_N (Z.to_N (z mod 256))) as [b|] eqn:E.
  - simpl. apply Byte.to_of_N in E. rewrite E.
    rewrite Z2N.id; [done|]. apply Z.mod_pos_bound. lia.
  - apply Byte.of_N_None_iff in E.
    pose proof (Z.mod_pos_bound z 256 ltac:(lia)). lia.
Qed.

Lemma load_store_u16 k rest :
  0 <= k < 65536 -> load_u16 (store_u16 k ++ rest) = Some k.
Proof.
  intros Hk. unfold store_u16. simpl.
  rewrite !byte_to_of_Z.
  f_equal. 
  rewrite (Z.mod_small (k / 256)) by (split; [apply Z.div_pos; lia | apply Z.div_lt_upper_bound; lia]).
  pose proof (Z.div_mod k 256 ltac:(lia)). lia.
Qed.

Lemma length_store_u16 k : length (store_u16 k) = 2%nat.
Proof. reflexivity. Qed.

Section CommandBuffer_facts.
Context {COMMAND : Type} `{!ProtoMessage COMMAND}.

Lemma write_inv (b : bytes) (s s1 : CommandBuffer COMMAND) ok cbs :
  CommandBuffer.write b s = (ok, s1, cbs) ->
  ok = fst (ParseFromString b) /\
  s1 = mkCommandBuffer (snd (ParseFromString b)) ok (callbacks s) /\
  cbs = (if ok then callbacks s else []).
Proof.
  unfold CommandBuffer.write.
  destruct (ParseFromString b) as [[] parsed]; simpl; intros [= <- <- <-]; auto.
Qed.

Lemma read_eq (target : COMMAND) (s : CommandBuffer COMMAND) :
  CommandBuffer.read target s
  = (isnew s, command s, mkCommandBuffer (command s) false (callbacks s)).
Proof. reflexivity. Qed.

(** C2: after a successful [write] of serialized bytes [b] into a command
    buffer, the next [read] returns true and delivers the message decoded
    from [b]; a second [read] with no write in between returns false.
    Every registered command buffer of the header is a
    [CommandBuffer<COMMAND>]. *)
Theorem write_then_read_fresh_once (b : bytes) (s s1 : CommandBuffer COMMAND)
    (cbs : list Callback) (target target' : COMMAND) :
  CommandBuffer.write b s = (true, s1, cbs) ->
  exists s2 s3,
    CommandBuffer.read target s1 = (true, snd (ParseFromString b), s2) /\
    CommandBuffer.read target' s2 = (false, snd (ParseFromString b), s3).
Proof.
  intros Hw. apply write_inv in Hw as (_ & -> & _).
  eexists _, _. split; reflexivity.
Qed.

(** C3 (amended): a [write] whose payload fails to decode clears the fresh
    flag of the buffer and notifies no callback; a [read] after it returns
    false, whether or not an earlier write was still unread. *)
Theorem failed_write_clears_isnew (b : bytes) (s s1 : CommandBuffer COMMAND)
    (cbs : list Callback) (target : COMMAND) :
  CommandBuffer.write b s = (false, s1, cbs) ->
  isnew s1 = false /\ cbs = [] /\
  fst (fst (CommandBuffer.read target s1)) = false.
Proof.
  intros Hw. apply write_inv in Hw as (_ & -> & ->). auto.
Qed.
End CommandBuffer_facts.

Section Engine_facts.
Context `{Schema} `{MessageTypes}.

Lemma CommandBufferBase_write_spec p payload r ok r1 :
  CommandBufferBase_write p payload r = (ok, r1) ->
  ok = parses p payload /\
  isnew_of p r1 = ok /\
  commandTransport r1 = commandTransport r /\
  telemetryTransport r1 = telemetryTransport r /\
  connected r1 = connected r /\
  commandbuffers r1 = commandbuffers r /\
  pendingPermissionRequests r1 = pendingPermissionRequests r /\
  commandCallbacks r1 = commandCallbacks r.
Proof.
  unfold CommandBufferBase_write, CommandBuffer.write.
  destruct p; simpl;
    match goal with |- context [ParseFromString ?b] =>
      destruct (ParseFromString b) as [[] parsed] end;
    simpl; intros [= <- <-]; simpl; auto 10.
Qed.

(** What a call of the evaluator leaves alone. *)
Lemma evaluateRequest_frame request r t r1 :
  evaluateRequest request r = Done t r1 ->
  connected r1 = connected r /\
  inbox (commandTransport r1) = inbox (commandTransport r) /\
  exists reply, replies r1 = replies r ++ [reply].
Proof.
  unfold evaluateRequest, evaluate_TELEMETRY_REQUEST, evaluate_MAP_REQUEST,
    evaluate_LOG_LEVEL_SELECT, evaluate_PERMISSION, evaluate_FILE_REQUEST,
    evaluate_default, replies.
  intros Hev.
  repeat (case_match; try discriminate); simplify_eq; simpl;
    try (split; [reflexivity | split; [reflexivity | eexists; reflexivity]]).
  all: match goal with
       | Hw : CommandBufferBase_write _ _ _ = _ |- _ =>
           apply CommandBufferBase_write_spec in Hw as (_ & _ & Ht & _ & Hc & _);
           simpl in Ht, Hc; rewrite ?Ht, ?Hc
       end.
  all: split; [reflexivity | split; [reflexivity | eexists; reflexivity]].
Qed.

Lemma evaluateRequest_empty r : evaluateRequest [] r = Undefined.
Proof. reflexivity. Qed.

Lemma evaluateRequest_one_byte b r : evaluateRequest [b] r = Threw length_error r.
Proof. reflexivity. Qed.

Lemma payload_eq request :
  is_std_string request -> (2 <= length request)%nat ->
  (string_max_size <? size_t_wrap (Z.of_nat (length request) - 2)) = false /\
  take (Z.to_nat (size_t_wrap (Z.of_nat (length request) - 2))) (drop 2 request)
  = drop 2 request.
Proof.
  unfold is_std_string, string_max_size, size_t_wrap. intros Hs Hl.
  rewrite Z.mod_small by lia. split; [lia|].
  apply take_ge. rewrite length_drop. lia.
Qed.

Lemma evaluateRequest_tagged k payload r :
  0 <= k < 65536 -> is_std_string (store_u16 k ++ payload) ->
  evaluateRequest (store_u16 k ++ payload) r =
    if k =? TELEMETRY_REQUEST then evaluate_TELEMETRY_REQUEST payload r
    else if k =? MAP_REQUEST then evaluate_MAP_REQUEST payload r
    else if k =? LOG_LEVEL_SELECT then evaluate_LOG_LEVEL_SELECT payload r
    else if k =? PERMISSION then evaluate_PERMISSION k payload r
    else if k =? FILE_REQUEST then evaluate_FILE_REQUEST payload r
    else evaluate_default k payload r.
Proof.
  intros Hk Hs. unfold evaluateRequest.
  rewrite load_store_u16 by done.
  destruct (payload_eq (store_u16 k ++ payload)) as [-> ->]; [done | simpl; lia |].
  reflexivity.
Qed.

Lemma control_type_bounds i k : control_types !! i = Some k -> 0 <= k < 65536.
Proof.
  intros Hk. pose proof control_types_u16 as Hu.
  rewrite Forall_forall in Hu. apply Hu. by eapply list_elem_of_lookup_2.
Qed.

Lemma control_types_distinct i j a b :
  control_types !! i = Some a -> control_types !! j = Some b -> i <> j -> a <> b.
Proof.
  intros Hi Hj Hij ->. apply Hij.
  eapply NoDup_lookup; [apply control_types_NoDup | done | done].
Qed.

Ltac distinct_types i j :=
  apply (control_types_distinct i j); [reflexivity | reflexivity | lia].

Lemma FILE_REQUEST_case payload r :
  is_std_string (store_u16 FILE_REQUEST ++ payload) ->
  evaluateRequest (store_u16 FILE_REQUEST ++ payload) r
  = evaluate_FILE_REQUEST payload r.
Proof.
  intros Hs.
  rewrite evaluateRequest_tagged;
    [| by apply (control_type_bounds 13%nat) | done].
  assert (FILE_REQUEST <> TELEMETRY_REQUEST) by distinct_types 13%nat 10%nat.
  assert (FILE_REQUEST <> MAP_REQUEST) by distinct_types 13%nat 11%nat.
  assert (FILE_REQUEST <> LOG_LEVEL_SELECT) by distinct_types 13%nat 12%nat.
  assert (FILE_REQUEST <> PERMISSION) by distinct_types 13%nat 8%nat.
  repeat (rewrite (proj2 (Z.eqb_neq _ _)) by done).
  by rewrite Z.eqb_refl.
Qed.

Lemma find_file_None identifier l i :
  Forall (fun f => File.identifier f <> identifier) l ->
  find_file identifier l i = None.
Proof.
  intros Hl. revert i. induction Hl as [|f l Hf _ IH]; intros i; simpl; [done|].
  destruct (String.eqb_spec (File.identifier f) identifier); [done | apply IH].
Qed.

(** C8 (amended): when the identifier of a FILE_REQUEST matches no file
    definition, the evaluator returns FILE_REQUEST and sends one reply: the
    serialized Folder, without a message type in front, that has no file
    entries and the identifier "file/folder :" ++ identifier ++
    " undefined". *)
Theorem file_request_miss (payload : bytes) (r : ControlledRobot) :
  let request : FileRequest.t := snd (ParseFromString payload) in
  is_std_string (store_u16 FILE_REQUEST ++ payload) ->
  Forall (fun f => File.identifier f <> FileRequest.identifier request)
         (FileDefinition.file (files r)) ->
  exists r1,
    evaluateRequest (store_u16 FILE_REQUEST ++ payload) r = Done FILE_REQUEST r1 /\
    replies r1 = replies r ++
      [SerializeToString
         (Folder.mk (String.append "file/folder :"
                       (String.append (FileRequest.identifier request) " undefined"))
                    false [])].
Proof.
  intros request Hs Hmiss. rewrite FILE_REQUEST_case by done.
  unfold evaluate_FILE_REQUEST. fold request.
  rewrite (find_file_None _ _ _ Hmiss).
  destruct ZLIB_FOUND; eexists; (split; [reflexivity|]); reflexivity.
Qed.

Lemma sendTelemetry_configured {CLASS : Type} `{!ProtoMessage CLASS}
    (v : CLASS) (t : Z) (r : ControlledRobot) transport slot :
  telemetryTransport r = Some transport ->
  buffers r !! t = Some slot ->
  exists n r1,
    sendTelemetry v t false r = Done n r1 /\
    buffers r1 = <[t := Some (SerializeToString v)]> (buffers r) /\
    telemetry_sent r1 = telemetry_sent r ++ [store_u16 t ++ SerializeToString v] /\
    commandTransport r1 = commandTransport r.
Proof.
  intros Ht Hb. unfold sendTelemetry, pushData, telemetry_sent.
  rewrite Ht, Hb. simpl. eexists _, _. split; [reflexivity|]. simpl. auto.
Qed.

(** C4 (amended): on an engine that has a telemetry transport, for a
    registered telemetry type [t], [sendTelemetry(v, t)] followed by a
    TELEMETRY_REQUEST for [t] sends one reply on the command transport:
    the 2-byte type [t] followed by a payload that decodes to [v]. *)
Theorem telemetry_request_returns_sent {CLASS : Type} `{!ProtoMessage CLASS}
    (v : CLASS) (t : Z) (requestOnly : bool) (r : ControlledRobot)
    (transport : Transport) :
  telemetryTransport r = Some transport ->
  is_Some (buffers r !! t) ->
  0 <= t < 65536 ->
  ParseFromString (SerializeToString v) = (true, v) ->
  exists n r1 r2 reply,
    sendTelemetry v t requestOnly r = Done n r1 /\
    evaluateRequest (store_u16 TELEMETRY_REQUEST ++ store_u16 t) r1
      = Done TELEMETRY_REQUEST r2 /\
    replies r2 = replies r1 ++ [reply] /\
    reply = store_u16 t ++ SerializeToString v /\
    ParseFromString (drop 2 reply) = (true, v).
Proof.
  intros Ht [slot Hb] Hrange Hround.
  assert (Hreq : forall r1,
    buffers r1 = <[t := Some (SerializeToString v)]> (buffers r) ->
    exists r2,
      evaluateRequest (store_u16 TELEMETRY_REQUEST ++ store_u16 t) r1
        = Done TELEMETRY_REQUEST r2 /\
      replies r2 = replies r1 ++ [store_u16 t ++ SerializeToString v]).
  { intros r1 Hb1. rewrite evaluateRequest_tagged.
    - rewrite Z.eqb_refl. unfold evaluate_TELEMETRY_REQUEST, peekSerialized.
      rewrite <- (app_nil_r (store_u16 t)).
      rewrite (load_store_u16 t [] Hrange).
      rewrite app_nil_r, Hb1, lookup_insert_eq.
      eexists. split; reflexivity.
    - by apply (control_type_bounds 10%nat).
    - unfold is_std_string, string_max_size. simpl. lia. }
  unfold sendTelemetry, pushData. rewrite Ht, Hb.
  destruct requestOnly; simpl.
  - edestruct Hreq as (r2 & Hev & Hrep); [| eexists _, _, r2, _;
      split; [reflexivity | split; [exact Hev | split; [exact Hrep | split; [reflexivity | exact Hround]]]]].
    reflexivity.
  - edestruct Hreq as (r2 & Hev & Hrep); [| eexists _, _, r2, _;
      split; [reflexivity | split; [exact Hev | split; [exact Hrep | split; [reflexivity | exact Hround]]]]].
    reflexivity.
Qed.

(** C9 (amended): on an engine that has a telemetry transport (and the
    LOG_MESSAGE slot the constructor registers), [setLogMessage(lvl, msg)]
    sends one LOG_MESSAGE frame when [lvl <= logLevel] or [lvl >= CUSTOM];
    otherwise it sends nothing, changes nothing and returns -1. *)
Theorem log_message_gate (lvl : Z) (message : string) (r : ControlledRobot)
    (transport : Transport) :
  telemetryTransport r = Some transport ->
  is_Some (buffers r !! LOG_MESSAGE) ->
  ((lvl <= logLevel r \/ CUSTOM <= lvl) ->
     exists n r1,
       setLogMessage lvl message r = Done n r1 /\
       telemetry_sent r1 = telemetry_sent r ++
         [store_u16 LOG_MESSAGE ++ SerializeToString (LogMessage.mk lvl message)]) /\
  (~ (lvl <= logLevel r \/ CUSTOM <= lvl) ->
     setLogMessage lvl message r = Done (-1) r).
Proof.
  intros Ht [slot Hb]. unfold setLogMessage. split; intros Hc.
  - replace ((lvl <=? logLevel r) || (CUSTOM <=? lvl)) with true
      by (symmetry; apply orb_true_iff; lia).
    destruct (sendTelemetry_configured (LogMessage.mk lvl message) LOG_MESSAGE r
                transport slot Ht Hb) as (n & r1 & Hs & _ & Hsent & _).
    eauto.
  - replace ((lvl <=? logLevel r) || (CUSTOM <=? lvl)) with false; [done|].
    symmetry. apply orb_false_iff. lia.
Qed.

(** *** The loop of [update] *)

Lemma receiveRequest_message r msg rest :
  inbox (commandTransport r) = msg :: rest ->
  receiveRequest r = evaluateRequest msg (received r) /\
  inbox (commandTransport (received r)) = rest /\
  connected (received r) = connected r.
Proof.
  intros Hin. unfold receiveRequest, received, TransportOps.receive.
  rewrite Hin. auto.
Qed.

Lemma receiveRequest_no_data r :
  inbox (commandTransport r) = [] -> receiveRequest r = Done NO_CONTROL_DATA r.
Proof.
  intros Hin. unfold receiveRequest, TransportOps.receive. rewrite Hin.
  by destruct r.
Qed.

Lemma update_loop_total n r :
  (length (inbox (commandTransport r)) < n)%nat ->
  exists o, update_loop n r = Some o.
Proof.
  revert r. induction n as [|n IH]; intros r Hn; [lia|].
  simpl. destruct (inbox (commandTransport r)) as [|msg rest] eqn:Hin.
  - rewrite receiveRequest_no_data, Z.eqb_refl by done. eauto.
  - destruct (receiveRequest_message r msg rest Hin) as (-> & Hrest & _).
    destruct (evaluateRequest msg (received r)) as [t r1| |] eqn:Hev; eauto.
    destruct (t =? NO_CONTROL_DATA); eauto.
    apply IH. apply evaluateRequest_frame in Hev as (_ & Hi & _).
    simpl in *. rewrite Hi, Hrest. lia.
Qed.

Lemma update_loop_keeps_connected n r r' :
  connected r = true -> update_loop n r = Some (Done tt r') -> connected r' = true.
Proof.
  revert r. induction n as [|n IH]; intros r Hc; simpl; [done|].
  destruct (inbox (commandTransport r)) as [|msg rest] eqn:Hin.
  - rewrite receiveRequest_no_data, Z.eqb_refl by done. by intros [= <-].
  - destruct (receiveRequest_message r msg rest Hin) as (-> & _ & Hcr).
    destruct (evaluateRequest msg (received r)) as [t r1| |] eqn:Hev; try done.
    apply evaluateRequest_frame in Hev as (Hc1 & _).
    destruct (t =? NO_CONTROL_DATA).
    + intros [= <-]. congruence.
    + by apply IH.
Qed.

Lemma evaluate_default_parse_failure k p payload r :
  commandbuffers r !! k = Some (Some p) ->
  parses p payload = false ->
  exists r1,
    evaluate_default k payload r = Done NO_CONTROL_DATA r1 /\
    replies r1 = replies r ++ [store_u16 NO_CONTROL_DATA] /\
    isnew_of p r1 = false.
Proof.
  intros Hk Hp. unfold evaluate_default. rewrite Hk. simpl.
  destruct (CommandBufferBase_write p payload _) as [ok r1] eqn:Hw.
  apply CommandBufferBase_write_spec in Hw as (-> & Hnew & Ht & _).
  rewrite Hp in *. simpl. eexists. split; [reflexivity|].
  unfold replies. simpl. rewrite Ht. simpl. split; [done|].
  by destruct p.
Qed.

Lemma default_case k payload r :
  is_command_type k -> is_std_string (store_u16 k ++ payload) ->
  evaluateRequest (store_u16 k ++ payload) r = evaluate_default k payload r.
Proof.
  intros (Hk & ? & ? & ? & ? & ?) Hs. rewrite evaluateRequest_tagged by done.
  by repeat (rewrite (proj2 (Z.eqb_neq _ _)) by done).
Qed.

(** C6 (amended): the loop of [update] ends within one iteration more than
    there are messages waiting.  It takes the messages in order; a message
    whose evaluation returns NO_CONTROL_DATA ends the loop at once, with the
    messages behind it left on the transport and [connected] as it was; a
    message whose evaluation returns another type sets [connected] and
    the loop goes on.  A registered command whose payload fails to decode
    is answered with NO_CONTROL_DATA and ends the loop that way. *)
Theorem update_loop_stops_at_NO_CONTROL_DATA (r : ControlledRobot) :
  (exists o, update_loop (S (length (inbox (commandTransport r)))) r = Some o) /\
  (inbox (commandTransport r) = [] -> update_loop 1 r = Some (Done tt r)) /\
  (forall msg rest t r1,
     inbox (commandTransport r) = msg :: rest ->
     evaluateRequest msg (received r) = Done t r1 ->
     inbox (commandTransport r1) = rest /\
     (t = NO_CONTROL_DATA ->
        update_loop (S (length (msg :: rest))) r = Some (Done tt r1) /\
        connected r1 = connected r) /\
     (t <> NO_CONTROL_DATA ->
        update_loop (S (length (msg :: rest))) r
          = update_loop (S (length rest)) (set_connected true r1) /\
        forall r', update_loop (S (length rest)) (set_connected true r1)
                     = Some (Done tt r') -> connected r' = true)) /\
  (forall k p payload rest,
     inbox (commandTransport r) = (store_u16 k ++ payload) :: rest ->
     is_command_type k -> is_std_string (store_u16 k ++ payload) ->
     commandbuffers r !! k = Some (Some p) ->
     parses p payload = false ->
     exists r1,
       update_loop (S (length ((store_u16 k ++ payload) :: rest))) r
         = Some (Done tt r1) /\
       inbox (commandTransport r1) = rest /\
       connected r1 = connected r /\
       replies r1 = replies r ++ [store_u16 NO_CONTROL_DATA]).
Proof.
  assert (Hstep : forall msg rest t r1,
     inbox (commandTransport r) = msg :: rest ->
     evaluateRequest msg (received r) = Done t r1 ->
     inbox (commandTransport r1) = rest /\
     (t = NO_CONTROL_DATA ->
        update_loop (S (length (msg :: rest))) r = Some (Done tt r1) /\
        connected r1 = connected r) /\
     (t <> NO_CONTROL_DATA ->
        update_loop (S (length (msg :: rest))) r
          = update_loop (S (length rest)) (set_connected true r1) /\
        forall r', update_loop (S (length rest)) (set_connected true r1)
                     = Some (Done tt r') -> connected r' = true)).
  { intros msg rest t r1 Hin Hev.
    destruct (receiveRequest_message r msg rest Hin) as (Hrr & Hrest & Hcr).
    pose proof (evaluateRequest_frame _ _ _ _ Hev) as (Hc & Hi & _).
    split; [congruence|]. split.
    - intros ->. cbn [update_loop]. rewrite Hrr, Hev, Z.eqb_refl.
      split; [done | congruence].
    - intros Hne. change (update_loop (S (length (msg :: rest))) r)
        with (match receiveRequest r with
              | Done type r0 =>
                  if type =? NO_CONTROL_DATA then Some (Done tt r0)
                  else update_loop (S (length rest)) (set_connected true r0)
              | Threw e r0 => Some (Threw e r0)
              | Undefined => Some Undefined
              end).
      rewrite Hrr, Hev, (proj2 (Z.eqb_neq _ _) Hne). split; [done|].
      intros r'. by apply update_loop_keeps_connected. }
  split; [apply update_loop_total; lia|]. split.
  { intros Hin. cbn [update_loop].
    by rewrite receiveRequest_no_data, Z.eqb_refl. }
  split; [exact Hstep|].
  intros k p payload rest Hin Hk Hs Hreg Hp.
  destruct (evaluate_default_parse_failure k p payload (received r))
    as (r1 & Hev & Hrep & _); [| done |].
  { unfold received. simpl. done. }
  rewrite <- default_case in Hev by done.
  destruct (Hstep _ _ _ _ Hin Hev) as (Hrest & Hstop & _).
  destruct Hstop as [Hloop Hc]; [done|].
  exists r1. repeat split; try done.
  rewrite Hrep. unfold replies, received, TransportOps.receive. by rewrite Hin.
Qed.

(** *** Permissions *)

Lemma sendTelemetry_returns {CLASS : Type} `{!ProtoMessage CLASS}
    (v : CLASS) (t : Z) (requestOnly : bool) (r : ControlledRobot) :
  match sendTelemetry v t requestOnly r with
  | Done _ r1 =>
      pendingPermissionRequests r1 = pendingPermissionRequests r /\
      commandTransport r1 = commandTransport r
  | Threw _ _ => False
  | Undefined => True
  end.
Proof.
  unfold sendTelemetry. repeat case_match; simplify_eq; simpl; auto.
Qed.

(** C7 (the code against the claim): [requestPermission] does not always
    return a future.  After one request for a uid has returned, a second
    request with the same uid finds the stored promise, [get_future] throws
    [future_error], the empty handler swallows it and the function ends
    without a return value. *)
Theorem second_request_has_no_return_value (req : PermissionRequest.t)
    (r r1 : ControlledRobot) (f : shared_future) :
  requestPermission req r = Done f r1 ->
  requestPermission req r1 = Undefined.
Proof.
  unfold requestPermission. intros Hfirst.
  assert (Hret : exists p, pendingPermissionRequests r1
                 !! PermissionRequest.requestuid req = Some p /\
               future_retrieved p = true).
  { pose proof (sendTelemetry_returns req PERMISSION_REQUEST false
      (set_pendingPermissionRequests
         (<[PermissionRequest.requestuid req :=
              default promise_new
                (pendingPermissionRequests r !! PermissionRequest.requestuid req)]>
            (pendingPermissionRequests r)) r)) as Hs.
    destruct (sendTelemetry _ _ _ _) as [n r'| |]; try done.
    unfold promise_get_future in Hfirst.
    destruct (future_retrieved _); [done|].
    injection Hfirst as <- <-. simpl. rewrite lookup_insert_eq. eauto. }
  clear Hfirst. destruct Hret as (p & -> & Hp). simpl.
  pose proof (sendTelemetry_returns req PERMISSION_REQUEST false
    (set_pendingPermissionRequests
       (<[PermissionRequest.requestuid req := p]> (pendingPermissionRequests r1)) r1))
    as Hs.
  destruct (sendTelemetry _ _ _ _) as [n r'| |]; try done.
  unfold promise_get_future. by rewrite Hp.
Qed.

Lemma PERMISSION_case payload r :
  is_std_string (store_u16 PERMISSION ++ payload) ->
  evaluateRequest (store_u16 PERMISSION ++ payload) r
  = evaluate_PERMISSION PERMISSION payload r.
Proof.
  intros Hs.
  rewrite evaluateRequest_tagged; [| by apply (control_type_bounds 8%nat) | done].
  assert (PERMISSION <> TELEMETRY_REQUEST) by distinct_types 8%nat 10%nat.
  assert (PERMISSION <> MAP_REQUEST) by distinct_types 8%nat 11%nat.
  assert (PERMISSION <> LOG_LEVEL_SELECT) by distinct_types 8%nat 12%nat.
  repeat (rewrite (proj2 (Z.eqb_neq _ _)) by done).
  by rewrite Z.eqb_refl.
Qed.

(** A PERMISSION message gives the future of its uid the granted flag,
    unless the future already has a value; it is acknowledged either way. *)
Lemma permission_fulfils payload r :
  let perm : Permission.t := snd (ParseFromString payload) in
  let f := mkFuture (Permission.requestuid perm) in
  is_std_string (store_u16 PERMISSION ++ payload) ->
  exists r1,
    evaluateRequest (store_u16 PERMISSION ++ payload) r = Done PERMISSION r1 /\
    replies r1 = replies r ++ [store_u16 PERMISSION] /\
    future_value f r1
      = Some (default (Permission.granted perm) (future_value f r)).
Proof.
  intros perm f Hs. rewrite PERMISSION_case by done.
  unfold evaluate_PERMISSION, future_value, promise_set_value. fold perm.
  eexists. split; [reflexivity|]. split.
  - unfold replies.
    destruct (pendingPermissionRequests r !! Permission.requestuid perm)
      as [[[g|] ?]|]; simpl; done.
  - subst f. simpl. destruct (pendingPermissionRequests r !! Permission.requestuid perm)
      as [[[g|] ?]|]; simpl; by rewrite lookup_insert_eq.
Qed.

(** The first request for a uid returns a future named by the uid. *)
Lemma first_request_returns_future req r transport :
  telemetryTransport r = Some transport ->
  is_Some (buffers r !! PERMISSION_REQUEST) ->
  pendingPermissionRequests r !! PermissionRequest.requestuid req = None ->
  exists r1,
    requestPermission req r
      = Done (mkFuture (PermissionRequest.requestuid req)) r1 /\
    future_value (mkFuture (PermissionRequest.requestuid req)) r1 = None.
Proof.
  intros Ht [slot Hb] Hnew.
  unfold requestPermission, sendTelemetry, pushData, future_value.
  rewrite Hnew. simpl. rewrite Ht, Hb. simpl.
  eexists. split; [reflexivity|]. simpl. by rewrite lookup_insert_eq.
Qed.

End Engine_facts.

Section Short_requests.
Context `{Schema} `{MessageTypes} `{Legacy.MessageTypes}.

Lemma Legacy_evaluateRequest_empty (r : Legacy.ControlledRobot) :
  Legacy.evaluateRequest [] r = Undefined.
Proof. reflexivity. Qed.

Lemma Legacy_evaluateRequest_one_byte b (r : Legacy.ControlledRobot) :
  Legacy.evaluateRequest [b] r = Threw length_error r.
Proof. reflexivity. Qed.

(** C1 (the code against the claim): a request shorter than 2 bytes gets no
    reply from either version of the evaluator.  There is no length check:
    on the empty request the type is read out of bounds, on a one-byte
    request the payload length [size - 2] wraps around and building the
    payload throws [std::length_error] before anything is sent.  No
    NO_DATA reply is emitted and NO_DATA is not returned. *)
Theorem short_request_gets_no_reply (request : bytes) (r : ControlledRobot)
    (legacy : Legacy.ControlledRobot) :
  (length request < 2)%nat ->
  match evaluateRequest request r with
  | Done _ _ => False
  | Threw e r1 => e = length_error /\ r1 = r
  | Undefined => request = []
  end /\
  match Legacy.evaluateRequest request legacy with
  | Done _ _ => False
  | Threw e r1 => e = length_error /\ r1 = legacy
  | Undefined => request = []
  end.
Proof.
  destruct request as [|b [|b' request]]; simpl length; intros Hlen.
  - rewrite evaluateRequest_empty, Legacy_evaluateRequest_empty. auto.
  - rewrite evaluateRequest_one_byte, Legacy_evaluateRequest_one_byte. auto.
  - lia.
Qed.
End Short_requests.

(** ** Further properties of the code *)

(** ** The 16-bit header, for any value *)

Lemma load_store_u16_wrap (k : Z) (rest : bytes) :
  load_u16 (store_u16 k ++ rest) = Some (k mod 65536).
Proof.
  unfold store_u16. simpl. rewrite !byte_to_of_Z. f_equal.
  rewrite (Z.mod_eq k 65536), (Z.mod_eq k 256), (Z.mod_eq (k / 256) 256) by lia.
  rewrite Z.div_div by lia. change (256 * 256) with 65536. lia.
Qed.

Section Header.
Context `{Schema} `{MessageTypes}.

(** X1: the 16-bit header round trip: [addControlMessageType] appends exactly two
    bytes behind the buffer it is given, the cast at the head of
    [evaluateRequest] reads the type back modulo 2^16 and leaves the payload
    behind it; the telemetry variant writes the same bytes. *)
Theorem message_type_header_round_trip (type : Z) (buf payload : bytes) :
  length (addControlMessageType buf type) = S (S (length buf)) /\
  take (length buf) (addControlMessageType buf type) = buf /\
  load_u16 (serializeControlMessageType type ++ payload) = Some (type mod 65536) /\
  drop 2 (serializeControlMessageType type ++ payload) = payload /\
  addTelemetryMessageType buf type = addControlMessageType buf type.
Proof.
  unfold serializeControlMessageType, addControlMessageType, addTelemetryMessageType.
  repeat split.
  - rewrite length_app. simpl. lia.
  - by rewrite take_app_length.
  - apply load_store_u16_wrap.
Qed.

End Header.

Section Buffer_sequences.
Context {COMMAND : Type} `{!ProtoMessage COMMAND}.

Lemma run_op_callbacks (b : CommandBuffer COMMAND) (op : BufferOp COMMAND) :
  callbacks (run_op b op) = callbacks b.
Proof.
  destruct op; simpl; try done.
  unfold CommandBuffer.write. by destruct (ParseFromString _) as [[] ?].
Qed.

Lemma run_op_isnew (b : CommandBuffer COMMAND) (op : BufferOp COMMAND) :
  isnew (run_op b op) = stores op.
Proof.
  destruct op; simpl; try done.
  unfold CommandBuffer.write. by destruct (ParseFromString _) as [[] ?].
Qed.

Lemma run_op_command (b : CommandBuffer COMMAND) (op : BufferOp COMMAND) :
  command (run_op b op) = default (command b) (leaves op).
Proof.
  destruct op; simpl; try done.
  unfold CommandBuffer.write. by destruct (ParseFromString _) as [[] ?].
Qed.

(** X2: after any sequence of reads and writes on a command buffer the fresh flag
    is true exactly when the last operation was a write that took effect
    (so a failed decode clears it like a read), the stored message is what
    the last write left, reads never change it, and the callback list is
    untouched. *)
Theorem buffer_after_any_sequence (b : CommandBuffer COMMAND)
    (ops : list (BufferOp COMMAND)) :
  isnew (foldl run_op b ops)
    = match last ops with Some op => stores op | None => isnew b end /\
  command (foldl run_op b ops) = default (command b) (last (omap leaves ops)) /\
  callbacks (foldl run_op b ops) = callbacks b.
Proof.
  revert b. induction ops as [|op ops IH] using rev_ind; intros b; [done|].
  rewrite foldl_app, last_snoc, omap_app. simpl.
  rewrite run_op_isnew, run_op_callbacks, run_op_command.
  destruct (IH b) as (_ & Hc & Hcb). split; [done|]. split; [|done].
  rewrite Hc. destruct (leaves op) as [c|]; simpl.
  - by rewrite last_snoc.
  - by rewrite app_nil_r.
Qed.
End Buffer_sequences.

Section Evaluator_facts.
Context `{Schema} `{MessageTypes}.

Lemma CommandBufferBase_write_untouched p payload r ok r1 :
  CommandBufferBase_write p payload r = (ok, r1) ->
  untouched r r1 /\
  commandTransport r1 = commandTransport r /\
  commandbuffers r1 = commandbuffers r /\
  logLevel r1 = logLevel r /\
  pendingPermissionRequests r1 = pendingPermissionRequests r /\
  events r1 = events r ++ (if ok then map buffer_callback (callbacks_of p r) else []) /\
  callbacks_of p r1 = callbacks_of p r /\
  serialized_of p r1 = reserialized p payload /\
  (forall q, q <> p ->
     isnew_of q r1 = isnew_of q r /\ callbacks_of q r1 = callbacks_of q r /\
     serialized_of q r1 = serialized_of q r).
Proof.
  unfold CommandBufferBase_write, CommandBuffer.write, untouched.
  destruct p; simpl;
    match goal with |- context [ParseFromString ?b] =>
      destruct (ParseFromString b) as [[] parsed] eqn:Hparse end;
    simpl; intros [= <- <-]; simpl; rewrite ?app_nil_r, ?Hparse;
    repeat split; try done; by destruct q.
Qed.

(** X3: when [evaluateRequest] returns, it has handed exactly one buffer to the
    command transport and has not touched the connected flag, the waiting
    messages, the telemetry transport and buffers, the maps, the file
    definitions, the heartbeat timer and settings or the list of global
    callbacks. *)
Theorem evaluator_sends_one_reply_and_keeps_the_rest (request : bytes)
    (r r1 : ControlledRobot) (t : Z) :
  evaluateRequest request r = Done t r1 ->
  (exists reply, replies r1 = replies r ++ [reply]) /\
  connected r1 = connected r /\
  inbox (commandTransport r1) = inbox (commandTransport r) /\
  telemetryTransport r1 = telemetryTransport r /\
  buffers r1 = buffers r /\
  mapBuffer r1 = mapBuffer r /\
  files r1 = files r /\
  heartbeatTimer r1 = heartbeatTimer r /\
  heartbeatAllowedLatency r1 = heartbeatAllowedLatency r /\
  heartbeatExpiredCallback r1 = heartbeatExpiredCallback r /\
  commandCallbacks r1 = commandCallbacks r.
Proof.
  unfold evaluateRequest, evaluate_TELEMETRY_REQUEST, evaluate_MAP_REQUEST,
    evaluate_LOG_LEVEL_SELECT, evaluate_PERMISSION, evaluate_FILE_REQUEST,
    evaluate_default, replies.
  intros Hev.
  repeat (case_match; try discriminate); simplify_eq; simpl;
    try (split; [eexists; reflexivity | repeat split]).
  all: match goal with
       | Hw : CommandBufferBase_write _ _ _ = _ |- _ =>
           apply CommandBufferBase_write_untouched in Hw
             as ((?&?&?&?&?&?&?&?&?&?&?) & Ht & _);
           simpl in *; rewrite ?Ht
       end.
  all: split; [eexists; reflexivity | repeat split; congruence].
Qed.
End Evaluator_facts.

Ltac control_type_index k :=
  lazymatch k with
  | @NO_CONTROL_DATA _ => constr:(0%nat)
  | @TARGET_POSE_COMMAND _ => constr:(1%nat)
  | @TWIST_COMMAND _ => constr:(2%nat)
  | @GOTO_COMMAND _ => constr:(3%nat)
  | @SIMPLE_ACTIONS_COMMAND _ => constr:(4%nat)
  | @COMPLEX_ACTION_COMMAND _ => constr:(5%nat)
  | @JOINTS_COMMAND _ => constr:(6%nat)
  | @HEARTBEAT _ => constr:(7%nat)
  | @PERMISSION _ => constr:(8%nat)
  | @ROBOT_TRAJECTORY_COMMAND _ => constr:(9%nat)
  | @TELEMETRY_REQUEST _ => constr:(10%nat)
  | @MAP_REQUEST _ => constr:(11%nat)
  | @LOG_LEVEL_SELECT _ => constr:(12%nat)
  | @FILE_REQUEST _ => constr:(13%nat)
  end.

Ltac distinct_control_types :=
  lazymatch goal with
  | |- ?a <> ?b =>
      let i := control_type_index a in
      let j := control_type_index b in
      apply (control_types_distinct i j); [reflexivity | reflexivity | lia]
  end.

Section Default_case.
Context `{Schema} `{MessageTypes}.

(** X4: a command of a registered type whose payload parses is acknowledged with
    its own type, marks its buffer fresh, leaves the other buffers' flags
    alone, calls the buffer's callbacks and then the global callbacks (with
    the type), each once and in registration order, and the serialized read
    of the buffer then gives the parsed message back. *)
Theorem accepted_command (k : Z) (p : CommandBufferPtr) (payload : bytes)
    (r : ControlledRobot) :
  is_command_type k ->
  is_std_string (store_u16 k ++ payload) ->
  commandbuffers r !! k = Some (Some p) ->
  parses p payload = true ->
  exists r1,
    evaluateRequest (store_u16 k ++ payload) r = Done k r1 /\
    replies r1 = replies r ++ [store_u16 k] /\
    events r1 = events r ++ map buffer_callback (callbacks_of p r)
                         ++ map (fun cb => command_callback cb k) (commandCallbacks r) /\
    isnew_of p r1 = true /\
    fst (CommandBufferBase_read p [] r1) = (true, reserialized p payload) /\
    forall q, q <> p -> isnew_of q r1 = isnew_of q r.
Proof.
  intros Hk Hs Hreg Hp. rewrite default_case by done.
  unfold evaluate_default. rewrite Hreg. simpl.
  destruct (CommandBufferBase_write p payload _) as [ok r1] eqn:Hw.
  pose proof (CommandBufferBase_write_spec _ _ _ _ _ Hw) as (-> & Hnew & _).
  apply CommandBufferBase_write_untouched in Hw
    as (Hun & Ht & _ & _ & _ & Hev & _ & Hser & Hother).
  destruct Hun as (_ & _ & _ & _ & _ & _ & _ & _ & _ & _ & Hcc).
  rewrite Hp in *. simpl in *.
  eexists. split; [reflexivity|]. unfold replies. simpl.
  rewrite Ht, Hev, Hcc, <- app_assoc. repeat split; try done.
  all: try (clear -Hnew Hser; destruct p; simpl in *; rewrite ?Hnew, ?Hser; done).
  intros q Hq. destruct (Hother q Hq) as (Hq1 & _).
  clear -Hq1. destruct q; simpl in *; done.
Qed.

(** X5: a message of a type without a buffer is answered with NO_CONTROL_DATA,
    the evaluator returns the type itself, no callback is called, no buffer
    changes, and [commandbuffers[type]] has left a null entry behind. *)
Theorem unknown_type (k : Z) (payload : bytes) (r : ControlledRobot) :
  is_command_type k ->
  is_std_string (store_u16 k ++ payload) ->
  (commandbuffers r !! k = None \/ commandbuffers r !! k = Some None) ->
  exists r1,
    evaluateRequest (store_u16 k ++ payload) r = Done k r1 /\
    replies r1 = replies r ++ [store_u16 NO_CONTROL_DATA] /\
    events r1 = events r /\
    commandbuffers r1 = <[k := None]> (commandbuffers r) /\
    forall q, isnew_of q r1 = isnew_of q r /\ serialized_of q r1 = serialized_of q r.
Proof.
  intros Hk Hs Hreg. rewrite default_case by done.
  unfold evaluate_default.
  assert (default None (commandbuffers r !! k) = None) as ->
    by (destruct Hreg as [-> | ->]; done).
  eexists. split; [reflexivity|]. unfold replies. simpl.
  repeat split; by destruct q.
Qed.

(** X6: a command of a registered type whose payload does not parse is answered
    with NO_CONTROL_DATA, returns NO_CONTROL_DATA, prints one line, calls
    no callback at all, clears the fresh flag of its buffer, leaves what
    the parser produced in it and leaves the other buffers alone. *)
Theorem undecodable_command (k : Z) (p : CommandBufferPtr) (payload : bytes)
    (r : ControlledRobot) :
  is_command_type k ->
  is_std_string (store_u16 k ++ payload) ->
  commandbuffers r !! k = Some (Some p) ->
  parses p payload = false ->
  exists r1,
    evaluateRequest (store_u16 k ++ payload) r = Done NO_CONTROL_DATA r1 /\
    replies r1 = replies r ++ [store_u16 NO_CONTROL_DATA] /\
    events r1 = events r ++ [printf (unable_to_parse k)] /\
    isnew_of p r1 = false /\
    serialized_of p r1 = reserialized p payload /\
    forall q, q <> p ->
      isnew_of q r1 = isnew_of q r /\ serialized_of q r1 = serialized_of q r.
Proof.
  intros Hk Hs Hreg Hp. rewrite default_case by done.
  unfold evaluate_default. rewrite Hreg. simpl.
  destruct (CommandBufferBase_write p payload _) as [ok r1] eqn:Hw.
  pose proof (CommandBufferBase_write_spec _ _ _ _ _ Hw) as (-> & Hnew & _).
  apply CommandBufferBase_write_untouched in Hw
    as (_ & Ht & _ & _ & _ & Hev & _ & Hser & Hother).
  rewrite Hp in *. simpl in *. rewrite app_nil_r in Hev.
  eexists. split; [reflexivity|]. unfold replies. simpl.
  rewrite Ht, Hev. repeat split; try done.
  all: try (clear -Hnew Hser; destruct p; simpl in *; rewrite ?Hnew, ?Hser; done).
  all: match goal with Hq : ?q <> _ |- _ =>
         destruct (Hother q Hq) as (Hq1 & _ & Hq3);
         clear -Hq1 Hq3; destruct q; simpl in *; done
       end.
Qed.

Lemma commandbuffers_persist (request : bytes) (r r1 : ControlledRobot) (t : Z) :
  evaluateRequest request r = Done t r1 ->
  forall k p,
    commandbuffers r1 !! k = Some (Some p) <-> commandbuffers r !! k = Some (Some p).
Proof.
  unfold evaluateRequest, evaluate_TELEMETRY_REQUEST, evaluate_MAP_REQUEST,
    evaluate_LOG_LEVEL_SELECT, evaluate_PERMISSION, evaluate_FILE_REQUEST,
    evaluate_default.
  intros Hev k p.
  repeat (case_match; try discriminate); simplify_eq; simpl; try done.
  all: try match goal with
       | Hw : CommandBufferBase_write _ _ _ = _ |- _ =>
           apply CommandBufferBase_write_untouched in Hw as (_ & _ & Hcb & _);
           simpl in Hcb; rewrite ?Hcb
       end.
  all: match goal with
       | Hd : default None (commandbuffers ?r0 !! ?z) = _ |- _ =>
           destruct (decide (z = k)) as [-> | Hne];
           [ rewrite lookup_insert_eq;
             destruct (commandbuffers r0 !! k) as [[?|]|]; simpl in Hd;
             split; congruence
           | by rewrite lookup_insert_ne ]
       end.
Qed.


Lemma registered_telemetry_lookup (l : list Z) (b : TelemetryBuffer) (t : Z) :
  foldl (fun b type => registerTelemetryType type b) b l !! t
  = if decide (t ∈ l) then Some None else b !! t.
Proof.
  revert b. induction l as [|x l IH]; intros b.
  - destruct (decide (t ∈ [])) as [Hin | _]; [by apply elem_of_nil in Hin | done].
  - change (foldl (fun b type => registerTelemetryType type b) b (x :: l))
      with (foldl (fun b type => registerTelemetryType type b)
              (registerTelemetryType x b) l).
    rewrite IH. unfold registerTelemetryType, registerType.
    destruct (decide (t ∈ l)) as [Hin | Hnot],
             (decide (t ∈ x :: l)) as [Hin' | Hnot']; try done.
    + exfalso. apply Hnot'. by right.
    + apply elem_of_cons in Hin' as [-> | Hin']; [| done].
      by rewrite lookup_insert_eq.
    + rewrite lookup_insert_ne; [done|]. intros ->. apply Hnot'. by left.
Qed.

(** X7: the evaluator never changes which types have a buffer: after any request
    a type points to a buffer exactly when it did before. *)
Theorem registrations_persist (request : bytes) (r r1 : ControlledRobot) (t : Z) :
  evaluateRequest request r = Done t r1 ->
  forall k p,
    commandbuffers r1 !! k = Some (Some p) <-> commandbuffers r !! k = Some (Some p).
Proof. apply commandbuffers_persist. Qed.

(** X8: after construction each of the nine command types points to its own
    buffer (no registration overwrites another), NO_CONTROL_DATA and the
    four request types have none, and every telemetry type of the
    constructor has an empty slot. *)
Theorem constructor_registrations (ct : Transport) (tt : option Transport) :
  let r := ControlledRobot_new ct tt in
  commandbuffers r !! TARGET_POSE_COMMAND = Some (Some p_poseCommand) /\
  commandbuffers r !! TWIST_COMMAND = Some (Some p_twistCommand) /\
  commandbuffers r !! JOINTS_COMMAND = Some (Some p_jointsCommand) /\
  commandbuffers r !! SIMPLE_ACTIONS_COMMAND = Some (Some p_simpleActionsCommand) /\
  commandbuffers r !! COMPLEX_ACTION_COMMAND
    = Some (Some p_complexActionCommandBuffer) /\
  commandbuffers r !! GOTO_COMMAND = Some (Some p_goToCommand) /\
  commandbuffers r !! HEARTBEAT = Some (Some p_heartbeatCommand) /\
  commandbuffers r !! PERMISSION = Some (Some p_permissionCommand) /\
  commandbuffers r !! ROBOT_TRAJECTORY_COMMAND = Some (Some p_robotTrajectoryCommand) /\
  commandbuffers r !! NO_CONTROL_DATA = None /\
  commandbuffers r !! TELEMETRY_REQUEST = None /\
  commandbuffers r !! MAP_REQUEST = None /\
  commandbuffers r !! LOG_LEVEL_SELECT = None /\
  commandbuffers r !! FILE_REQUEST = None /\
  (forall t, t ∈ telemetry_types -> buffers r !! t = Some None).
Proof.
  intros r. subst r. unfold ControlledRobot_new. cbn [commandbuffers buffers].
  unfold registerCommandType.
  repeat split;
    try (repeat (first [ rewrite lookup_insert_eq; reflexivity
                       | rewrite lookup_insert_ne by distinct_control_types ]);
         apply lookup_empty).
  intros t Ht. unfold telemetry_types in Ht. rewrite registered_telemetry_lookup.
  by destruct (decide _) as [_ | Hnot]; [| destruct (Hnot Ht)].
Qed.
End Default_case.

Section Requests.
Context `{Schema} `{MessageTypes}.

Lemma LOG_LEVEL_SELECT_case payload r :
  is_std_string (store_u16 LOG_LEVEL_SELECT ++ payload) ->
  evaluateRequest (store_u16 LOG_LEVEL_SELECT ++ payload) r
  = evaluate_LOG_LEVEL_SELECT payload r.
Proof.
  intros Hs.
  rewrite evaluateRequest_tagged; [| by apply (control_type_bounds 12%nat) | done].
  assert (LOG_LEVEL_SELECT <> TELEMETRY_REQUEST) by distinct_control_types.
  assert (LOG_LEVEL_SELECT <> MAP_REQUEST) by distinct_control_types.
  repeat (rewrite (proj2 (Z.eqb_neq _ _)) by done).
  by rewrite Z.eqb_refl.
Qed.

Lemma MAP_REQUEST_case payload r :
  is_std_string (store_u16 MAP_REQUEST ++ payload) ->
  evaluateRequest (store_u16 MAP_REQUEST ++ payload) r
  = evaluate_MAP_REQUEST payload r.
Proof.
  intros Hs.
  rewrite evaluateRequest_tagged; [| by apply (control_type_bounds 11%nat) | done].
  assert (MAP_REQUEST <> TELEMETRY_REQUEST) by distinct_control_types.
  repeat (rewrite (proj2 (Z.eqb_neq _ _)) by done).
  by rewrite Z.eqb_refl.
Qed.

Lemma TELEMETRY_REQUEST_case payload r :
  is_std_string (store_u16 TELEMETRY_REQUEST ++ payload) ->
  evaluateRequest (store_u16 TELEMETRY_REQUEST ++ payload) r
  = evaluate_TELEMETRY_REQUEST payload r.
Proof.
  intros Hs.
  rewrite evaluateRequest_tagged; [| by apply (control_type_bounds 10%nat) | done].
  by rewrite Z.eqb_refl.
Qed.

Lemma short_is_std_string (s : bytes) :
  (length s <= 1000)%nat -> is_std_string s.
Proof. unfold is_std_string, string_max_size. lia. Qed.

(** X9: LOG_LEVEL_SELECT with level [L] is acknowledged and sets the log level:
    afterwards [setLogMessage] drops every level strictly between [L] and
    CUSTOM with -1 and passes every level up to [L] and every level from
    CUSTOM on to [sendTelemetry]; no selection silences CUSTOM levels. *)
Theorem log_level_select_sets_the_gate (L : Z) (r : ControlledRobot) :
  0 <= L < 65536 ->
  exists r1,
    evaluateRequest (store_u16 LOG_LEVEL_SELECT ++ store_u16 L) r
      = Done LOG_LEVEL_SELECT r1 /\
    replies r1 = replies r ++ [store_u16 LOG_LEVEL_SELECT] /\
    logLevel r1 = L /\
    (forall lvl message, L < lvl < CUSTOM ->
       setLogMessage lvl message r1 = Done (-1) r1) /\
    (forall lvl message, lvl <= L \/ CUSTOM <= lvl ->
       setLogMessage lvl message r1
       = sendTelemetry (LogMessage.mk lvl message) LOG_MESSAGE false r1).
Proof.
  intros HL. rewrite LOG_LEVEL_SELECT_case by (apply short_is_std_string; simpl; lia).
  unfold evaluate_LOG_LEVEL_SELECT.
  rewrite <- (app_nil_r (store_u16 L)), (load_store_u16 L [] HL).
  eexists. split; [reflexivity|]. repeat split.
  - intros lvl message Hl. unfold setLogMessage. simpl.
    replace ((lvl <=? L) || (CUSTOM <=? lvl)) with false; [done|].
    symmetry. apply orb_false_iff. lia.
  - intros lvl message Hl. unfold setLogMessage. simpl.
    replace ((lvl <=? L) || (CUSTOM <=? lvl)) with true; [done|].
    symmetry. apply orb_true_iff. lia.
Qed.

(** X10: TELEMETRY_REQUEST, MAP_REQUEST and LOG_LEVEL_SELECT read a 16-bit value
    from their payload without looking at its size: with no payload the
    read leaves the string, and with a one-byte payload the terminator
    serves as high byte, so the value is that byte. *)
Theorem requests_without_payload (r : ControlledRobot) :
  evaluateRequest (serializeControlMessageType TELEMETRY_REQUEST) r = Undefined /\
  evaluateRequest (serializeControlMessageType MAP_REQUEST) r = Undefined /\
  evaluateRequest (serializeControlMessageType LOG_LEVEL_SELECT) r = Undefined /\
  forall b : byte,
    exists r1,
      evaluateRequest (serializeControlMessageType LOG_LEVEL_SELECT ++ [b]) r
        = Done LOG_LEVEL_SELECT r1 /\
      logLevel r1 = byte_to_Z b.
Proof.
  unfold serializeControlMessageType, addControlMessageType. simpl app.
  repeat split.
  - rewrite <- (app_nil_r (store_u16 _)).
    by rewrite TELEMETRY_REQUEST_case by (apply short_is_std_string; simpl; lia).
  - rewrite <- (app_nil_r (store_u16 _)).
    by rewrite MAP_REQUEST_case by (apply short_is_std_string; simpl; lia).
  - rewrite <- (app_nil_r (store_u16 _)).
    by rewrite LOG_LEVEL_SELECT_case by (apply short_is_std_string; simpl; lia).
  - intros b.
    change [byte_of_Z LOG_LEVEL_SELECT; byte_of_Z (LOG_LEVEL_SELECT / 256); b]
      with (store_u16 LOG_LEVEL_SELECT ++ [b]).
    rewrite LOG_LEVEL_SELECT_case by (apply short_is_std_string; simpl; lia).
    eexists. split; reflexivity.
Qed.

(** *** Maps *)

(** X11: a MAP_REQUEST for an id at or beyond the number of map buffers is
    answered with an empty buffer. *)
Theorem map_request_beyond_the_buffers (id : Z) (r : ControlledRobot) :
  0 <= id < 65536 ->
  Z.of_nat (length (mapBuffer r)) <= id ->
  exists r1,
    evaluateRequest (store_u16 MAP_REQUEST ++ store_u16 id) r = Done MAP_REQUEST r1 /\
    replies r1 = replies r ++ [[]].
Proof.
  intros Hid Hlen.
  rewrite MAP_REQUEST_case by (apply short_is_std_string; simpl; lia).
  unfold evaluate_MAP_REQUEST.
  rewrite <- (app_nil_r (store_u16 id)), (load_store_u16 id [] Hid).
  replace (id <? Z.of_nat (length (mapBuffer r))) with false by (symmetry; lia).
  eexists. split; reflexivity.
Qed.

Lemma length_initBufferID id b : (id < length (initBufferID id b))%nat.
Proof. unfold initBufferID. rewrite length_app, length_replicate. lia. Qed.

(** X12: [setMap(map, id)] returns 1 and, for an id below 2^16, the MAP_REQUEST
    for that id is then answered with exactly [map]; the maps under other
    ids stay. *)
Theorem map_round_trip (map : bytes) (mapId : Z) (r : ControlledRobot) :
  0 <= mapId < 65536 ->
  exists r1 r2,
    setMap map mapId r = (1, r1) /\
    evaluateRequest (store_u16 MAP_REQUEST ++ store_u16 mapId) r1
      = Done MAP_REQUEST r2 /\
    replies r2 = replies r ++ [map] /\
    (forall other, other <> Z.to_nat mapId ->
       (other < length (mapBuffer r))%nat ->
       mapBuffer r2 !! other = mapBuffer r !! other).
Proof.
  intros Hid.
  set (id := Z.to_nat mapId).
  set (b1 := pushMap id map (initBufferID id (mapBuffer r))).
  pose proof (length_initBufferID id (mapBuffer r)) as Hinit.
  assert (Hl : (id < length b1)%nat)
    by (unfold b1, pushMap; by rewrite length_insert).
  assert (Hget : b1 !! id = Some (Some map))
    by (unfold b1, pushMap; by apply list_lookup_insert_eq).
  assert (Hoth : forall other, other <> id ->
            (other < length (mapBuffer r))%nat ->
            b1 !! other = mapBuffer r !! other).
  { intros other Hne Hlt. unfold b1, pushMap.
    rewrite list_lookup_insert_ne by done.
    unfold initBufferID. by rewrite lookup_app_l. }
  exists (set_mapBuffer b1 r). eexists. split; [reflexivity|].
  rewrite MAP_REQUEST_case by (apply short_is_std_string; simpl; lia).
  unfold evaluate_MAP_REQUEST.
  rewrite <- (app_nil_r (store_u16 mapId)), (load_store_u16 mapId [] Hid).
  cbn [mapBuffer set_mapBuffer]. fold id.
  replace (mapId <? Z.of_nat (length b1)) with true by (symmetry; lia).
  rewrite Hget. cbn [peekMap].
  split; [reflexivity|]. split; [reflexivity|]. exact Hoth.
Qed.
End Requests.

Section Permissions_and_telemetry.
Context `{Schema} `{MessageTypes}.

(** X13: a PERMISSION that arrives before its request is kept: the entry it
    creates is the one [requestPermission] later finds, so the future
    returned for that uid already holds the granted flag. *)
Theorem permission_before_request (payload : bytes) (req : PermissionRequest.t)
    (r : ControlledRobot) (transport : Transport) :
  let perm : Permission.t := snd (ParseFromString payload) in
  PermissionRequest.requestuid req = Permission.requestuid perm ->
  is_std_string (store_u16 PERMISSION ++ payload) ->
  pendingPermissionRequests r !! Permission.requestuid perm = None ->
  telemetryTransport r = Some transport ->
  is_Some (buffers r !! PERMISSION_REQUEST) ->
  exists r1 r2 f,
    evaluateRequest (store_u16 PERMISSION ++ payload) r = Done PERMISSION r1 /\
    requestPermission req r1 = Done f r2 /\
    future_value f r2 = Some (Permission.granted perm).
Proof.
  intros perm Huid Hs Hnew Ht [slot Hb].
  rewrite PERMISSION_case by done.
  unfold evaluate_PERMISSION. fold perm. rewrite Hnew. simpl.
  eexists _, _, _. split; [reflexivity|].
  unfold requestPermission, sendTelemetry, pushData, future_value.
  simpl. rewrite Huid, lookup_insert_eq, Ht, Hb. simpl.
  split; [reflexivity|]. simpl. by rewrite lookup_insert_eq.
Qed.

(** X14: once a future has a value, no request the evaluator handles and no
    [requestPermission] changes it. *)
Theorem resolved_future_is_final (f : shared_future) (g : bool)
    (r : ControlledRobot) :
  future_value f r = Some g ->
  (forall request t r1,
     evaluateRequest request r = Done t r1 -> future_value f r1 = Some g) /\
  (forall req f' r1,
     requestPermission req r = Done f' r1 -> future_value f r1 = Some g).
Proof.
  unfold future_value. intros Hf. split.
  - unfold evaluateRequest, evaluate_TELEMETRY_REQUEST, evaluate_MAP_REQUEST,
      evaluate_LOG_LEVEL_SELECT, evaluate_PERMISSION, evaluate_FILE_REQUEST,
      evaluate_default, promise_set_value.
    intros request t r1 Hev.
    repeat (case_match; try discriminate); simplify_eq; simpl; try done.
    all: try match goal with
         | Hw : CommandBufferBase_write _ _ _ = _ |- _ =>
             apply CommandBufferBase_write_untouched in Hw
               as (_ & _ & _ & _ & Hpend & _);
             simpl in Hpend; by rewrite ?Hpend
         end.
    all: match goal with
         | |- context [<[?uid := _]> _] =>
             destruct (decide (uid = future_key f)) as [Heq | Hne];
             [ rewrite Heq in *; rewrite lookup_insert_eq;
               destruct (pendingPermissionRequests r !! future_key f)
                 as [[v ?]|]; simpl in *; congruence
             | by rewrite lookup_insert_ne ]
         end.
  - unfold requestPermission, promise_get_future. intros req f' r1 Hreq.
    pose proof (sendTelemetry_returns req PERMISSION_REQUEST false
      (set_pendingPermissionRequests
         (<[PermissionRequest.requestuid req :=
              default promise_new
                (pendingPermissionRequests r !! PermissionRequest.requestuid req)]>
            (pendingPermissionRequests r)) r)) as Hs.
    destruct (sendTelemetry _ _ _ _) as [n r'| |]; try done.
    destruct Hs as [Hpend _]. simpl in Hpend.
    destruct (future_retrieved _); [done|].
    injection Hreq as <- <-. simpl. rewrite Hpend.
    destruct (decide (PermissionRequest.requestuid req = future_key f))
      as [Heq | Hne].
    + rewrite Heq in *. rewrite lookup_insert_eq. simpl.
      by destruct (pendingPermissionRequests r !! future_key f) as [[v ?]|].
    + by rewrite !lookup_insert_ne.
Qed.

Lemma CommandBufferBase_write_other_buffer p payload r ok r1 :
  CommandBufferBase_write p payload r = (ok, r1) ->
  p <> p_permissionCommand -> permissionCommand r1 = permissionCommand r.
Proof.
  unfold CommandBufferBase_write, CommandBuffer.write.
  destruct p; simpl; try done;
    match goal with |- context [ParseFromString ?b] =>
      destruct (ParseFromString b) as [[] parsed] end;
    simpl; by intros [= <- <-].
Qed.

(** X15: as long as PERMISSION is the only type registered for
    [permissionCommand], as the constructor leaves it, the evaluator never
    writes that buffer: the PERMISSION case of the switch shadows it. *)
Theorem permission_buffer_is_never_written (request : bytes)
    (r r1 : ControlledRobot) (t : Z) :
  (forall k, commandbuffers r !! k = Some (Some p_permissionCommand) ->
             k = PERMISSION) ->
  evaluateRequest request r = Done t r1 ->
  permissionCommand r1 = permissionCommand r.
Proof.
  unfold evaluateRequest, evaluate_TELEMETRY_REQUEST, evaluate_MAP_REQUEST,
    evaluate_LOG_LEVEL_SELECT, evaluate_PERMISSION, evaluate_FILE_REQUEST,
    evaluate_default.
  intros Honly Hev.
  repeat (case_match; try discriminate); simplify_eq; simpl; try done.
  all: match goal with
       | Hw : CommandBufferBase_write ?p _ _ = _ |- _ =>
           apply CommandBufferBase_write_other_buffer in Hw; [by rewrite Hw |]
       end.
  all: intros ->.
  all: match goal with
       | Hd : default None (commandbuffers ?r0 !! ?z) = Some p_permissionCommand,
         Hne : (?z =? PERMISSION) = false |- _ =>
           apply Z.eqb_neq in Hne; apply Hne, Honly;
           destruct (commandbuffers r0 !! z) as [[?|]|]; simpl in Hd; congruence
       end.
Qed.

(** *** What sendTelemetry returns and stores *)

(** X16: with a telemetry transport and a registered type, [sendTelemetry] hands
    the frame (type, then payload) to the transport, stores the payload,
    and returns the byte count the transport reports minus 2: a failed
    send (0 bytes) gives -2. *)
Theorem sendTelemetry_result {CLASS : Type} `{!ProtoMessage CLASS}
    (v : CLASS) (t : Z) (r : ControlledRobot) (transport : Transport) :
  let frame := store_u16 t ++ SerializeToString v in
  let n := send_result transport frame in
  telemetryTransport r = Some transport ->
  is_Some (buffers r !! t) ->
  0 <= n < 2147483650 ->
  exists r1,
    sendTelemetry v t false r = Done (n - 2) r1 /\
    telemetry_sent r1 = telemetry_sent r ++ [frame] /\
    buffers r1 = <[t := Some (SerializeToString v)]> (buffers r) /\
    replies r1 = replies r.
Proof.
  intros frame n Ht [slot Hb] Hn.
  assert (Hint : to_int (size_t_wrap (n - 2)) = n - 2).
  { unfold to_int, size_t_wrap.
    destruct (decide (2 <= n)).
    - rewrite (Z.mod_small (n - 2)) by lia. rewrite Z.mod_small by lia.
      by replace (n - 2 <? 2147483648) with true by (symmetry; lia).
    - replace ((n - 2) mod 18446744073709551616)
        with (18446744073709551616 + (n - 2))
        by (apply Z.mod_unique with (-1); lia).
      replace ((18446744073709551616 + (n - 2)) mod 4294967296)
        with (4294967296 + (n - 2))
        by (apply Z.mod_unique with 4294967295; lia).
      replace (4294967296 + (n - 2) <? 2147483648) with false by (symmetry; lia).
      lia. }
  unfold sendTelemetry, pushData, telemetry_sent, AppendToString. rewrite Ht, Hb.
  cbn [negb TransportOps.send]. fold frame. fold n. rewrite Hint.
  eexists. split; [reflexivity|]. done.
Qed.

(** X17: with [requestOnly] set, [sendTelemetry] stores the payload for later
    requests, sends nothing and returns the size of the frame. *)
Theorem request_only_stores_without_sending {CLASS : Type} `{!ProtoMessage CLASS}
    (v : CLASS) (t : Z) (r : ControlledRobot) (transport : Transport) :
  telemetryTransport r = Some transport ->
  is_Some (buffers r !! t) ->
  2 + Z.of_nat (length (SerializeToString v)) < 2147483648 ->
  sendTelemetry v t true r
  = Done (2 + Z.of_nat (length (SerializeToString v)))
         (set_buffers (<[t := Some (SerializeToString v)]> (buffers r)) r).
Proof.
  intros Ht [slot Hb] Hlen.
  unfold sendTelemetry, pushData, AppendToString. rewrite Ht, Hb.
  cbn [negb]. rewrite length_app, length_store_u16. f_equal.
  unfold to_int. rewrite Z.mod_small by lia.
  case Z.ltb_spec; lia.
Qed.

(** X18: without a telemetry transport [sendTelemetry] returns 0, prints an
    error, stores nothing and sends nothing, for every type. *)
Theorem sendTelemetry_without_transport {CLASS : Type} `{!ProtoMessage CLASS}
    (v : CLASS) (t : Z) (requestOnly : bool) (r : ControlledRobot) :
  telemetryTransport r = None ->
  exists r1,
    sendTelemetry v t requestOnly r = Done 0 r1 /\
    buffers r1 = buffers r /\
    telemetry_sent r1 = [] /\
    replies r1 = replies r /\
    events r1 = events r ++ [printf ERROR_Transport_invalid].
Proof.
  intros Ht. unfold sendTelemetry, telemetry_sent. rewrite Ht.
  eexists. split; [reflexivity|]. simpl. by rewrite Ht.
Qed.

(** X19: [sendTelemetry] never throws; when it returns, the set of registered
    telemetry types is unchanged; and it accesses a slot that does not
    exist, which is undefined, exactly when there is a transport and the
    type has no slot. *)
Theorem telemetry_slots_persist {CLASS : Type} `{!ProtoMessage CLASS}
    (v : CLASS) (t : Z) (requestOnly : bool) (r : ControlledRobot) :
  (sendTelemetry v t requestOnly r = Undefined
   <-> telemetryTransport r <> None /\ buffers r !! t = None) /\
  match sendTelemetry v t requestOnly r with
  | Done _ r1 => forall t', is_Some (buffers r1 !! t') <-> is_Some (buffers r !! t')
  | Threw _ _ => False
  | Undefined => True
  end.
Proof.
  unfold sendTelemetry, pushData.
  destruct (telemetryTransport r) as [transport|] eqn:Ht.
  2: { split; [|done]. split; [done | by intros [? _]]. }
  destruct (buffers r !! t) as [slot|] eqn:Hb; [| done].
  assert (forall t', is_Some (<[t := Some (SerializeToString v)]> (buffers r) !! t')
                     <-> is_Some (buffers r !! t')).
  { intros t'. destruct (decide (t = t')) as [<- | Hne].
    - rewrite lookup_insert_eq, Hb. split; eauto.
    - by rewrite lookup_insert_ne. }
  destruct requestOnly; simpl; (split; [|done]); (split; [done | by intros [_ ?]]).
Qed.
End Permissions_and_telemetry.

Section Update_facts.
Context `{Schema} `{MessageTypes}.

Lemma goes_through_evaluates r msg :
  goes_through r msg ->
  exists t r1, evaluateRequest msg r = Done t r1 /\ t <> NO_CONTROL_DATA.
Proof.
  intros (k & payload & -> & Hs & Hk & Hne & Hparse).
  rewrite default_case by done. unfold evaluate_default.
  destruct (commandbuffers r !! k) as [[p|]|] eqn:Hreg; simpl; eauto.
  destruct (CommandBufferBase_write p payload _) as [ok r1] eqn:Hw.
  apply CommandBufferBase_write_spec in Hw as (-> & _).
  rewrite (Hparse p eq_refl). simpl. eauto.
Qed.

Lemma goes_through_persist r r1 msg :
  (forall k p, commandbuffers r1 !! k = Some (Some p) ->
               commandbuffers r !! k = Some (Some p)) ->
  goes_through r msg -> goes_through r1 msg.
Proof.
  intros Hsub (k & payload & -> & Hs & Hk & Hne & Hparse).
  exists k, payload. split_and!; try done. intros p Hp. apply Hparse, Hsub, Hp.
Qed.

Lemma drain_commands (l : list bytes) :
  forall r,
    inbox (commandTransport r) = l ->
    Forall (goes_through r) l ->
    exists r1,
      update_loop (S (length l)) r = Some (Done tt r1) /\
      inbox (commandTransport r1) = [] /\
      length (replies r1) = (length (replies r) + length l)%nat /\
      (l <> [] -> connected r1 = true).
Proof.
  induction l as [|msg rest IH]; intros r Hin Hall.
  - exists r. cbn [update_loop length].
    rewrite receiveRequest_no_data, Z.eqb_refl by done.
    repeat split; first [done | simpl; lia].
  - destruct (receiveRequest_message r msg rest Hin) as (Hrr & Hrest & _).
    apply Forall_cons in Hall as [Hmsg Hall].
    assert (Hcb : commandbuffers (received r) = commandbuffers r) by done.
    destruct (goes_through_evaluates (received r) msg) as (t & r1 & Hev & Hne).
    { eapply goes_through_persist; [| exact Hmsg]. intros k p. by rewrite Hcb. }
    pose proof (evaluateRequest_frame _ _ _ _ Hev) as (_ & Hi & reply & Hrep).
    pose proof (commandbuffers_persist _ _ _ _ Hev) as Hreg.
    destruct (IH (set_connected true r1)) as (r2 & Hloop & Hempty & Hlen & _).
    { simpl. congruence. }
    { eapply Forall_impl; [exact Hall|]. intros m. apply goes_through_persist.
      intros k p. simpl. rewrite Hreg, Hcb. done. }
    exists r2. split; [| split; [done | split]].
    + change (update_loop (S (length (msg :: rest))) r)
        with (match receiveRequest r with
              | Done type r0 =>
                  if type =? NO_CONTROL_DATA then Some (Done tt r0)
                  else update_loop (S (length rest)) (set_connected true r0)
              | Threw e r0 => Some (Threw e r0)
              | Undefined => Some Undefined
              end).
      by rewrite Hrr, Hev, (proj2 (Z.eqb_neq _ _) Hne).
    + rewrite Hlen. unfold replies in *. simpl. rewrite Hrep, length_app.
      unfold received, TransportOps.receive. rewrite Hin. simpl. lia.
    + intros _. eapply update_loop_keeps_connected; [| exact Hloop]. reflexivity.
Qed.

(** X20: when every waiting message is a command that goes through (a type of
    the default case other than NO_CONTROL_DATA with a payload its buffer,
    if any, can parse), the loop of [update] empties the transport, sends
    one reply per message and, if there was a message, leaves [connected]
    set. *)
Theorem waiting_commands_are_all_answered (r : ControlledRobot) :
  Forall (goes_through r) (inbox (commandTransport r)) ->
  exists r1,
    update_loop (S (length (inbox (commandTransport r)))) r = Some (Done tt r1) /\
    inbox (commandTransport r1) = [] /\
    length (replies r1)
      = (length (replies r) + length (inbox (commandTransport r)))%nat /\
    (inbox (commandTransport r) <> [] -> connected r1 = true).
Proof. intros Hall. by apply drain_commands. Qed.

(** X21: [update] with nothing waiting, no fresh heartbeat and a timer that has
    not expired sends nothing, calls nothing and keeps [connected]; it
    still copies the stored heartbeat into [heartbeatValues]. *)
Theorem idle_update (r : ControlledRobot) (timer : Timer) :
  inbox (commandTransport r) = [] ->
  isnew (heartbeatCommand r) = false ->
  Timer_isExpired (heartbeatTimer r) = (false, timer) ->
  exists r1,
    update r = Some (Done tt r1) /\
    replies r1 = replies r /\
    telemetry_sent r1 = telemetry_sent r /\
    events r1 = events r /\
    isConnected r1 = isConnected r /\
    heartbeatTimer r1 = timer /\
    heartbeatValues r1 = command (heartbeatCommand r).
Proof.
  intros Hin Hnew Hexp. unfold update. rewrite Hin. cbn [length update_loop].
  rewrite receiveRequest_no_data, Z.eqb_refl by done.
  eexists. split; [reflexivity|].
  unfold update_heartbeat, CommandBuffer.read. rewrite Hnew. simpl.
  rewrite Hexp. done.
Qed.
End Update_facts.

Section File_responder.
Context `{Schema} `{MessageTypes}.

Lemma find_file_spec identifier l i j :
  find_file identifier l i = Some j ->
  exists n f,
    j = (i + n)%nat /\ l !! n = Some f /\ File.identifier f = identifier /\
    forall m g, (m < n)%nat -> l !! m = Some g -> File.identifier g <> identifier.
Proof.
  revert i. induction l as [|f l IH]; intros i; simpl; [done|].
  destruct (String.eqb_spec (File.identifier f) identifier) as [Heq | Hne].
  - intros [= <-]. exists 0%nat, f. repeat split; try done; lia.
  - intros Hfind. destruct (IH _ Hfind) as (n & g & -> & Hg & Hid & Hfirst).
    exists (S n), g. repeat split; try done; [lia|].
    intros [|m] g' Hm Hg'; simpl in Hg'; [congruence|].
    apply (Hfirst m g'); [lia | done].
Qed.

(** X23: the search of the FILE_REQUEST case returns the first definition with
    the requested identifier, and none exactly when no definition has
    it. *)
Theorem first_matching_definition_is_served (identifier : string)
    (l : list File.t) :
  match find_file identifier l 0 with
  | Some index =>
      exists f, l !! index = Some f /\ File.identifier f = identifier /\
      forall m g, (m < index)%nat -> l !! m = Some g ->
                  File.identifier g <> identifier
  | None => Forall (fun f => File.identifier f <> identifier) l
  end.
Proof.
  destruct (find_file identifier l 0) as [index|] eqn:Hfind.
  - destruct (find_file_spec _ _ _ _ Hfind) as (n & f & -> & Hf & Hid & Hfirst).
    exists f. eauto.
  - revert Hfind. generalize 0%nat.
    induction l as [|f l IH]; intros i; simpl; [constructor|].
    destruct (String.eqb_spec (File.identifier f) identifier); [done|].
    intros Hfind. constructor; [done | by eapply IH].
Qed.

(** X24: a FILE_REQUEST for a defined regular file is answered with a Folder of
    one file entry carrying the path of the definition; the data are the
    content of the file, compressed only if zlib is built in and
    compression was asked for, and the compressed flag says so; a file
    that cannot be opened gives the same entry with no data. *)
Theorem file_request_for_a_file (payload : bytes) (r : ControlledRobot)
    (index : nat) (filedef : File.t) :
  let request : FileRequest.t := snd (ParseFromString payload) in
  let compressed := ZLIB_FOUND && FileRequest.compressed request in
  let data :=
    match ifstream_read (File.path filedef) with
    | Some content => if compressed then compressString content else content
    | None => []
    end in
  is_std_string (store_u16 FILE_REQUEST ++ payload) ->
  find_file (FileRequest.identifier request) (FileDefinition.file (files r)) 0
    = Some index ->
  FileDefinition.file (files r) !! index = Some filedef ->
  FileDefinition.isfolder (files r) !! index = Some false ->
  exists r1,
    evaluateRequest (store_u16 FILE_REQUEST ++ payload) r = Done FILE_REQUEST r1 /\
    replies r1 = replies r ++
      [SerializeToString
         (Folder.mk EmptyString compressed
            [File.mk EmptyString (File.path filedef) data])].
Proof.
  intros request compressed data Hs Hfind Hfile Hisf.
  rewrite FILE_REQUEST_case by done.
  unfold evaluate_FILE_REQUEST. fold request. rewrite Hfind.
  subst data compressed. unfold loadFile.
  destruct ZLIB_FOUND; simpl; rewrite Hfile, Hisf;
    destruct (ifstream_read (File.path filedef)) as [content|];
    try destruct (FileRequest.compressed request);
    eexists; (split; [reflexivity|]); reflexivity.
Qed.

(** X25: [loadFolder] appends one file entry per directory entry visited, in
    order; without an error it sets the compressed flag as asked; on a
    filesystem error it returns false, puts the error text into the
    identifier, prints it, leaves the compressed flag and keeps the
    entries read before the error. *)
Theorem loadFolder_keeps_what_it_read (folder : Folder.t) (path : string)
    (compressed : bool) :
  let entries := fst (recursive_directory_iterator path) in
  let loaded := fst (fst (loadFolder folder path compressed)) in
  let result := snd (fst (loadFolder folder path compressed)) in
  map File.path (Folder.file result)
    = map File.path (Folder.file folder) ++ entries /\
  match snd (recursive_directory_iterator path) with
  | None =>
      loaded = true /\
      Folder.compressed result = compressed /\
      Folder.identifier result = Folder.identifier folder /\
      snd (loadFolder folder path compressed) = []
  | Some what =>
      loaded = false /\
      Folder.compressed result = Folder.compressed folder /\
      Folder.identifier result = what /\
      snd (loadFolder folder path compressed) = [filesystem_error_what what]
  end.
Proof.
  unfold loadFolder.
  destruct (recursive_directory_iterator path) as [entries error].
  assert (Hfold : forall fo,
    let fo' := foldl (fun folder entry =>
                 Folder.add_file (snd (loadFile File.new entry compressed)) folder)
                 fo entries in
    map File.path (Folder.file fo') = map File.path (Folder.file fo) ++ entries /\
    Folder.compressed fo' = Folder.compressed fo /\
    Folder.identifier fo' = Folder.identifier fo).
  { induction entries as [|entry entries IH]; intros fo; simpl.
    - by rewrite app_nil_r.
    - destruct (IH (Folder.add_file (snd (loadFile File.new entry compressed)) fo))
        as (Hp & Hc & Hi).
      rewrite Hp, Hc, Hi. simpl. rewrite map_app, <- app_assoc. simpl.
      repeat split. do 3 f_equal. unfold loadFile.
      destruct (ifstream_read entry); [destruct (ZLIB_FOUND && compressed)|]; done. }
  destruct (Hfold folder) as (Hp & Hc & Hi).
  destruct error as [what|]; simpl; auto.
Qed.
End File_responder.

Section Callbacks.
Context `{Schema} `{MessageTypes}.

(** X26: [addCommandReceivedCallback(type, function)] appends the function to the
    callbacks of the buffer of that type and changes no other buffer, flag
    or registration; for a type without a buffer it calls through a null
    pointer. *)
Theorem callback_for_a_type (type : Z) (function : Callback) (r : ControlledRobot) :
  match commandbuffers r !! type with
  | Some (Some p) =>
      exists r1,
        addCommandReceivedCallback_type type function r = Done tt r1 /\
        callbacks_of p r1 = callbacks_of p r ++ [function] /\
        (forall q, q <> p -> callbacks_of q r1 = callbacks_of q r) /\
        (forall q, isnew_of q r1 = isnew_of q r) /\
        commandCallbacks r1 = commandCallbacks r /\
        (forall k p', commandbuffers r1 !! k = Some (Some p')
                      <-> commandbuffers r !! k = Some (Some p'))
  | _ => addCommandReceivedCallback_type type function r = Undefined
  end.
Proof.
  unfold addCommandReceivedCallback_type.
  destruct (commandbuffers r !! type) as [[p|]|] eqn:Hreg; simpl; try done.
  eexists. split; [reflexivity|].
  split; [by destruct p|]. split; [by destruct p, q|]. split; [by destruct p, q|].
  split; [by destruct p|].
  intros k p'.
  assert (commandbuffers
            (CommandBufferBase_addCommandReceivedCallback p function
               (set_commandbuffers (<[type := Some p]> (commandbuffers r)) r))
          = <[type := Some p]> (commandbuffers r)) as -> by (by destruct p).
  destruct (decide (type = k)) as [<- | Hne].
  - rewrite lookup_insert_eq, Hreg. done.
  - by rewrite lookup_insert_ne.
Qed.
End Callbacks.

Section Legacy_evaluator.
Context `{Schema} `{Legacy.MessageTypes}.

Lemma Legacy_types_distinct i j a b :
  [Legacy.NO_DATA; Legacy.CURRENT_POSE; Legacy.TARGET_POSE; Legacy.TWIST_COMMAND]
    !! i = Some a ->
  [Legacy.NO_DATA; Legacy.CURRENT_POSE; Legacy.TARGET_POSE; Legacy.TWIST_COMMAND]
    !! j = Some b ->
  i <> j -> a <> b.
Proof.
  intros Hi Hj Hij ->. apply Hij.
  eapply NoDup_lookup; [apply Legacy.control_types_NoDup | done | done].
Qed.

Lemma Legacy_type_bounds i k :
  [Legacy.NO_DATA; Legacy.CURRENT_POSE; Legacy.TARGET_POSE; Legacy.TWIST_COMMAND]
    !! i = Some k -> 0 <= k < 65536.
Proof.
  intros Hk. pose proof Legacy.control_types_u16 as Hu.
  rewrite Forall_forall in Hu. apply Hu. by eapply list_elem_of_lookup_2.
Qed.

Lemma Legacy_evaluateRequest_tagged k payload (r : Legacy.ControlledRobot) :
  0 <= k < 65536 -> is_std_string (store_u16 k ++ payload) ->
  Legacy.evaluateRequest (store_u16 k ++ payload) r =
    if k =? Legacy.CURRENT_POSE then
      Done Legacy.CURRENT_POSE
           (Legacy.commandTransport_send (Legacy.serializeCurrentPose r) r)
    else if k =? Legacy.TARGET_POSE then
      Done Legacy.TARGET_POSE
        (Legacy.commandTransport_send
           (Legacy.serializeControlMessageType Legacy.TARGET_POSE)
           (Legacy.mkControlledRobot (Legacy.commandTransport r)
              (Legacy.telemetryTransport r) (Legacy.currentPose r)
              (snd (ParseFromString payload)) (Legacy.twistCommand r)))
    else if k =? Legacy.TWIST_COMMAND then
      Done Legacy.TWIST_COMMAND
        (Legacy.commandTransport_send
           (Legacy.serializeControlMessageType Legacy.TWIST_COMMAND)
           (Legacy.mkControlledRobot (Legacy.commandTransport r)
              (Legacy.telemetryTransport r) (Legacy.currentPose r)
              (Legacy.targetPose r) (snd (ParseFromString payload))))
    else
      Done k (Legacy.commandTransport_send
                (Legacy.serializeControlMessageType Legacy.NO_DATA) r).
Proof.
  intros Hk Hs. unfold Legacy.evaluateRequest.
  rewrite load_store_u16 by done.
  destruct (payload_eq (store_u16 k ++ payload)) as [-> ->]; [done | simpl; lia |].
  reflexivity.
Qed.

(** X27: the first version of the evaluator acknowledges a TARGET_POSE or
    TWIST_COMMAND whatever its payload: it stores what the parser produced
    and replies with the type, parsed or not. *)
Theorem legacy_evaluator_does_not_check_the_parse (payload : bytes)
    (r : Legacy.ControlledRobot) :
  is_std_string (store_u16 Legacy.TARGET_POSE ++ payload) ->
  is_std_string (store_u16 Legacy.TWIST_COMMAND ++ payload) ->
  (exists r1,
     Legacy.evaluateRequest (store_u16 Legacy.TARGET_POSE ++ payload) r
       = Done Legacy.TARGET_POSE r1 /\
     outbox (Legacy.commandTransport r1)
       = outbox (Legacy.commandTransport r) ++ [store_u16 Legacy.TARGET_POSE] /\
     Legacy.targetPose r1 = snd (ParseFromString payload) /\
     Legacy.twistCommand r1 = Legacy.twistCommand r) /\
  (exists r1,
     Legacy.evaluateRequest (store_u16 Legacy.TWIST_COMMAND ++ payload) r
       = Done Legacy.TWIST_COMMAND r1 /\
     outbox (Legacy.commandTransport r1)
       = outbox (Legacy.commandTransport r) ++ [store_u16 Legacy.TWIST_COMMAND] /\
     Legacy.twistCommand r1 = snd (ParseFromString payload) /\
     Legacy.targetPose r1 = Legacy.targetPose r).
Proof.
  intros Hs1 Hs2.
  assert (Legacy.TARGET_POSE <> Legacy.CURRENT_POSE)
    by (apply (Legacy_types_distinct 2 1); [done | done | lia]).
  assert (Legacy.TWIST_COMMAND <> Legacy.CURRENT_POSE)
    by (apply (Legacy_types_distinct 3 1); [done | done | lia]).
  assert (Legacy.TWIST_COMMAND <> Legacy.TARGET_POSE)
    by (apply (Legacy_types_distinct 3 2); [done | done | lia]).
  split.
  - rewrite Legacy_evaluateRequest_tagged;
      [| by apply (Legacy_type_bounds 2%nat) | done].
    rewrite (proj2 (Z.eqb_neq _ _)) by done. rewrite Z.eqb_refl.
    eexists. split; [reflexivity|]. done.
  - rewrite Legacy_evaluateRequest_tagged;
      [| by apply (Legacy_type_bounds 3%nat) | done].
    rewrite !(proj2 (Z.eqb_neq _ _)) by done. rewrite Z.eqb_refl.
    eexists. split; [reflexivity|]. done.
Qed.

(** X28: the first version answers a CURRENT_POSE request with the type followed
    by the serialized current pose, answers any type it does not know with
    NO_DATA while returning that type and changing nothing, and never
    changes the current pose. *)
Theorem legacy_pose_request_and_unknown_type (k : Z) (payload : bytes)
    (r : Legacy.ControlledRobot) :
  0 <= k < 65536 ->
  is_std_string (store_u16 k ++ payload) ->
  exists r1,
    Legacy.evaluateRequest (store_u16 k ++ payload) r
      = Done (if k =? Legacy.CURRENT_POSE then Legacy.CURRENT_POSE else k) r1 /\
    Legacy.currentPose r1 = Legacy.currentPose r /\
    (k = Legacy.CURRENT_POSE ->
       outbox (Legacy.commandTransport r1)
       = outbox (Legacy.commandTransport r) ++
           [store_u16 Legacy.CURRENT_POSE ++ SerializeToString (Legacy.currentPose r)]) /\
    (k <> Legacy.CURRENT_POSE -> k <> Legacy.TARGET_POSE ->
     k <> Legacy.TWIST_COMMAND ->
       outbox (Legacy.commandTransport r1)
       = outbox (Legacy.commandTransport r) ++ [store_u16 Legacy.NO_DATA] /\
       Legacy.targetPose r1 = Legacy.targetPose r /\
       Legacy.twistCommand r1 = Legacy.twistCommand r).
Proof.
  intros Hk Hs. rewrite Legacy_evaluateRequest_tagged by done.
  destruct (Z.eqb_spec k Legacy.CURRENT_POSE) as [-> | Hc].
  { eexists. split; [reflexivity|]. repeat split; done. }
  destruct (Z.eqb_spec k Legacy.TARGET_POSE) as [-> | Ht].
  { eexists. split; [reflexivity|]. repeat split; done. }
  destruct (Z.eqb_spec k Legacy.TWIST_COMMAND) as [-> | Hw].
  { eexists. split; [reflexivity|]. repeat split; done. }
  eexists. split; [reflexivity|]. repeat split; done.
Qed.
End Legacy_evaluator.

Section Ros_poses.
Context {Point Quaternion ros_Point ros_Quaternion Time : Type}.
Context (convert_Point : Point -> ros_Point -> ros_Point)
        (convert_Quaternion : Quaternion -> ros_Quaternion -> ros_Quaternion)
        (convert_ros_Point : ros_Point -> Point -> Point)
        (convert_ros_Quaternion : ros_Quaternion -> Quaternion -> Quaternion).

(** X29: converting a pose to its ROS form and back gives the pose again, given
    that the point and quaternion conversions do; the stamped conversion
    sets stamp and frame id, keeps the sequence number, and converts back
    to the same pose whatever the header. *)
Theorem pose_conversion_round_trip
    (from back : RosConversion.Pose (Point := Point) (Quaternion := Quaternion))
    (scratch : RosConversion.ros_Pose (ros_Point := ros_Point)
                 (ros_Quaternion := ros_Quaternion))
    (to : RosConversion.PoseStamped (ros_Point := ros_Point)
            (ros_Quaternion := ros_Quaternion) (Time := Time))
    (stamp : Time) (frame_id : string) :
  (forall p q p0, convert_ros_Point (convert_Point p q) p0 = p) ->
  (forall o q o0, convert_ros_Quaternion (convert_Quaternion o q) o0 = o) ->
  let stamped :=
    RosConversion.convert_stamped convert_Point convert_Quaternion
      from to stamp frame_id in
  RosConversion.convert_from_ros convert_ros_Point convert_ros_Quaternion
    (RosConversion.convert convert_Point convert_Quaternion from scratch) back
  = from /\
  RosConversion.convert_from_ros_stamped convert_ros_Point convert_ros_Quaternion
    stamped back = from /\
  RosConversion.header stamped
  = RosConversion.mkHeader (RosConversion.seq (RosConversion.header to))
      stamp frame_id.
Proof.
  intros Hp Hq stamped.
  unfold RosConversion.convert_from_ros_stamped, RosConversion.convert_from_ros,
    RosConversion.convert.
  simpl. rewrite !Hp, !Hq. by destruct from.
Qed.
End Ros_poses.

Section Constructor_keys.
Context `{Schema} `{MessageTypes}.

Lemma constructor_permission_key (ct : Transport) (tt : option Transport) (k : Z) :
  commandbuffers (ControlledRobot_new ct tt) !! k = Some (Some p_permissionCommand) ->
  k = PERMISSION.
Proof.
  unfold ControlledRobot_new. cbn [commandbuffers]. unfold registerCommandType.
  intros Hk.
  repeat match type of Hk with
  | context [<[?a := _]> _ !! _] =>
      destruct (decide (a = k)) as [<- | ?];
      [ rewrite lookup_insert_eq in Hk; (done || congruence)
      | rewrite lookup_insert_ne in Hk by done ]
  end.
  by rewrite lookup_empty in Hk.
Qed.
End Constructor_keys.

(** ** Heartbeat supervision over repeated calls of [update] *)

Section Supervision.
Context `{Schema} `{MessageTypes}.











End Supervision.

(** ** Command getters *)

Section Getters.
Context `{Schema} `{MessageTypes}.

Lemma CommandBufferBase_write_same_buffer q payload r ok r1 :
  CommandBufferBase_write q payload r = (ok, r1) ->
  forall p, p <> q -> same_buffer p r r1.
Proof.
  unfold CommandBufferBase_write, CommandBuffer.write.
  intros Hw p Hne.
  destruct q; simpl in Hw;
    match type of Hw with context [ParseFromString ?b] =>
      destruct (ParseFromString b) as [[] parsed] end;
    simpl in Hw; injection Hw as <- <-; by destruct p.
Qed.

(** A request whose type is not registered for a buffer leaves the buffer
    as it is. *)
Lemma evaluateRequest_same_buffer request r t r1 p :
  evaluateRequest request r = Done t r1 ->
  (forall k, load_u16 request = Some k -> commandbuffers r !! k <> Some (Some p)) ->
  same_buffer p r r1.
Proof.
  unfold evaluateRequest, evaluate_TELEMETRY_REQUEST, evaluate_MAP_REQUEST,
    evaluate_LOG_LEVEL_SELECT, evaluate_PERMISSION, evaluate_FILE_REQUEST,
    evaluate_default.
  intros Hev Hno.
  repeat (case_match; try discriminate); simplify_eq; simpl;
    try (by destruct p).
  all: match goal with
       | Hw : CommandBufferBase_write ?q _ _ = _,
         Hd : default None (commandbuffers ?r0 !! ?z) = Some ?q |- _ =>
           assert (p <> q) as Hne
             by (intros ->; apply (Hno z eq_refl);
                 by destruct (commandbuffers r0 !! z) as [[?|]|]; simplify_eq/=);
           apply CommandBufferBase_write_same_buffer with (p := p) in Hw; [|done];
           by destruct p
       end.
Qed.

(** The exception of the evaluator is thrown before anything is changed. *)
Lemma evaluateRequest_Threw request r e r1 :
  evaluateRequest request r = Threw e r1 -> r1 = r.
Proof.
  unfold evaluateRequest, evaluate_TELEMETRY_REQUEST, evaluate_MAP_REQUEST,
    evaluate_LOG_LEVEL_SELECT, evaluate_PERMISSION, evaluate_FILE_REQUEST,
    evaluate_default.
  intros Hev. repeat (case_match; try discriminate); by simplify_eq.
Qed.

(** A property of the engine that depends on one buffer only, and that the
    getters keep, holds after any calls that attempt no write to that
    buffer. *)
Lemma run_calls_invariant p (I : ControlledRobot -> Prop) :
  (forall r r1, same_buffer p r r1 -> I r -> I r1) ->
  (forall c r r1,
     (forall request, c <> call_evaluateRequest request) ->
     run_call r c = Some r1 ->
     I r -> I r1 /\ commandbuffers r1 = commandbuffers r) ->
  forall calls r0 r,
    run_calls calls r0 = Some r ->
    Forall (attempts_no_write p r0) calls ->
    I r0 -> I r.
Proof.
  intros Hsame Hget calls r0.
  assert (forall r', (forall k, commandbuffers r' !! k = Some (Some p)
                                <-> commandbuffers r0 !! k = Some (Some p)) ->
          forall r, run_calls calls r' = Some r ->
                    Forall (attempts_no_write p r0) calls -> I r' -> I r)
    as Hgen.
  2: { intros r. by apply Hgen. }
  induction calls as [|c calls IH]; intros r' Hreg r; simpl.
  - by intros [= <-].
  - destruct (run_call r' c) as [r1|] eqn:Hc; [|done].
    intros Hrun Hall HI. apply Forall_cons in Hall as [Hno Hall].
    destruct c as [request| | | | |].
    1: { simpl in Hc, Hno.
         destruct (evaluateRequest request r') as [t r2|e r2|] eqn:Hev;
           simplify_eq.
         - apply (IH r1); try done.
           + intros k. rewrite (commandbuffers_persist _ _ _ _ Hev). apply Hreg.
           + apply (Hsame r'); [|done].
             eapply evaluateRequest_same_buffer; [done|].
             intros k Hk. rewrite Hreg. by apply Hno.
         - apply evaluateRequest_Threw in Hev as ->. by apply (IH r'). }
    all: match type of Hc with run_call _ ?c = _ =>
           destruct (Hget c r' r1 ltac:(done) Hc HI) as [HI1 Hcb]
         end;
      apply (IH r1); try done; intros k; rewrite Hcb; apply Hreg.
Qed.

End Getters.

(** The getters keep a buffer that is as the constructor left it. *)
Ltac getter_cases :=
  intros c rr rr1 Hc; destruct c; try (exfalso; exact (Hc _ eq_refl)); simpl;
  intros [= <-]; destruct rr; simpl; intros HI; simpl in *;
  by rewrite ?HI.

Ltac getter_hands_out slot p :=
  unfold hands_out_stored_message; split_and!;
  [ intros target r; by destruct r
  | intros ct tt calls r target Hrun Hno;
    assert (slot r = CommandBuffer.new) as Hnew
      by (apply (run_calls_invariant p (fun x => slot x = CommandBuffer.new))
            with calls (ControlledRobot_new ct tt);
          [ simpl; by intros ? ? -> | getter_cases | done | done | done ]);
    transitivity (isnew (slot r), command (slot r));
      [by destruct r | by rewrite Hnew]
  | intros k payload r target Hk Hs Hreg Hparse;
    rewrite default_case by done; unfold evaluate_default;
    rewrite Hreg; simpl; unfold CommandBuffer.write;
    destruct (ParseFromString payload) as [ok parsed]; simpl in Hparse;
    subst ok; simpl; eexists; split; [reflexivity | done] ].

Section Getters_hand_out.
Context `{Schema} `{MessageTypes}.

(** C10 (amended): each of the five getters of a [CommandBuffer<T>] member
    ([getTargetPoseCommand], [getTwistCommand], [getGoToCommand],
    [getJointsCommand], [getRobotTrajectoryCommand]) overwrites [*command]
    with the message stored in its buffer, whatever it was handed and
    whether it returns true or false, and leaves the stored message in
    place with the fresh flag cleared.  As long as no write to the buffer
    has been attempted since construction, whatever other requests and
    getter calls the engine has gone through, the getter returns false and
    the default-constructed message.  After a request for the buffer whose
    payload failed to parse, the getter returns false and hands out what
    the parser left in the message. *)
Theorem command_getters_overwrite_target :
  hands_out_stored_message getTargetPoseCommand poseCommand p_poseCommand /\
  hands_out_stored_message getTwistCommand twistCommand p_twistCommand /\
  hands_out_stored_message getGoToCommand goToCommand p_goToCommand /\
  hands_out_stored_message getJointsCommand jointsCommand p_jointsCommand /\
  hands_out_stored_message getRobotTrajectoryCommand robotTrajectoryCommand
    p_robotTrajectoryCommand.
Proof.
  split_and!.
  - getter_hands_out poseCommand p_poseCommand.
  - getter_hands_out twistCommand p_twistCommand.
  - getter_hands_out goToCommand p_goToCommand.
  - getter_hands_out jointsCommand p_jointsCommand.
  - getter_hands_out robotTrajectoryCommand p_robotTrajectoryCommand.
Qed.

End Getters_hand_out.

(** ** The engine on the concrete host and schema *)

Import Sample.

(** Evaluate the left-hand side of an equation in the virtual machine. *)
Ltac compute_lhs :=
  match goal with
  | |- ?l = _ =>
      let v := eval vm_compute in l in
      apply (eq_trans (y := v)); [vm_cast_no_check (eq_refl v) | ]
  end.

Lemma write_then_read_fresh_once_witness :
  CommandBuffer.write [x08; x05] (CommandBuffer.new (COMMAND := Vec))
    = (true, mkCommandBuffer (mkVec 5 0) true [], []) /\
  exists s2 s3,
    CommandBuffer.read (mkVec 0 0) (mkCommandBuffer (mkVec 5 0) true [])
      = (true, snd (ParseFromString [x08; x05]), s2) /\
    CommandBuffer.read (mkVec 0 0) s2
      = (false, snd (ParseFromString [x08; x05]), s3).
Proof.
  split; [reflexivity|].
  apply (write_then_read_fresh_once [x08; x05] CommandBuffer.new _ []).
  reflexivity.
Defined.

(** C3, counterexample: a twist buffer holds an unread message; a payload
    cut inside a varint fails to decode; the next read returns false. *)
Lemma failed_decode_clears_fresh_flag :
  let fresh : CommandBuffer Vec := mkCommandBuffer (mkVec 5 0) true [] in
  CommandBuffer.write [x08; x05] CommandBuffer.new = (true, fresh, []) /\
  fst (fst (CommandBuffer.write [x08] fresh)) = false /\
  fst (fst (CommandBuffer.read (mkVec 0 0)
              (snd (fst (CommandBuffer.write [x08] fresh))))) <> true.
Proof. repeat split. intros [=]. Qed.

Lemma failed_write_clears_isnew_witness :
  let fresh : CommandBuffer Vec := mkCommandBuffer (mkVec 5 0) true [] in
  let after : CommandBuffer Vec := mkCommandBuffer (mkVec 0 0) false [] in
  CommandBuffer.write [x08] fresh = (false, after, []) /\
  (isnew after = false /\ @nil Callback = [] /\
   fst (fst (CommandBuffer.read (mkVec 0 0) after)) = false).
Proof.
  split; [reflexivity|].
  apply (failed_write_clears_isnew [x08] (mkCommandBuffer (mkVec 5 0) true [])).
  reflexivity.
Defined.

Lemma short_request_gets_no_reply_witness :
  (length [x02] < 2)%nat /\
  match evaluateRequest [x02] (robot []) with
  | Done _ _ => False
  | Threw e r1 => e = length_error /\ r1 = robot []
  | Undefined => [x02] = []
  end /\
  match Legacy.evaluateRequest [x02] Legacy.sample_robot with
  | Done _ _ => False
  | Threw e r1 => e = length_error /\ r1 = Legacy.sample_robot
  | Undefined => [x02] = []
  end.
Proof.
  split; [simpl; lia|].
  apply (short_request_gets_no_reply [x02] (robot []) Legacy.sample_robot).
  simpl. lia.
Defined.

(** C10, counterexample: the only message the engine ever received fails
    to decode after its first field, so no successful write has occurred;
    [getTwistCommand] returns false and hands out the half-parsed message,
    not the default one. *)
Lemma failed_decode_leaves_partial_message :
  match evaluateRequest twist_5_then_truncated (robot []) with
  | Done type r1 =>
      type = NO_CONTROL_DATA /\
      fst (getTwistCommand (mkVec 0 0) r1) = (false, mkVec 5 0) /\
      mkVec 5 0 <> proto_new
  | _ => False
  end.
Proof. vm_compute. repeat split. intros [=]. Qed.

(** C10 (amended) on the concrete engine: after a heartbeat and a call of
    [getTwistCommand], no write to the twist buffer has been attempted and
    the getter hands out the default message; after the request that fails
    to decode behind its first field it hands out the half-parsed one. *)
Lemma command_getters_overwrite_target_witness :
  (exists r,
     Forall (attempts_no_write p_twistCommand (robot []))
       [call_evaluateRequest heartbeat_200; call_getTwistCommand (mkVec 1 1)] /\
     run_calls [call_evaluateRequest heartbeat_200; call_getTwistCommand (mkVec 1 1)]
       (robot []) = Some r /\
     fst (getTwistCommand (mkVec 9 9) r) = (false, proto_new)) /\
  is_command_type TWIST_COMMAND /\
  is_std_string (store_u16 TWIST_COMMAND ++ [x08; x05; x10]) /\
  commandbuffers (robot []) !! TWIST_COMMAND = Some (Some p_twistCommand) /\
  fst (ParseFromString (M := Vec) [x08; x05; x10]) = false /\
  exists r1,
    evaluateRequest (store_u16 TWIST_COMMAND ++ [x08; x05; x10]) (robot [])
      = Done NO_CONTROL_DATA r1 /\
    fst (getTwistCommand (mkVec 9 9) r1)
    = (false, snd (ParseFromString (M := Vec) [x08; x05; x10])).
Proof.
  destruct command_getters_overwrite_target
    as (_ & (_ & Hdefault & Hfailed) & _).
  assert (H0 : Forall (attempts_no_write p_twistCommand (robot []))
                 [call_evaluateRequest heartbeat_200;
                  call_getTwistCommand (mkVec 1 1)]).
  { repeat constructor. intros k [= <-]. vm_compute. discriminate. }
  assert (H1 : is_command_type TWIST_COMMAND)
    by (vm_compute; repeat split; discriminate).
  assert (H2 : is_std_string (store_u16 TWIST_COMMAND ++ [x08; x05; x10]))
    by (vm_compute; discriminate).
  assert (H3 : commandbuffers (robot []) !! TWIST_COMMAND
               = Some (Some p_twistCommand)) by (vm_compute; reflexivity).
  assert (H4 : fst (ParseFromString (M := Vec) [x08; x05; x10]) = false)
    by reflexivity.
  split.
  { eexists. split; [exact H0|].
    refine ((fun Hrun => conj Hrun
               (Hdefault (transport []) (Some (transport [])) _ _ (mkVec 9 9)
                  Hrun H0)) _).
    compute_lhs. reflexivity. }
  repeat (split; [assumption|]).
  exact (Hfailed TWIST_COMMAND [x08; x05; x10] (robot []) (mkVec 9 9) H1 H2 H3 H4).
Defined.

(** C4, counterexample: without a telemetry transport [sendTelemetry]
    returns 0 and stores nothing; the TELEMETRY_REQUEST that follows is
    answered with an empty buffer, whose payload does not decode to the
    value sent. *)
Lemma telemetry_without_transport_is_not_stored :
  match sendTelemetry (mkVec 3 4) CURRENT_POSE false (robot_without_telemetry []) with
  | Done n r1 =>
      n = 0 /\
      match evaluateRequest (store_u16 TELEMETRY_REQUEST ++ store_u16 CURRENT_POSE) r1 with
      | Done _ r2 =>
          replies r2 = [[]] /\
          ParseFromString (drop 2 []) <> (true, mkVec 3 4)
      | _ => False
      end
  | _ => False
  end.
Proof. vm_compute. repeat split. intros [=]. Qed.

Lemma telemetry_request_returns_sent_witness :
  telemetryTransport (robot []) = Some (transport []) /\
  is_Some (buffers (robot []) !! CURRENT_POSE) /\
  0 <= CURRENT_POSE < 65536 /\
  ParseFromString (SerializeToString (mkVec 3 4)) = (true, mkVec 3 4) /\
  exists n r1 r2 reply,
    sendTelemetry (mkVec 3 4) CURRENT_POSE false (robot []) = Done n r1 /\
    evaluateRequest (store_u16 TELEMETRY_REQUEST ++ store_u16 CURRENT_POSE) r1
      = Done TELEMETRY_REQUEST r2 /\
    replies r2 = replies r1 ++ [reply] /\
    reply = store_u16 CURRENT_POSE ++ SerializeToString (mkVec 3 4) /\
    ParseFromString (drop 2 reply) = (true, mkVec 3 4).
Proof.
  assert (H1 : telemetryTransport (robot []) = Some (transport [])) by reflexivity.
  assert (H2 : is_Some (buffers (robot []) !! CURRENT_POSE))
    by (vm_compute; eexists; reflexivity).
  assert (H3 : 0 <= CURRENT_POSE < 65536) by (change (0 <= 1 < 65536); lia).
  assert (H4 : ParseFromString (SerializeToString (mkVec 3 4)) = (true, mkVec 3 4))
    by reflexivity.
  repeat (split; [assumption|]).
  exact (telemetry_request_returns_sent (mkVec 3 4) CURRENT_POSE false (robot [])
           (transport []) H1 H2 H3 H4).
Defined.


(** C5 on the spec's scenario: allowed latency 100 ms, callback 7.  The
    heartbeat of 200 ms starts the timer for 300 ms; the call of [update]
    310 ms later finds it expired, calls the callback with 310 and leaves
    the engine disconnected; the call after that calls nothing. *)
Lemma heartbeat_expiry_scenario :
  match updates Sample_states.silence_after_heartbeat
          (setupHeartbeatCallback 100 (Some 7%nat) (robot [])) with
  | Some [(_, after1); (before2, after2); (before3, after3)] =>
      isConnected after1 = true /\ events after1 = [] /\
      heartbeatTimer after1 = mkClockwork true 0 300 0 /\
      expiry_event 100 before2 = Some 310 /\
      isConnected after2 = false /\
      events after2 = [heartbeat_expired_callback 7%nat 310] /\
      expiry_event 100 before3 = None /\
      isConnected after3 = false /\
      events after3 = [heartbeat_expired_callback 7%nat 310]
  | _ => False
  end.
Proof. vm_compute. repeat split. Qed.


(** C6, counterexample: two messages are waiting, the first one fails to
    decode; [update] returns with the second message still on the transport
    and with [connected] false. *)
Lemma failed_decode_stops_the_loop :
  match update (robot [twist_truncated; twist_5]) with
  | Some (Done _ r1) =>
      inbox (commandTransport r1) = [twist_5] /\ isConnected r1 = false
  | _ => False
  end.
Proof. vm_compute. split; reflexivity. Qed.

Lemma update_loop_stops_at_NO_CONTROL_DATA_witness :
  exists r1,
    update_loop 3 (robot [twist_truncated; twist_5]) = Some (Done tt r1) /\
    inbox (commandTransport r1) = [twist_5] /\
    connected r1 = false /\
    replies r1 = [store_u16 NO_CONTROL_DATA].
Proof.
  destruct (update_loop_stops_at_NO_CONTROL_DATA (robot [twist_truncated; twist_5]))
    as (_ & _ & _ & Hfail).
  apply (Hfail TWIST_COMMAND p_twistCommand [x08] [twist_5]).
  - reflexivity.
  - vm_compute. repeat split; discriminate.
  - vm_compute. discriminate.
  - vm_compute. reflexivity.
  - reflexivity.
Defined.

Lemma second_request_has_no_return_value_witness :
  exists f r1,
    requestPermission door_request (robot []) = Done f r1 /\
    requestPermission door_request r1 = Undefined.
Proof.
  eexists _, _.
  refine ((fun Hfirst =>
             conj Hfirst (second_request_has_no_return_value _ _ _ _ Hfirst)) _).
  compute_lhs. reflexivity.
Defined.

(** C8, counterexample: the reply to a FILE_REQUEST for an undefined
    identifier is not a 2-byte type followed by a serialized Folder with
    that diagnostic identifier and no files: it is the serialized Folder
    alone. *)
Lemma file_request_miss_reply_has_no_type :
  exists r1 reply,
    evaluateRequest nope_request (robot []) = Done FILE_REQUEST r1 /\
    replies r1 = [reply] /\
    ~ exists (kind : Z) (folder : Folder.t),
        reply = store_u16 kind ++ SerializeToString folder /\
        Folder.file folder = [] /\
        Folder.identifier folder = "file/folder :nope undefined"%string.
Proof.
  eexists _, _. split; [compute_lhs; reflexivity|].
  split; [reflexivity|].
  intros (kind & [identifier compressed file] & Hreply & Hfile & Hid).
  simpl in Hfile, Hid. subst file identifier.
  apply (f_equal length) in Hreply.
  destruct compressed; vm_compute in Hreply; discriminate.
Qed.

Lemma file_request_miss_witness :
  is_std_string nope_request /\
  Forall (fun f => File.identifier f <> "nope"%string)
         (FileDefinition.file (files (robot []))) /\
  exists r1,
    evaluateRequest nope_request (robot []) = Done FILE_REQUEST r1 /\
    replies r1 = replies (robot []) ++
      [SerializeToString
         (Folder.mk "file/folder :nope undefined" false [])].
Proof.
  assert (H1 : is_std_string nope_request) by (vm_compute; discriminate).
  assert (H2 : Forall (fun f => File.identifier f <> "nope"%string)
                 (FileDefinition.file (files (robot [])))) by constructor.
  repeat (split; [assumption|]).
  exact (file_request_miss (SerializeToString (FileRequest.mk "nope" true))
           (robot []) H1 H2).
Defined.

(** C9, counterexample: without a telemetry transport a FATAL message at
    log level 19 is not sent; the call returns 0. *)
Lemma log_message_without_transport_is_not_sent :
  let r := robot_without_telemetry [] in
  FATAL <= logLevel r /\
  match setLogMessage FATAL "x" r with
  | Done n r1 => n = 0 /\ telemetry_sent r1 = telemetry_sent r
  | _ => False
  end.
Proof. vm_compute. repeat split. discriminate. Qed.

Lemma log_message_gate_witness :
  telemetryTransport (robot []) = Some (transport []) /\
  is_Some (buffers (robot []) !! LOG_MESSAGE) /\
  (exists n r1,
     setLogMessage FATAL "x" (robot []) = Done n r1 /\
     telemetry_sent r1 = telemetry_sent (robot []) ++
       [store_u16 LOG_MESSAGE ++ SerializeToString (LogMessage.mk FATAL "x")]) /\
  setLogMessage DEBUG "x" (set_logLevel WARN (robot []))
    = Done (-1) (set_logLevel WARN (robot [])).
Proof.
  assert (H1 : telemetryTransport (robot []) = Some (transport [])) by reflexivity.
  assert (H2 : is_Some (buffers (robot []) !! LOG_MESSAGE))
    by (vm_compute; eexists; reflexivity).
  repeat (split; [assumption|]).
  split.
  - apply (log_message_gate FATAL "x" (robot []) (transport []) H1 H2).
    left. vm_compute. discriminate.
  - apply (log_message_gate DEBUG "x" (set_logLevel WARN (robot [])) (transport [])
             H1 H2).
    vm_compute. intros [Hle | Hle]; apply Hle; reflexivity.
Defined.

(** ** The further properties on the concrete engine *)

Import Sample_states.

Lemma evaluator_sends_one_reply_and_keeps_the_rest_witness :
  exists r1,
    evaluateRequest twist_5 (robot [heartbeat_200]) = Done TWIST_COMMAND r1 /\
    ((exists reply, replies r1 = replies (robot [heartbeat_200]) ++ [reply]) /\
     connected r1 = connected (robot [heartbeat_200]) /\
     inbox (commandTransport r1) = inbox (commandTransport (robot [heartbeat_200])) /\
     telemetryTransport r1 = telemetryTransport (robot [heartbeat_200]) /\
     buffers r1 = buffers (robot [heartbeat_200]) /\
     mapBuffer r1 = mapBuffer (robot [heartbeat_200]) /\
     files r1 = files (robot [heartbeat_200]) /\
     heartbeatTimer r1 = heartbeatTimer (robot [heartbeat_200]) /\
     heartbeatAllowedLatency r1 = heartbeatAllowedLatency (robot [heartbeat_200]) /\
     heartbeatExpiredCallback r1 = heartbeatExpiredCallback (robot [heartbeat_200]) /\
     commandCallbacks r1 = commandCallbacks (robot [heartbeat_200])).
Proof.
  eexists.
  refine ((fun Hev => conj Hev
             (evaluator_sends_one_reply_and_keeps_the_rest _ _ _ _ Hev)) _).
  compute_lhs. reflexivity.
Defined.

Lemma accepted_command_witness :
  is_command_type TWIST_COMMAND /\
  is_std_string (store_u16 TWIST_COMMAND ++ [x08; x05]) /\
  commandbuffers (robot []) !! TWIST_COMMAND = Some (Some p_twistCommand) /\
  parses p_twistCommand [x08; x05] = true /\
  exists r1,
    evaluateRequest (store_u16 TWIST_COMMAND ++ [x08; x05]) (robot [])
      = Done TWIST_COMMAND r1 /\
    replies r1 = replies (robot []) ++ [store_u16 TWIST_COMMAND] /\
    events r1 = events (robot [])
                ++ map buffer_callback (callbacks_of p_twistCommand (robot []))
                ++ map (fun cb => command_callback cb TWIST_COMMAND)
                       (commandCallbacks (robot [])) /\
    isnew_of p_twistCommand r1 = true /\
    fst (CommandBufferBase_read p_twistCommand [] r1)
      = (true, reserialized p_twistCommand [x08; x05]) /\
    forall q, q <> p_twistCommand -> isnew_of q r1 = isnew_of q (robot []).
Proof.
  assert (H1 : is_command_type TWIST_COMMAND)
    by (vm_compute; repeat split; discriminate).
  assert (H2 : is_std_string (store_u16 TWIST_COMMAND ++ [x08; x05]))
    by (vm_compute; discriminate).
  assert (H3 : commandbuffers (robot []) !! TWIST_COMMAND
               = Some (Some p_twistCommand)) by (vm_compute; reflexivity).
  assert (H4 : parses p_twistCommand [x08; x05] = true) by reflexivity.
  repeat (split; [assumption|]).
  exact (accepted_command TWIST_COMMAND p_twistCommand [x08; x05] (robot [])
           H1 H2 H3 H4).
Defined.

Lemma unknown_type_witness :
  is_command_type 65535 /\
  is_std_string (store_u16 65535 ++ [x01]) /\
  (commandbuffers (robot []) !! 65535 = None \/
   commandbuffers (robot []) !! 65535 = Some None) /\
  exists r1,
    evaluateRequest (store_u16 65535 ++ [x01]) (robot []) = Done 65535 r1 /\
    replies r1 = replies (robot []) ++ [store_u16 NO_CONTROL_DATA] /\
    events r1 = events (robot []) /\
    commandbuffers r1 = <[65535 := None]> (commandbuffers (robot [])) /\
    forall q, isnew_of q r1 = isnew_of q (robot []) /\
              serialized_of q r1 = serialized_of q (robot []).
Proof.
  assert (H1 : is_command_type 65535) by (vm_compute; repeat split; discriminate).
  assert (H2 : is_std_string (store_u16 65535 ++ [x01])) by (vm_compute; discriminate).
  assert (H3 : commandbuffers (robot []) !! 65535 = None \/
               commandbuffers (robot []) !! 65535 = Some None)
    by (left; vm_compute; reflexivity).
  repeat (split; [assumption|]).
  exact (unknown_type 65535 [x01] (robot []) H1 H2 H3).
Defined.

Lemma undecodable_command_witness :
  is_command_type TWIST_COMMAND /\
  is_std_string (store_u16 TWIST_COMMAND ++ [x08]) /\
  commandbuffers (robot []) !! TWIST_COMMAND = Some (Some p_twistCommand) /\
  parses p_twistCommand [x08] = false /\
  exists r1,
    evaluateRequest (store_u16 TWIST_COMMAND ++ [x08]) (robot [])
      = Done NO_CONTROL_DATA r1 /\
    replies r1 = replies (robot []) ++ [store_u16 NO_CONTROL_DATA] /\
    events r1 = events (robot []) ++ [printf (unable_to_parse TWIST_COMMAND)] /\
    isnew_of p_twistCommand r1 = false /\
    serialized_of p_twistCommand r1 = reserialized p_twistCommand [x08] /\
    forall q, q <> p_twistCommand ->
      isnew_of q r1 = isnew_of q (robot []) /\
      serialized_of q r1 = serialized_of q (robot []).
Proof.
  assert (H1 : is_command_type TWIST_COMMAND)
    by (vm_compute; repeat split; discriminate).
  assert (H2 : is_std_string (store_u16 TWIST_COMMAND ++ [x08]))
    by (vm_compute; discriminate).
  assert (H3 : commandbuffers (robot []) !! TWIST_COMMAND
               = Some (Some p_twistCommand)) by (vm_compute; reflexivity).
  assert (H4 : parses p_twistCommand [x08] = false) by reflexivity.
  repeat (split; [assumption|]).
  exact (undecodable_command TWIST_COMMAND p_twistCommand [x08] (robot [])
           H1 H2 H3 H4).
Defined.

Lemma registrations_persist_witness :
  exists r1,
    evaluateRequest unknown_message (robot []) = Done 65535 r1 /\
    forall k p,
      commandbuffers r1 !! k = Some (Some p)
      <-> commandbuffers (robot []) !! k = Some (Some p).
Proof.
  eexists.
  refine ((fun Hev => conj Hev (registrations_persist _ _ _ _ Hev)) _).
  compute_lhs. reflexivity.
Defined.

Lemma log_level_select_sets_the_gate_witness :
  0 <= WARN < 65536 /\
  exists r1,
    evaluateRequest (store_u16 LOG_LEVEL_SELECT ++ store_u16 WARN) (robot [])
      = Done LOG_LEVEL_SELECT r1 /\
    replies r1 = replies (robot []) ++ [store_u16 LOG_LEVEL_SELECT] /\
    logLevel r1 = WARN /\
    (forall lvl message, WARN < lvl < CUSTOM ->
       setLogMessage lvl message r1 = Done (-1) r1) /\
    (forall lvl message, lvl <= WARN \/ CUSTOM <= lvl ->
       setLogMessage lvl message r1
       = sendTelemetry (LogMessage.mk lvl message) LOG_MESSAGE false r1).
Proof.
  assert (H1 : 0 <= WARN < 65536) by (unfold WARN; lia).
  split; [assumption|].
  exact (log_level_select_sets_the_gate WARN (robot []) H1).
Defined.

Lemma map_request_beyond_the_buffers_witness :
  0 <= 7 < 65536 /\
  Z.of_nat (length (mapBuffer (robot []))) <= 7 /\
  exists r1,
    evaluateRequest (store_u16 MAP_REQUEST ++ store_u16 7) (robot [])
      = Done MAP_REQUEST r1 /\
    replies r1 = replies (robot []) ++ [[]].
Proof.
  assert (H1 : 0 <= 7 < 65536) by lia.
  assert (H2 : Z.of_nat (length (mapBuffer (robot []))) <= 7) by (simpl; lia).
  repeat (split; [assumption|]).
  exact (map_request_beyond_the_buffers 7 (robot []) H1 H2).
Defined.

Lemma map_round_trip_witness :
  0 <= 2 < 65536 /\
  exists r1 r2,
    setMap [x0a; x0b] 2 (robot []) = (1, r1) /\
    evaluateRequest (store_u16 MAP_REQUEST ++ store_u16 2) r1 = Done MAP_REQUEST r2 /\
    replies r2 = replies (robot []) ++ [[x0a; x0b]] /\
    (forall other, other <> Z.to_nat 2 ->
       (other < length (mapBuffer (robot [])))%nat ->
       mapBuffer r2 !! other = mapBuffer (robot []) !! other).
Proof.
  assert (H1 : 0 <= 2 < 65536) by lia.
  split; [assumption|].
  exact (map_round_trip [x0a; x0b] 2 (robot []) H1).
Defined.

Lemma permission_before_request_witness :
  PermissionRequest.requestuid door_request
    = Permission.requestuid (snd (ParseFromString permission_u1)) /\
  is_std_string (store_u16 PERMISSION ++ permission_u1) /\
  pendingPermissionRequests (robot [])
    !! Permission.requestuid (snd (ParseFromString permission_u1)) = None /\
  telemetryTransport (robot []) = Some (transport []) /\
  is_Some (buffers (robot []) !! PERMISSION_REQUEST) /\
  exists r1 r2 f,
    evaluateRequest (store_u16 PERMISSION ++ permission_u1) (robot [])
      = Done PERMISSION r1 /\
    requestPermission door_request r1 = Done f r2 /\
    future_value f r2
      = Some (Permission.granted (snd (ParseFromString permission_u1))).
Proof.
  assert (H1 : PermissionRequest.requestuid door_request
               = Permission.requestuid (snd (ParseFromString permission_u1)))
    by (vm_compute; reflexivity).
  assert (H2 : is_std_string (store_u16 PERMISSION ++ permission_u1))
    by (vm_compute; discriminate).
  assert (H3 : pendingPermissionRequests (robot [])
                 !! Permission.requestuid (snd (ParseFromString permission_u1))
               = None) by (vm_compute; reflexivity).
  assert (H4 : telemetryTransport (robot []) = Some (transport [])) by reflexivity.
  assert (H5 : is_Some (buffers (robot []) !! PERMISSION_REQUEST))
    by (vm_compute; eexists; reflexivity).
  repeat (split; [assumption|]).
  exact (permission_before_request permission_u1 door_request (robot [])
           (transport []) H1 H2 H3 H4 H5).
Defined.

Lemma resolved_future_is_final_witness :
  future_value (mkFuture "u1") robot_with_granted_permission = Some true /\
  (forall request t r1,
     evaluateRequest request robot_with_granted_permission = Done t r1 ->
     future_value (mkFuture "u1") r1 = Some true) /\
  (forall req f' r1,
     requestPermission req robot_with_granted_permission = Done f' r1 ->
     future_value (mkFuture "u1") r1 = Some true).
Proof.
  assert (H1 : future_value (mkFuture "u1") robot_with_granted_permission
               = Some true) by (vm_compute; reflexivity).
  split; [assumption|].
  exact (resolved_future_is_final (mkFuture "u1") true
           robot_with_granted_permission H1).
Defined.

Lemma sendTelemetry_result_witness :
  telemetryTransport (robot []) = Some (transport []) /\
  is_Some (buffers (robot []) !! CURRENT_POSE) /\
  0 <= send_result (transport [])
         (store_u16 CURRENT_POSE ++ SerializeToString (mkVec 3 4)) < 2147483650 /\
  exists r1,
    sendTelemetry (mkVec 3 4) CURRENT_POSE false (robot [])
      = Done (send_result (transport [])
                (store_u16 CURRENT_POSE ++ SerializeToString (mkVec 3 4)) - 2) r1 /\
    telemetry_sent r1 = telemetry_sent (robot [])
                        ++ [store_u16 CURRENT_POSE ++ SerializeToString (mkVec 3 4)] /\
    buffers r1 = <[CURRENT_POSE := Some (SerializeToString (mkVec 3 4))]>
                   (buffers (robot [])) /\
    replies r1 = replies (robot []).
Proof.
  assert (H1 : telemetryTransport (robot []) = Some (transport [])) by reflexivity.
  assert (H2 : is_Some (buffers (robot []) !! CURRENT_POSE))
    by (vm_compute; eexists; reflexivity).
  assert (H3 : 0 <= send_result (transport [])
                      (store_u16 CURRENT_POSE ++ SerializeToString (mkVec 3 4))
               < 2147483650) by (vm_compute; split; [discriminate | reflexivity]).
  repeat (split; [assumption|]).
  exact (sendTelemetry_result (mkVec 3 4) CURRENT_POSE (robot []) (transport [])
           H1 H2 H3).
Defined.

Lemma request_only_stores_without_sending_witness :
  telemetryTransport (robot []) = Some (transport []) /\
  is_Some (buffers (robot []) !! MAPS_DEFINITION) /\
  2 + Z.of_nat (length (SerializeToString (mkVec 3 4))) < 2147483648 /\
  sendTelemetry (mkVec 3 4) MAPS_DEFINITION true (robot [])
  = Done (2 + Z.of_nat (length (SerializeToString (mkVec 3 4))))
         (set_buffers (<[MAPS_DEFINITION := Some (SerializeToString (mkVec 3 4))]>
                         (buffers (robot []))) (robot [])).
Proof.
  assert (H1 : telemetryTransport (robot []) = Some (transport [])) by reflexivity.
  assert (H2 : is_Some (buffers (robot []) !! MAPS_DEFINITION))
    by (vm_compute; eexists; reflexivity).
  assert (H3 : 2 + Z.of_nat (length (SerializeToString (mkVec 3 4))) < 2147483648)
    by (vm_compute; reflexivity).
  repeat (split; [assumption|]).
  exact (request_only_stores_without_sending (mkVec 3 4) MAPS_DEFINITION (robot [])
           (transport []) H1 H2 H3).
Defined.

Lemma sendTelemetry_without_transport_witness :
  telemetryTransport (robot_without_telemetry []) = None /\
  exists r1,
    sendTelemetry (mkVec 3 4) CURRENT_POSE false (robot_without_telemetry [])
      = Done 0 r1 /\
    buffers r1 = buffers (robot_without_telemetry []) /\
    telemetry_sent r1 = [] /\
    replies r1 = replies (robot_without_telemetry []) /\
    events r1 = events (robot_without_telemetry [])
                ++ [printf ERROR_Transport_invalid].
Proof.
  assert (H1 : telemetryTransport (robot_without_telemetry []) = None)
    by reflexivity.
  split; [assumption|].
  exact (sendTelemetry_without_transport (mkVec 3 4) CURRENT_POSE false
           (robot_without_telemetry []) H1).
Defined.

Lemma idle_update_witness :
  inbox (commandTransport (robot [])) = [] /\
  isnew (heartbeatCommand (robot [])) = false /\
  Timer_isExpired (heartbeatTimer (robot [])) = (false, mkClockwork false 0 0 0) /\
  exists r1,
    update (robot []) = Some (Done tt r1) /\
    replies r1 = replies (robot []) /\
    telemetry_sent r1 = telemetry_sent (robot []) /\
    events r1 = events (robot []) /\
    isConnected r1 = isConnected (robot []) /\
    heartbeatTimer r1 = mkClockwork false 0 0 0 /\
    heartbeatValues r1 = command (heartbeatCommand (robot [])).
Proof.
  assert (H1 : inbox (commandTransport (robot [])) = []) by reflexivity.
  assert (H2 : isnew (heartbeatCommand (robot [])) = false) by reflexivity.
  assert (H3 : Timer_isExpired (heartbeatTimer (robot []))
               = (false, mkClockwork false 0 0 0)) by reflexivity.
  repeat (split; [assumption|]).
  exact (idle_update (robot []) (mkClockwork false 0 0 0) H1 H2 H3).
Defined.

Lemma file_request_for_a_file_witness :
  is_std_string (store_u16 FILE_REQUEST ++ config_request) /\
  find_file (FileRequest.identifier (snd (ParseFromString config_request)))
    (FileDefinition.file (files robot_with_files)) 0 = Some 0%nat /\
  FileDefinition.file (files robot_with_files) !! 0%nat
    = Some (File.mk "config" "/etc/robot.cfg" []) /\
  FileDefinition.isfolder (files robot_with_files) !! 0%nat = Some false /\
  exists r1,
    evaluateRequest (store_u16 FILE_REQUEST ++ config_request) robot_with_files
      = Done FILE_REQUEST r1 /\
    replies r1 = replies robot_with_files ++
      [SerializeToString
         (Folder.mk EmptyString
            (ZLIB_FOUND
             && FileRequest.compressed (snd (ParseFromString config_request)))
            [File.mk EmptyString (File.path (File.mk "config" "/etc/robot.cfg" []))
               match ifstream_read (File.path (File.mk "config" "/etc/robot.cfg" [])) with
               | Some content =>
                   if ZLIB_FOUND
                      && FileRequest.compressed (snd (ParseFromString config_request))
                   then compressString content else content
               | None => []
               end])].
Proof.
  assert (H1 : is_std_string (store_u16 FILE_REQUEST ++ config_request))
    by (vm_compute; discriminate).
  assert (H2 : find_file (FileRequest.identifier (snd (ParseFromString config_request)))
                 (FileDefinition.file (files robot_with_files)) 0 = Some 0%nat)
    by (vm_compute; reflexivity).
  assert (H3 : FileDefinition.file (files robot_with_files) !! 0%nat
               = Some (File.mk "config" "/etc/robot.cfg" [])) by reflexivity.
  assert (H4 : FileDefinition.isfolder (files robot_with_files) !! 0%nat
               = Some false) by reflexivity.
  repeat (split; [assumption|]).
  exact (file_request_for_a_file config_request robot_with_files 0
           (File.mk "config" "/etc/robot.cfg" []) H1 H2 H3 H4).
Defined.

Lemma legacy_evaluator_does_not_check_the_parse_witness :
  is_std_string (store_u16 Legacy.TARGET_POSE ++ [x08]) /\
  is_std_string (store_u16 Legacy.TWIST_COMMAND ++ [x08]) /\
  (exists r1,
     Legacy.evaluateRequest (store_u16 Legacy.TARGET_POSE ++ [x08])
       Legacy.sample_robot = Done Legacy.TARGET_POSE r1 /\
     outbox (Legacy.commandTransport r1)
       = outbox (Legacy.commandTransport Legacy.sample_robot)
         ++ [store_u16 Legacy.TARGET_POSE] /\
     Legacy.targetPose r1 = snd (ParseFromString [x08]) /\
     Legacy.twistCommand r1 = Legacy.twistCommand Legacy.sample_robot) /\
  (exists r1,
     Legacy.evaluateRequest (store_u16 Legacy.TWIST_COMMAND ++ [x08])
       Legacy.sample_robot = Done Legacy.TWIST_COMMAND r1 /\
     outbox (Legacy.commandTransport r1)
       = outbox (Legacy.commandTransport Legacy.sample_robot)
         ++ [store_u16 Legacy.TWIST_COMMAND] /\
     Legacy.twistCommand r1 = snd (ParseFromString [x08]) /\
     Legacy.targetPose r1 = Legacy.targetPose Legacy.sample_robot).
Proof.
  assert (H1 : is_std_string (store_u16 Legacy.TARGET_POSE ++ [x08]))
    by (vm_compute; discriminate).
  assert (H2 : is_std_string (store_u16 Legacy.TWIST_COMMAND ++ [x08]))
    by (vm_compute; discriminate).
  repeat (split; [assumption|]).
  exact (legacy_evaluator_does_not_check_the_parse [x08] Legacy.sample_robot H1 H2).
Defined.

Lemma legacy_pose_request_and_unknown_type_witness :
  0 <= 9 < 65536 /\
  is_std_string (store_u16 9 ++ []) /\
  exists r1,
    Legacy.evaluateRequest (store_u16 9 ++ []) Legacy.sample_robot
      = Done (if 9 =? Legacy.CURRENT_POSE then Legacy.CURRENT_POSE else 9) r1 /\
    Legacy.currentPose r1 = Legacy.currentPose Legacy.sample_robot /\
    (9 = Legacy.CURRENT_POSE ->
       outbox (Legacy.commandTransport r1)
       = outbox (Legacy.commandTransport Legacy.sample_robot) ++
           [store_u16 Legacy.CURRENT_POSE
            ++ SerializeToString (Legacy.currentPose Legacy.sample_robot)]) /\
    (9 <> Legacy.CURRENT_POSE -> 9 <> Legacy.TARGET_POSE ->
     9 <> Legacy.TWIST_COMMAND ->
       outbox (Legacy.commandTransport r1)
       = outbox (Legacy.commandTransport Legacy.sample_robot)
         ++ [store_u16 Legacy.NO_DATA] /\
       Legacy.targetPose r1 = Legacy.targetPose Legacy.sample_robot /\
       Legacy.twistCommand r1 = Legacy.twistCommand Legacy.sample_robot).
Proof.
  assert (H1 : 0 <= 9 < 65536) by lia.
  assert (H2 : is_std_string (store_u16 9 ++ [])) by (vm_compute; discriminate).
  repeat (split; [assumption|]).
  exact (legacy_pose_request_and_unknown_type 9 [] Legacy.sample_robot H1 H2).
Defined.

Lemma pose_conversion_round_trip_witness :
  (forall (p : Z * Z * Z) (q p0 : Z * Z * Z), (fun a _ => a) ((fun a _ => a) p q) p0 = p) /\
  (forall (o : Z) (q o0 : Z), (fun a _ => a) ((fun a _ => a) o q) o0 = o) /\
  let from := RosConversion.mkPose (1, 2, 3) 4 in
  let back := RosConversion.mkPose (0, 0, 0) 0 in
  let scratch := RosConversion.mkRosPose (9, 9, 9) 9 in
  let to := RosConversion.mkPoseStamped
              (RosConversion.mkHeader 7 0%nat "old") scratch in
  let stamped :=
    RosConversion.convert_stamped (fun a _ => a) (fun a _ => a)
      from to 5%nat "map" in
  RosConversion.convert_from_ros (fun a _ => a) (fun a _ => a)
    (RosConversion.convert (fun a _ => a) (fun a _ => a) from scratch) back
  = from /\
  RosConversion.convert_from_ros_stamped (fun a _ => a) (fun a _ => a)
    stamped back = from /\
  RosConversion.header stamped
  = RosConversion.mkHeader (RosConversion.seq (RosConversion.header to)) 5%nat "map".
Proof.
  assert (H1 : forall (p : Z * Z * Z) (q p0 : Z * Z * Z),
            (fun a _ => a) ((fun a _ => a) p q) p0 = p) by reflexivity.
  assert (H2 : forall (o : Z) (q o0 : Z),
            (fun a _ => a) ((fun a _ => a) o q) o0 = o) by reflexivity.
  repeat (split; [assumption|]).
  exact (pose_conversion_round_trip (fun a _ => a) (fun a _ => a)
           (fun a _ => a) (fun a _ => a)
           (RosConversion.mkPose (1, 2, 3) 4) (RosConversion.mkPose (0, 0, 0) 0)
           (RosConversion.mkRosPose (9, 9, 9) 9)
           (RosConversion.mkPoseStamped (RosConversion.mkHeader 7 0%nat "old")
              (RosConversion.mkRosPose (9, 9, 9) 9))
           5%nat "map" H1 H2).
Defined.

Lemma permission_buffer_is_never_written_witness :
  (forall k, commandbuffers (robot []) !! k = Some (Some p_permissionCommand) ->
             k = PERMISSION) /\
  exists r1,
    evaluateRequest (store_u16 PERMISSION ++ permission_u1) (robot [])
      = Done PERMISSION r1 /\
    permissionCommand r1 = permissionCommand (robot []).
Proof.
  assert (H1 : forall k,
            commandbuffers (robot []) !! k = Some (Some p_permissionCommand) ->
            k = PERMISSION) by apply constructor_permission_key.
  split; [assumption|].
  eexists.
  refine ((fun Hev => conj Hev
             (permission_buffer_is_never_written _ _ _ _ H1 Hev)) _).
  compute_lhs. reflexivity.
Defined.

Lemma waiting_commands_are_all_answered_witness :
  Forall (goes_through (robot [twist_5; unknown_message]))
         (inbox (commandTransport (robot [twist_5; unknown_message]))) /\
  exists r1,
    update_loop
      (S (length (inbox (commandTransport (robot [twist_5; unknown_message])))))
      (robot [twist_5; unknown_message]) = Some (Done tt r1) /\
    inbox (commandTransport r1) = [] /\
    length (replies r1)
      = (length (replies (robot [twist_5; unknown_message]))
         + length (inbox (commandTransport (robot [twist_5; unknown_message]))))%nat /\
    (inbox (commandTransport (robot [twist_5; unknown_message])) <> [] ->
     connected r1 = true).
Proof.
  assert (H1 : Forall (goes_through (robot [twist_5; unknown_message]))
                 (inbox (commandTransport (robot [twist_5; unknown_message])))).
  { change (inbox (commandTransport (robot [twist_5; unknown_message])))
      with [twist_5; unknown_message].
    repeat constructor.
    - exists TWIST_COMMAND, [x08; x05]. split_and!.
      + reflexivity.
      + vm_compute. discriminate.
      + vm_compute. repeat split; discriminate.
      + vm_compute. discriminate.
      + intros p Hp. vm_compute in Hp. injection Hp as <-. reflexivity.
    - exists 65535, [x01]. split_and!.
      + reflexivity.
      + vm_compute. discriminate.
      + vm_compute. repeat split; discriminate.
      + vm_compute. discriminate.
      + intros p Hp. vm_compute in Hp. discriminate. }
  split; [assumption|].
  exact (waiting_commands_are_all_answered (robot [twist_5; unknown_message]) H1).
Defined.
